(** * Parallel.GAMIT integrity tools: a shallow embedding and its properties

    The development follows the Python sources
      - [classes/pyEvents.py]                  (module [pyEvents])
      - [parallel-gamit/classes/Utils.py]      (module [Utils])
      - [parallel-gamit/com/IntegrityCheck.py] (modules [Gaps], [SerialCheck],
        [StnInfoCheck], [Spatial], [Rename] and [Dispatcher])
    Python dictionaries are finite maps, query results are lists of rows,
    exceptions are an explicit [Raise] result, and the catalog, the archive
    and what is written for the user are threaded as explicit state.  The
    collaborators the sources import but do not contain ([pyDate],
    [pyStationInfo], [dbConnection], [pyPPP], [pyJobServer],
    [pyArchiveStruct]) are modelled from the specification or taken as
    parameters; each such definition says so. *)

From Stdlib Require Import ZArith List String Ascii Bool Lia Permutation Sorted.
From stdpp Require Import base gmap strings list pretty.

Local Open Scope string_scope.

(** ** Python exceptions and fallible computations *)

Inductive exn : Type :=
| Exception (msg : string)
| ValueError (msg : string)
| IndexError (msg : string)
| TypeError (msg : string)
| AttributeError (msg : string)
| OSError (msg : string)
| pyStationInfoException (msg : string).

(** [str(e)] *)
Definition exn_str (e : exn) : string :=
  match e with
  | Exception m | ValueError m | IndexError m | TypeError m
  | AttributeError m | OSError m | pyStationInfoException m => m
  end.

Inductive result (A : Type) : Type :=
| Ok (a : A)
| Raise (e : exn).
Arguments Ok {A} a.
Arguments Raise {A} e.

Definition rbind {A B} (r : result A) (k : A -> result B) : result B :=
  match r with
  | Ok a => k a
  | Raise e => Raise e
  end.

#[global] Instance result_ret : MRet result := @Ok.
#[global] Instance result_bind : MBind result := fun A B k r => rbind r k.

Definition is_Ok {A} (r : result A) : bool :=
  match r with Ok _ => true | Raise _ => false end.

(** ** Python values stored in dynamically typed slots *)

Inductive pyval : Type :=
| PyNone
| PyStr (s : string)
| PyInt (z : Z)
| PyDatetime (t : Z).

(** Python's [x == 'literal'] on a dynamically typed slot. *)
Definition py_eq_str (v : pyval) (s : string) : bool :=
  match v with
  | PyStr s' => bool_decide (s' = s)
  | _ => false
  end.

(** Python's stable [sorted(l, key=key)] for integer keys (also the order
    an [ORDER BY] query returns). *)
Fixpoint insert_by {A} (key : A -> Z) (x : A) (l : list A) : list A :=
  match l with
  | [] => [x]
  | y :: l' => if (key y <? key x)%Z then y :: insert_by key x l' else x :: l
  end.

Definition sort_by {A} (key : A -> Z) (l : list A) : list A :=
  foldr (insert_by key) [] l.

(** The order [sort_by] establishes. *)
Definition key_le {A} (key : A -> Z) (a b : A) : Prop := (key a <= key b)%Z.

(** Python's [l[k]], negative indices counting from the end. *)
Definition py_index {A} (l : list A) (k : Z) : result A :=
  let n := Z.of_nat (length l) in
  let k' := (if k <? 0 then n + k else k)%Z in
  if (k' <? 0)%Z then Raise (IndexError "list index out of range")
  else match l !! Z.to_nat k' with
       | Some x => Ok x
       | None => Raise (IndexError "list index out of range")
       end.

(** [timedelta / 2]: division of a number of microseconds, rounded to the
    nearest microsecond, halves to the even neighbour. *)
Definition half_even (delta : Z) : Z :=
  let q := (delta / 2)%Z in
  if (delta mod 2 =? 0)%Z then q else if Z.even q then q else (q + 1)%Z.

(** Python's [l[0:-2]]. *)
Definition drop_last2 {A} (l : list A) : list A := take (length l - 2) l.

(** ** classes/pyEvents.py *)

Module pyEvents.

(** What [Event.__init__] reads from the interpreter: the clock, the host
    name, and the call stack ([caller_module] is the [__name__] of
    [inspect.getmodule(inspect.stack()[1][0])] when that is not [None],
    [caller_function] is [inspect.stack()[1][3]], and [call_stack] lists,
    outermost first and ending with the frame of [__init__] itself, the
    function name and the formatted entry of every frame). *)
Record Env : Type := mkEnv {
  now : Z;
  node : string;
  caller_module : option string;
  caller_function : string;
  call_stack : list (string * string)
}.

Definition valid_fields : list string :=
  ["EventDate"; "EventType"; "NetworkCode"; "StationCode"; "Year"; "DOY";
   "Description"; "node"; "stack"; "module"].

(** The fields assigned before the calling module is looked up. *)
Definition defaults (env : Env) : gmap string pyval :=
  <["stack" := PyNone]>
  (<["node" := PyStr (node env)]>
  (<["Description" := PyStr ""]>
  (<["DOY" := PyNone]>
  (<["Year" := PyNone]>
  (<["StationCode" := PyNone]>
  (<["NetworkCode" := PyNone]>
  (<["EventType" := PyStr "info"]>
  (<["EventDate" := PyDatetime (now env)]> ∅)))))))).

(** [self['module']]: [stack[-1][2]] raises [IndexError] on an empty
    [stack = traceback.extract_stack()[0:-2]]. *)
Definition module_name (env : Env) : result string :=
  match caller_module env with
  | None => Ok (caller_function env)
  | Some m =>
      match last (drop_last2 (call_stack env)) with
      | Some fr => Ok (m ++ "." ++ fst fr)
      | None => Raise (IndexError "list index out of range")
      end
  end.

(** [for key in kwargs: ...] *)
Fixpoint set_kwargs (self : gmap string pyval) (kwargs : list (string * pyval))
  : result (gmap string pyval) :=
  match kwargs with
  | [] => Ok self
  | (key, arg) :: rest =>
      match self !! key with
      | None => Raise (Exception "Provided key not in list of valid fields.")
      | Some _ => set_kwargs (<[key := arg]> self) rest
      end
  end.

(** [''.join(traceback.format_stack()[0:-2])] *)
Definition format_stack (env : Env) : string :=
  String.concat "" (map snd (drop_last2 (call_stack env))).

Definition set_stack (env : Env) (self : gmap string pyval) : gmap string pyval :=
  match self !! "EventType" with
  | Some ty =>
      if py_eq_str ty "error"
      then <["stack" := PyStr (format_stack env)]> self
      else <["stack" := PyNone]> self
  | None => self
  end.

Definition __init__ (env : Env) (kwargs : list (string * pyval))
  : result (gmap string pyval) :=
  m ← module_name env;
  self ← set_kwargs (<["module" := PyStr m]> (defaults env)) kwargs;
  Ok (set_stack env self).

(** The [stack] field holds something other than [None]. *)
Definition stack_populated (ev : gmap string pyval) : Prop :=
  exists s, ev !! "stack" = Some (PyStr s).

End pyEvents.

(** ** Python strings *)

Module Str.

(** [c in s] for a one-character [c]. *)
Fixpoint contains (c : ascii) (s : string) : bool :=
  match s with
  | EmptyString => false
  | String c' s' => Ascii.eqb c' c || contains c s'
  end.

(** [s.split(sep)] for a one-character separator. *)
Fixpoint split (sep : ascii) (s : string) : list string :=
  match s with
  | EmptyString => [EmptyString]
  | String c s' =>
      if Ascii.eqb c sep then EmptyString :: split sep s'
      else match split sep s' with
           | p :: ps => String c p :: ps
           | [] => [String c EmptyString]
           end
  end.

Definition is_space (c : ascii) : bool :=
  let n := nat_of_ascii c in
  (n =? 32)%nat || ((9 <=? n)%nat && (n <=? 13)%nat) || ((28 <=? n)%nat && (n <=? 31)%nat).

Definition digit_of (c : ascii) : option Z :=
  let n := nat_of_ascii c in
  if ((48 <=? n)%nat && (n <=? 57)%nat) then Some (Z.of_nat n - 48)%Z else None.

Fixpoint lstrip (s : list ascii) : list ascii :=
  match s with
  | c :: s' => if is_space c then lstrip s' else s
  | [] => []
  end.

Definition strip (s : list ascii) : list ascii := rev (lstrip (rev (lstrip s))).

(** Decimal digits, single underscores allowed between two digits.
    [prev] tells whether the previous character was a digit. *)
Fixpoint digits (acc : Z) (prev : bool) (s : list ascii) : option Z :=
  match s with
  | [] => if prev then Some acc else None
  | c :: s' =>
      match digit_of c with
      | Some d => digits (10 * acc + d)%Z true s'
      | None =>
          if Ascii.eqb c "_" && prev
          then match s' with
               | c' :: _ => match digit_of c' with
                            | Some _ => digits acc false s'
                            | None => None
                            end
               | [] => None
               end
          else None
      end
  end.

(** [int(s)] in base ten; [None] stands for the [ValueError]. *)
Definition int_opt (s : string) : option Z :=
  match strip (list_ascii_of_string s) with
  | [] => None
  | c :: body =>
      if Ascii.eqb c "-" then Z.opp <$> digits 0 false body
      else if Ascii.eqb c "+" then digits 0 false body
      else digits 0 false (c :: body)
  end.

Definition int (s : string) : result Z :=
  match int_opt s with
  | Some z => Ok z
  | None => Raise (ValueError ("invalid literal for int() with base 10: " ++ s))
  end.

Definition lower_ascii (c : ascii) : ascii :=
  let n := nat_of_ascii c in
  if ((65 <=? n)%nat && (n <=? 90)%nat) then ascii_of_nat (n + 32) else c.

(** [s.lower()] on ASCII text. *)
Fixpoint lower (s : string) : string :=
  match s with
  | EmptyString => EmptyString
  | String c s' => String (lower_ascii c) (lower s')
  end.

(** [s.replace(old, new)]: every occurrence of [old], from the left and
    without overlap; [skip] counts the characters of an occurrence that
    are still to be dropped. *)
Fixpoint replace_from (skip : nat) (old new s : string) : string :=
  match s with
  | EmptyString => EmptyString
  | String c s' =>
      match skip with
      | S k => replace_from k old new s'
      | O =>
          if String.prefix old s
          then new ++ replace_from (String.length old - 1) old new s'
          else String c (replace_from 0 old new s')
      end
  end.

Fixpoint intersperse (new s : string) : string :=
  match s with
  | EmptyString => new
  | String c s' => new ++ String c (intersperse new s')
  end.

Definition replace (old new s : string) : string :=
  match old with
  | EmptyString => intersperse new s
  | _ => replace_from 0 old new s
  end.

Definition is_slash (c : ascii) : bool := Ascii.eqb c "/".

Fixpoint drop_slashes (s : list ascii) : list ascii :=
  match s with
  | c :: s' => if is_slash c then drop_slashes s' else s
  | [] => []
  end.

Fixpoint until_slash (s : list ascii) : list ascii :=
  match s with
  | c :: s' => if is_slash c then [] else c :: until_slash s'
  | [] => []
  end.

(** [os.path.split(p)] *)
Definition path_split (p : string) : string * string :=
  let cs := list_ascii_of_string p in
  let tail := rev (until_slash (rev cs)) in
  let head := take (length cs - length tail) cs in
  let head := if forallb is_slash head then head else rev (drop_slashes (rev head)) in
  (string_of_list_ascii head, string_of_list_ascii tail).

(** [os.path.join(a, b)] *)
Definition path_join (a b : string) : string :=
  if String.prefix "/" b then b
  else match rev (list_ascii_of_string a) with
       | [] => b
       | c :: _ => if is_slash c then a ++ b else a ++ "/" ++ b
       end.

End Str.

(** ** The date utility *)

Module pyDate.

Local Open Scope Z_scope.

(** Modelled from the spec: the module [pyDate] is missing from the
    sources.  A temporal point is kept as its modified Julian day and,
    when it was built from a full timestamp, the time of day
    (microseconds); equality is by Julian day number, ordering adds the
    time of day.  Timestamps ([datetime] values) are microseconds
    counted from the start of modified Julian day 0. *)
Record Date : Type := mkDate { mjd : Z; tod : Z }.

(** Modelled from the spec: the microseconds of a day. *)
Definition day_us : Z := 86400000000.

(** Modelled from the spec: [Date(mjd=m)]. *)
Definition of_mjd (m : Z) : Date := mkDate m 0.

(** Modelled from the spec: [Date(datetime=t)]. *)
Definition of_datetime (t : Z) : Date := mkDate (t / day_us) (t mod day_us).

(** Modelled from the spec: [d.datetime()]. *)
Definition datetime (d : Date) : Z := mjd d * day_us + tod d.

(** Modelled from the spec: [Date(year=y, doy=d)], in the proleptic
    Gregorian calendar. *)
Definition of_year_doy (y doy : Z) : Date :=
  of_mjd (365 * (y - 1) + (y - 1) / 4 - (y - 1) / 100 + (y - 1) / 400 + doy - 678576).

(** Modelled from the spec: [d + n] for an integer number of days. *)
Definition add (d : Date) (n : Z) : Date := of_mjd (mjd d + n).

(** Modelled from the spec: [d - n] for an integer number of days. *)
Definition sub (d : Date) (n : Z) : Date := of_mjd (mjd d - n).

(** Modelled from the spec: [a == b], by Julian day number. *)
Definition eqb (a b : Date) : bool := mjd a =? mjd b.

(** Modelled from the spec: [a < b], the time of day included. *)
Definition ltb (a b : Date) : bool := datetime a <? datetime b.

(** Modelled from the spec: the constructors of [pyDate.Date] that decode
    the command-line formats (fractional year, year and day of year,
    year/month/day, GPS week and week day), together with the validation
    they perform, are missing from the sources; [Date_fyear] stands for
    [Date(fyear=float(s))] as a whole. *)
Class Formats : Type := {
  Date_fyear : string -> result Date;
  Date_year_doy : Z -> Z -> result Date;
  Date_ymd : Z -> Z -> Z -> result Date;
  Date_gps : Z -> Z -> result Date
}.

(** Modelled from the spec: the integer-valued formats without any
    validation; the fractional year is refused.  Used by the examples. *)
Definition integer_formats : Formats := {|
  Date_fyear := fun s => Raise (ValueError ("could not convert string to float: " ++ s));
  Date_year_doy := fun y d => Ok (of_year_doy y d);
  Date_ymd := fun y m d =>
    let k := if (((y mod 4 =? 0) && negb (y mod 100 =? 0)) || (y mod 400 =? 0))%bool
             then 1 else 2 in
    Ok (of_year_doy y (275 * m / 9 - k * ((m + 9) / 12) + d - 30));
  Date_gps := fun w d => Ok (of_mjd (w * 7 + 44244 + d))
|}.

End pyDate.

(** ** parallel-gamit/classes/Utils.py *)

Module Utils.
Import pyDate.

(** The two readings of [datetime.now()]: when the defaults are filled in,
    and when a number of days is subtracted from today. *)
Record Clock : Type := mkClock { now_fill : Z; now_days : Z }.

Definition bad_date_prefix : string :=
  "Could not decode input date (valid entries: fyear, yyyy_ddd, yyyy/mm/dd, gpswk-wkday). Error while reading the date start/end parameters: ".

Section process_date.
Context {F : Formats}.
Variable clk : Clock.
Variable allow_days : bool.

(** The body of the [try]: the value to be stored in [dates[i]], or
    [None] when no branch assigns. *)
Definition decode (i : nat) (arg : string) : result (option Date) :=
  if Str.contains "." arg then
    d ← Date_fyear arg; Ok (Some d)
  else if Str.contains "_" arg then
    y ← (py_index (Str.split "_" arg) 0%Z ≫= Str.int);
    n ← (py_index (Str.split "_" arg) 1%Z ≫= Str.int);
    d ← Date_year_doy y n; Ok (Some d)
  else if Str.contains "/" arg then
    y ← (py_index (Str.split "/" arg) 0%Z ≫= Str.int);
    m ← (py_index (Str.split "/" arg) 1%Z ≫= Str.int);
    n ← (py_index (Str.split "/" arg) 2%Z ≫= Str.int);
    d ← Date_ymd y m n; Ok (Some d)
  else if Str.contains "-" arg then
    w ← (py_index (Str.split "-" arg) 0%Z ≫= Str.int);
    n ← (py_index (Str.split "-" arg) 1%Z ≫= Str.int);
    d ← Date_gps w n; Ok (Some d)
  else if (0 <? String.length arg)%nat then
    if allow_days && (i =? 0)%nat then
      n ← Str.int arg; Ok (Some (sub (of_datetime (now_days clk)) n))
    else Raise (ValueError "Invalid input date: allow_days was set to False.")
  else Ok None.

(** [dates[i] = d] *)
Definition store (i : nat) (v : option Date) (dates : list (option Date))
  : result (list (option Date)) :=
  match v with
  | None => Ok dates
  | Some d => if (i <? length dates)%nat then Ok (<[i := Some d]> dates)
              else Raise (IndexError "list assignment index out of range")
  end.

Fixpoint decode_all (i : nat) (args : list string) (dates : list (option Date))
  : result (list (option Date)) :=
  match args with
  | [] => Ok dates
  | arg :: rest =>
      match decode i arg ≫= (fun v => store i v dates) with
      | Ok dates' => decode_all (S i) rest dates'
      | Raise e => Raise (ValueError (bad_date_prefix ++ exn_str e))
      end
  end.

(** None of the characters that select a calendar format occurs. *)
Definition bare (arg : string) : bool :=
  negb (Str.contains "." arg) && negb (Str.contains "_" arg) &&
  negb (Str.contains "/" arg) && negb (Str.contains "-" arg).

(** [process_date(arg, missing_input, allow_days)]; [arg] is [None] when
    the option was not given on the command line. *)
Definition process_date (arg : option (list string)) (missing_input : string)
  : result (list (option Date)) :=
  let dates :=
    if bool_decide (missing_input = "fill")
    then [Some (of_year_doy 1980 1); Some (of_datetime (now_fill clk))]
    else [None; None] in
  match arg with
  | None | Some [] => Ok dates
  | Some args => decode_all 0 args dates
  end.

End process_date.

End Utils.

(** ** The catalog *)

Module Rinex.

(** A row of the [rinex] table and of its [rinex_proc] view. *)
Record row : Type := mkRow {
  NetworkCode : string;
  StationCode : string;
  ObservationYear : Z;
  ObservationDOY : Z;
  ObservationSTime : Z;
  ObservationETime : Z;
  ReceiverSerial : string;
  Filename : string
}.

(** [pyDate.Date(year=rnx['ObservationYear'], doy=rnx['ObservationDOY'])] *)
Definition date (r : row) : pyDate.Date :=
  pyDate.of_year_doy (ObservationYear r) (ObservationDOY r).

(** Modelled from the spec: the query language of the catalog is missing
    from the sources.  [select] is the range query
    [SELECT * FROM t WHERE "NetworkCode" = net AND "StationCode" = stn AND
     "ObservationSTime" BETWEEN start.yyyymmdd() AND end.yyyymmdd()
     ORDER BY "ObservationSTime"]: both bounds are dates, read by the
    catalog as the timestamp of their midnight, [BETWEEN] is inclusive, and
    rows with equal start times keep their table order. *)
Definition midnight (d : pyDate.Date) : Z := (pyDate.mjd d * pyDate.day_us)%Z.

(** Modelled from the spec: the row belongs to the station. *)
Definition of_station (net stn : string) (r : row) : bool :=
  String.eqb (NetworkCode r) net && String.eqb (StationCode r) stn.

(** Modelled from the spec: the [WHERE] clause of the range query. *)
Definition in_range (net stn : string) (start_date end_date : pyDate.Date) (r : row) : bool :=
  of_station net stn r &&
  (midnight start_date <=? ObservationSTime r)%Z &&
  (ObservationSTime r <=? midnight end_date)%Z.

(** Modelled from the spec: [ORDER BY "ObservationSTime"]. *)
Definition order_by_stime (l : list row) : list row := sort_by ObservationSTime l.

(** Modelled from the spec: the range query as a whole. *)
Definition select (tbl : list row) (net stn : string) (start_date end_date : pyDate.Date)
  : list row :=
  order_by_stime (List.filter (in_range net stn start_date end_date) tbl).

End Rinex.

(** ** parallel-gamit/com/IntegrityCheck.py: data gaps *)

Module Gaps.
Import pyDate.
Local Open Scope Z_scope.

(** [GetGaps(cnn, NetworkCode, StationCode, start_date, end_date)];
    [rinex_proc] is the table the connection gives access to.  The result
    is the pair [(gaps, possible_doys)]. *)
Definition GetGaps (rinex_proc : list Rinex.row) (NetworkCode StationCode : string)
    (start_date end_date : Date) : list Date * list Date :=
  let rnxtbl := Rinex.select rinex_proc NetworkCode StationCode start_date end_date in
  match rnxtbl, last rnxtbl with
  | first :: _, Some final =>
      let start_date := Rinex.date first in
      let end_date := Rinex.date final in
      let possible_doys := map of_mjd (seqZ (mjd start_date) (mjd end_date + 1 - mjd start_date)) in
      let actual_doys := map Rinex.date rnxtbl in
      let gaps := List.filter (fun doy => negb (existsb (eqb doy) actual_doys)) possible_doys in
      (gaps, possible_doys)
  | _, _ => ([], [])
  end.

(** One reported line of [GetStnGaps]:
    ['%s.%s gap in data found %s -> %s (%i days)']. *)
Record gap : Type := mkGap { gap_begin : Date; gap_end : Date; days : Z }.

(** The body of the loop of [GetStnGaps] for [i > 0]; [prev] is
    [rnxtbl[i-1]], the state is [(gap_begin, gaps)]. *)
Definition scan_step (ignore_val : Z) (prev rnx : Rinex.row)
    (st : option Date * list gap) : option Date * list gap :=
  let d1 := Rinex.date rnx in
  let d2 := Rinex.date prev in
  let '(gap_begin, gaps) := st in
  let gap_begin :=
    if negb (eqb d1 (add d2 1)) && negb (bool_decide (is_Some gap_begin))
    then Some (add d2 1) else gap_begin in
  match gap_begin with
  | Some b =>
      if eqb d1 (add d2 1) then
        let days := (mjd (sub d2 1) - mjd b) + 1 in
        (None, if ignore_val <? days then (gaps ++ [mkGap b (sub d2 1) days])%list else gaps)
      else (gap_begin, gaps)
  | None => (gap_begin, gaps)
  end.

Fixpoint scan (ignore_val : Z) (prev : Rinex.row) (rows : list Rinex.row)
    (st : option Date * list gap) : option Date * list gap :=
  match rows with
  | [] => st
  | rnx :: rest => scan ignore_val rnx rest (scan_step ignore_val prev rnx st)
  end.

(** The gaps [GetStnGaps] collects for one station of [stnlist]. *)
Definition station_gaps (rinex_proc : list Rinex.row) (ignore_val : Z)
    (NetworkCode StationCode : string) (start_date end_date : Date) : list gap :=
  match Rinex.select rinex_proc NetworkCode StationCode start_date end_date with
  | [] => []
  | first :: rest => snd (scan ignore_val first rest (None, []))
  end.

(** What [GetStnGaps] writes for a station: the gaps found, or the line
    ['No data gaps found for %s.%s']. *)
Inductive report : Type :=
| DataGaps (NetworkCode StationCode : string) (gaps : list gap)
| NoDataGaps (NetworkCode StationCode : string).

Definition GetStnGaps (rinex_proc : list Rinex.row) (stnlist : list (string * string))
    (ignore_val : Z) (start_date end_date : Date) : list report :=
  map (fun stn =>
         let '(NetworkCode, StationCode) := stn in
         match station_gaps rinex_proc ignore_val NetworkCode StationCode start_date end_date with
         | [] => NoDataGaps NetworkCode StationCode
         | gaps => DataGaps NetworkCode StationCode gaps
         end) stnlist.

(** A day of observations for the examples: the session runs from midnight
    to midnight. *)
Definition day_row (net stn : string) (year doy : Z) : Rinex.row :=
  let d := of_year_doy year doy in
  Rinex.mkRow net stn year doy (Rinex.midnight d) (Rinex.midnight (add d 1)) "" "".

End Gaps.

(** ** Station information *)

Module pyStationInfo.
Import pyDate.
Local Open Scope Z_scope.

Record StationInfoRecord : Type := mkRecord {
  NetworkCode : string;
  StationCode : string;
  DateStart : Date;
  DateEnd : option Date;
  ReceiverCode : string;
  ReceiverSerial : string;
  ReceiverFirmware : string;
  AntennaCode : string;
  RadomeCode : string;
  AntennaSerial : string;
  HeightCode : string;
  Comments : string
}.

(** [record['StationCode'] = code] *)
Definition set_StationCode (code : string) (r : StationInfoRecord) : StationInfoRecord :=
  mkRecord (NetworkCode r) code (DateStart r) (DateEnd r) (ReceiverCode r)
    (ReceiverSerial r) (ReceiverFirmware r) (AntennaCode r) (RadomeCode r)
    (AntennaSerial r) (HeightCode r) (Comments r).

(** The [stationinfo] table: the records of every station. *)
Abbreviation table := (gmap (string * string) (list StationInfoRecord)).

(** Modelled from the spec: the interval store [pyStationInfo.StationInfo]
    is missing from the sources.  Loading fetches the records of a station
    ordered by [DateStart]; it fails with [pyStationInfoException] when
    the station has no record and [allow_empty] is not requested. *)
Definition StationInfo (tbl : table) (net stn : string) (allow_empty : bool)
  : result (list StationInfoRecord) :=
  let records := sort_by (fun r => datetime (DateStart r)) (default [] (tbl !! (net, stn))) in
  match records with
  | [] => if allow_empty then Ok []
          else Raise (pyStationInfoException
                        ("Could not find ANY valid station info entry for " ++ net ++ "." ++ stn))
  | _ => Ok records
  end.

(** Modelled from the spec: the interval [DateStart, DateEnd) of a record
    contains the timestamp; an absent [DateEnd] leaves the interval open. *)
Definition covers (t : Z) (r : StationInfoRecord) : bool :=
  (datetime (DateStart r) <=? t) &&
  match DateEnd r with
  | Some e => t <? datetime e
  | None => true
  end.

(** Modelled from the spec: loading as of a date resolves, besides, the
    record whose interval contains the date, the one with the latest
    [DateStart] if several do, and fails with [pyStationInfoException]
    when the date lies outside every interval.  The result is
    [(records, currentrecord)]. *)
Definition StationInfo_at (tbl : table) (net stn : string) (date : Date)
  : result (list StationInfoRecord * StationInfoRecord) :=
  records ← StationInfo tbl net stn false;
  match last (List.filter (covers (datetime date)) records) with
  | Some r => Ok (records, r)
  | None => Raise (pyStationInfoException
                     ("Could not find a valid station info entry for " ++ net ++ "." ++ stn))
  end.

(** Modelled from the spec: two records overlap when their intervals
    intersect.  [horizon] is the instant up to which an open interval is
    taken to extend when overlaps are checked ([None]: indefinitely). *)
Definition until (horizon : option Z) (r : StationInfoRecord) : option Z :=
  match DateEnd r with
  | Some e => Some (datetime e)
  | None => horizon
  end.

(** Modelled from the spec: the instant lies before the end of an
    interval. *)
Definition before (t : Z) (bound : option Z) : bool :=
  match bound with
  | Some b => t <? b
  | None => true
  end.

(** Modelled from the spec: each of the two intervals starts before the
    other ends. *)
Definition intersects (horizon : option Z) (a b : StationInfoRecord) : bool :=
  before (datetime (DateStart a)) (until horizon b) &&
  before (datetime (DateStart b)) (until horizon a).

(** Modelled from the spec: [InsertStationInfo(record)] on the store of
    the station [(net, stn)] fails when the interval of the new record
    overlaps the interval of an existing record of that station, and
    otherwise adds the record to the station. *)
Definition InsertStationInfo (horizon : option Z) (tbl : table) (net stn : string)
    (record : StationInfoRecord) : result table :=
  let existing := default [] (tbl !! (net, stn)) in
  match List.filter (intersects horizon record) existing with
  | [] => Ok (<[(net, stn) := (existing ++ [record])%list]> tbl)
  | _ => Raise (pyStationInfoException "Record overlaps with existing station.info records")
  end.

End pyStationInfo.

(** The catalog a connection gives access to. *)
Record Catalog : Type := mkCatalog {
  stations : list (string * string);
  rinex : list Rinex.row;
  rinex_proc : list Rinex.row;
  stationinfo : pyStationInfo.table;
  events : list (gmap string pyval)
}.

(** [job.result] and [job.exception] of a finished job. *)
Record Job (R : Type) : Type := mkJob { job_result : option R; job_exception : string }.
Arguments mkJob {R} _ _.
Arguments job_result {R} _.
Arguments job_exception {R} _.

(** [stnrnx_callback(job)]: the state is the global [differences] and what
    [tqdm.write] has shown. *)
Definition stnrnx_callback {R} (job : Job R) (st : list R * list string)
  : list R * list string :=
  match job_result job with
  | Some r => ((fst st ++ [r])%list, snd st)
  | None => (fst st, (snd st ++ [job_exception job])%list)
  end.

(** ** The catalog and the archive as state *)

(** What the commands write for the user, where the text matters. *)
Inductive message : Type :=
| DestinationMissing
| BeginTransfer (n : nat)
| StationInfoError (msg : string)
| ErrorEncountered (msg : string)
| FileNotFound (path : string).

(** Modelled from the spec: the connection [dbConnection.Cnn] is missing
    from the sources.  It offers explicit transaction boundaries:
    [transaction] holds, while a transaction is open, the catalog as it was
    when the transaction began.  The archive is the set of its files and
    the set of its directories. *)
Record World : Type := mkWorld {
  db : Catalog;
  transaction : option Catalog;
  files : gset string;
  dirs : gset string;
  shown : list message
}.

Definition set_db (c : Catalog) (w : World) : World :=
  mkWorld c (transaction w) (files w) (dirs w) (shown w).
Definition set_transaction (t : option Catalog) (w : World) : World :=
  mkWorld (db w) t (files w) (dirs w) (shown w).
Definition set_files (f : gset string) (w : World) : World :=
  mkWorld (db w) (transaction w) f (dirs w) (shown w).
Definition set_dirs (d : gset string) (w : World) : World :=
  mkWorld (db w) (transaction w) (files w) d (shown w).
Definition set_shown (l : list message) (w : World) : World :=
  mkWorld (db w) (transaction w) (files w) (dirs w) l.

Definition set_rinex (rows : list Rinex.row) (c : Catalog) : Catalog :=
  mkCatalog (stations c) rows (rinex_proc c) (stationinfo c) (events c).
Definition set_stationinfo (t : pyStationInfo.table) (c : Catalog) : Catalog :=
  mkCatalog (stations c) (rinex c) (rinex_proc c) t (events c).
Definition set_events (l : list (gmap string pyval)) (c : Catalog) : Catalog :=
  mkCatalog (stations c) (rinex c) (rinex_proc c) (stationinfo c) l.

(** Computations that change the world and may raise; the world reached
    when an exception is raised is kept. *)
Definition M (A : Type) : Type := World -> result A * World.

#[global] Instance M_ret : MRet M := fun A a w => (Ok a, w).
#[global] Instance M_bind : MBind M := fun A B k m w =>
  match m w with
  | (Ok a, w') => k a w'
  | (Raise e, w') => (Raise e, w')
  end.

Definition raise {A} (e : exn) : M A := fun w => (Raise e, w).
Definition get : M World := fun w => (Ok w, w).
Definition modify (f : World -> World) : M unit := fun w => (Ok tt, f w).
Definition lift {A} (r : result A) : M A := fun w => (r, w).
Definition show (m : message) : M unit :=
  modify (fun w => set_shown (shown w ++ [m])%list w).

(** [try: m except Exception as e: handler(e)] *)
Definition try_except {A} (m : M A) (handler : exn -> M A) : M A := fun w =>
  match m w with
  | (Ok a, w') => (Ok a, w')
  | (Raise e, w') => handler e w'
  end.

(** Modelled from the spec: [cnn.begin_transac()]. *)
Definition begin_transac : M unit :=
  modify (fun w => set_transaction (Some (db w)) w).

(** Modelled from the spec: [cnn.commit_transac()]. *)
Definition commit_transac : M unit :=
  modify (set_transaction None).

(** Modelled from the spec: [cnn.rollback_transac()] restores the catalog
    as it was when the open transaction began, and does nothing when no
    transaction is open. *)
Definition rollback_transac : M unit :=
  modify (fun w => match transaction w with
                   | Some c => set_transaction None (set_db c w)
                   | None => w
                   end).

(** [shutil.move(src, dst)] of a file. *)
Definition move (src dst : string) : M unit := fun w =>
  if bool_decide (src ∈ files w)
  then (Ok tt, set_files ({[dst]} ∪ (files w ∖ {[src]})) w)
  else (Raise (OSError ("No such file or directory: " ++ src)), w).

(** [if not os.path.isdir(p): os.makedirs(p)] *)
Definition ensure_dir (p : string) : M unit :=
  modify (fun w => if bool_decide (p ∈ dirs w) then w else set_dirs ({[p]} ∪ dirs w) w).

(** ** parallel-gamit/com/IntegrityCheck.py: receiver serial numbers *)

Module SerialCheck.
Import pyDate.

(** A mismatch [[date, rinex_serial, declared_serial]]. *)
Record diff : Type := mkDiff { date : Date; rinex_sn : string; stninfo_sn : string }.

(** The pair a job returns: an error message or [None], a mismatch or
    [None]. *)
Definition outcome : Type := option string * option diff.

(** [compare_stninfo_rinex]; [cnn] is what opening the connection gives
    and [traceback] the text of [traceback.format_exc()]. *)
Definition compare_stninfo_rinex (cnn : result Catalog) (traceback : string)
    (NetworkCode StationCode : string) (STime ETime : Z) (rinex_serial : string)
  : result outcome :=
  match cnn with
  | Raise _ =>
      Ok (Some (traceback ++ " open de database when processing processing "
                ++ NetworkCode ++ "." ++ StationCode), None)
  | Ok cat =>
      let date := of_datetime (STime + half_even (ETime - STime)) in
      match pyStationInfo.StationInfo_at (stationinfo cat) NetworkCode StationCode date with
      | Raise (pyStationInfoException m) =>
          Ok (Some ("Station Information error: " ++ m), None)
      | Raise e => Raise e
      | Ok (_, currentrecord) =>
          let declared := Str.lower (pyStationInfo.ReceiverSerial currentrecord) in
          if negb (String.eqb declared (Str.lower rinex_serial))
          then Ok (None, Some (mkDiff date rinex_serial declared))
          else Ok (None, None)
      end
  end.

(** [get_differences(differences)]: the error messages written to stdout
    and the mismatches sorted by date. *)
Definition get_differences (differences : list outcome) : list string * list diff :=
  (omap fst differences,
   sort_by (fun d => datetime (date d)) (omap snd differences)).

(** What the report loop of [StnInfoRinexIntegrity] writes: the head
    ['Warning! %s.%s from %s %s to '], the tail
    ['%s %s: RINEX SN %s != Station Information %s ...'], or
    ['No inconsistencies found.']. *)
Inductive line : Type :=
| WarningFrom (d : Date)
| WarningTo (d : Date) (rinex_sn stninfo_sn : string)
| NoInconsistencies.

(** The test that keeps a range open: the next mismatch is one day later
    and has the same pair of serial numbers. *)
Definition continues (d next : diff) : bool :=
  eqb (date next) (add (date d) 1) &&
  String.eqb (rinex_sn next) (rinex_sn d) &&
  String.eqb (stninfo_sn next) (stninfo_sn d).

(** [for i, diff in enumerate(diff_vect): ...]; [todo] is what is left of
    [diff_vect] from index [i] on. *)
Fixpoint report_loop (diff_vect : list diff) (i : nat) (todo : list diff)
    (print_head : bool) (out : list line) : result (list line) :=
  match todo with
  | [] => Ok out
  | d :: rest =>
      let out := if print_head then (out ++ [WarningFrom (date d)])%list else out in
      if negb (Z.of_nat i =? Z.of_nat (length diff_vect) - 1)%Z then
        next ← py_index diff_vect (Z.of_nat i + 1);
        if continues d next then report_loop diff_vect (S i) rest false out
        else
          prev ← py_index diff_vect (Z.of_nat i - 1);
          report_loop diff_vect (S i) rest true
            (out ++ [WarningTo (date d) (rinex_sn prev) (stninfo_sn prev)])%list
      else report_loop diff_vect (S i) rest print_head out
  end.

Definition report (diff_vect : list diff) : result (list line) :=
  out ← report_loop diff_vect 0 diff_vect true [];
  match last diff_vect with
  | Some d => Ok (out ++ [WarningTo (date d) (rinex_sn d) (stninfo_sn d)])%list
  | None => Ok (out ++ [NoInconsistencies])%list
  end.

(** From the words of the specification: a mismatch continues the run of
    the one before it when it is dated the day after it and shows the
    identical pair of serial numbers. *)
Definition same_run (d next : diff) : Prop :=
  mjd (date next) = (mjd (date d) + 1)%Z /\
  rinex_sn next = rinex_sn d /\ stninfo_sn next = stninfo_sn d.

#[global] Instance same_run_dec (d next : diff) : Decision (same_run d next).
Proof. unfold same_run. apply _. Defined.

(** From the words of the specification: the maximal runs of consecutive
    dates with the same pair of serial numbers, each run as its first
    mismatch and the mismatches that continue it. *)
Fixpoint runs (dv : list diff) : list (diff * list diff) :=
  match dv with
  | [] => []
  | x :: rest =>
      match runs rest with
      | (y, ys) :: rs =>
          if bool_decide (same_run x y) then (x, y :: ys) :: rs
          else (x, []) :: (y, ys) :: rs
      | [] => [(x, [])]
      end
  end.

(** From the words of the specification: the range reported for a run,
    from the date of its first mismatch to the date of its last, with the
    pair of serial numbers of the run. *)
Definition run_lines (r : diff * list diff) : list line :=
  [WarningFrom (date (fst r));
   WarningTo (date (List.last (snd r) (fst r))) (rinex_sn (fst r)) (stninfo_sn (fst r))].

(** From the words of the specification: one range for each run. *)
Definition expected (dv : list diff) : list line :=
  match dv with
  | [] => [NoInconsistencies]
  | _ => flat_map run_lines (runs dv)
  end.

(** Every run but the last has more than one mismatch. *)
Fixpoint long_runs (rs : list (diff * list diff)) : bool :=
  match rs with
  | r :: rs' =>
      match rs' with
      | [] => true
      | _ :: _ => match snd r with [] => false | _ :: _ => long_runs rs' end
      end
  | [] => true
  end.

(** The dates a report shows: where a range starts and where it ends. *)
Inductive mark : Type := From (d : Date) | To (d : Date).

Definition mark_of (l : line) : list mark :=
  match l with
  | WarningFrom d => [From d]
  | WarningTo d _ _ => [To d]
  | NoInconsistencies => []
  end.

(** The lines the loop writes for [todo], by recursion on the list alone;
    [prev] is the mismatch [diff_vect[i-1]] for the first of [todo]. *)
Fixpoint loop_lines (prev : diff) (print_head : bool) (todo : list diff) : list line :=
  match todo with
  | [] => []
  | d :: rest =>
      (if print_head then [WarningFrom (date d)] else []) ++
      match rest with
      | [] => []
      | next :: _ =>
          if continues d next then loop_lines d false rest
          else WarningTo (date d) (rinex_sn prev) (stninfo_sn prev) :: loop_lines d true rest
      end
  end%list.

(** A mismatch for the examples: a day of 2020 and a pair of serial
    numbers. *)
Definition sample_diff (doy : Z) (rinex_serial declared : string) : diff :=
  mkDiff (of_year_doy 2020 doy) rinex_serial declared.

End SerialCheck.

(** ** parallel-gamit/com/IntegrityCheck.py: station information check *)

Module StnInfoCheck.
Import pyDate.
Local Open Scope Z_scope.

(** The interpreter the tool runs under decides what comparing a method
    with a number means. *)
Inductive python : Type := Python2 | Python3.

(** [(sdate.datetime() - edate.datetime()).total_seconds > 1]: the
    attribute [total_seconds] is not called, so the bound method itself is
    compared with [1].  Python 3 refuses to order a method and an integer;
    Python 2 orders every number before every other object.  The
    difference of the two timestamps plays no part. *)
Definition total_seconds_gt_1 (py : python) (delta : Z) : result bool :=
  match py with
  | Python3 =>
      Raise (TypeError
        "'>' not supported between instances of 'builtin_function_or_method' and 'int'")
  | Python2 => Ok true
  end.

(** [edate.datetime()] for the [DateEnd] of a record. *)
Definition end_datetime (r : pyStationInfo.StationInfoRecord) : result Z :=
  match pyStationInfo.DateEnd r with
  | Some e => Ok (datetime e)
  | None => Raise (AttributeError "'NoneType' object has no attribute 'datetime'")
  end.

(** Modelled from the spec: the answer of the catalog to the count query,
    the number of rows of [rinex_proc] of the station whose
    [ObservationSTime] lies strictly between [edate] and [sdate]. *)
Definition count_between (rinex_proc : list Rinex.row) (net stn : string)
    (edate sdate : Z) : Z :=
  Z.of_nat (length (List.filter
    (fun r => Rinex.of_station net stn r &&
              (edate <? Rinex.ObservationSTime r) && (Rinex.ObservationSTime r <? sdate))
    rinex_proc)).

(** An entry of [station_list_gaps]: the number of files and the two
    records around the gap. *)
Record uncovered : Type := mkUncovered {
  count : Z;
  erecord : pyStationInfo.StationInfoRecord;
  srecord : pyStationInfo.StationInfoRecord
}.

(** The state of the scan: the count queries sent to the catalog, as the
    pairs of bounds, and [station_list_gaps]. *)
Definition scan_state : Type := list (Z * Z) * list uncovered.

(** The body of [for erecord, srecord in zip(...)]. *)
Definition check_pair (py : python) (cat : Catalog) (net stn : string)
    (erecord srecord : pyStationInfo.StationInfoRecord) (st : scan_state)
  : result scan_state :=
  let sdate := datetime (pyStationInfo.DateStart srecord) in
  edate ← end_datetime erecord;
  exceeds ← total_seconds_gt_1 py (sdate - edate);
  if (exceeds : bool) then
    let n := count_between (rinex_proc cat) net stn edate sdate in
    let queries := (fst st ++ [(edate, sdate)])%list in
    if negb (n =? 0) then
      let d1 := sdate in
      let d2 := edate in
      match pyStationInfo.StationInfo_at (stationinfo cat) net stn
              (of_datetime (d1 + half_even (d2 - d1))) with
      | Ok _ => Ok (queries, snd st)
      | Raise (pyStationInfoException _) =>
          Ok (queries, (snd st ++ [mkUncovered n erecord srecord])%list)
      | Raise e => Raise e
      end
    else Ok (queries, snd st)
  else Ok st.

Fixpoint check_pairs (py : python) (cat : Catalog) (net stn : string)
    (pairs : list (pyStationInfo.StationInfoRecord * pyStationInfo.StationInfoRecord))
    (st : scan_state) : result scan_state :=
  match pairs with
  | [] => Ok st
  | (erecord, srecord) :: rest =>
      st' ← check_pair py cat net stn erecord srecord st;
      check_pairs py cat net stn rest st'
  end.

(** The gaps between the station information records of a station (the
    part of [StnInfoCheck] that fills [station_list_gaps]); [records] is
    [stninfo.records]. *)
Definition station_info_gaps (py : python) (cat : Catalog) (net stn : string)
    (records : list pyStationInfo.StationInfoRecord) : result scan_state :=
  if (1 <? length records)%nat
  then check_pairs py cat net stn (zip (take (length records - 1) records) (drop 1 records)) ([], [])
  else Ok ([], []).

(** A record for the examples. *)
Definition sample_record (net stn : string) (date_start : Date) (date_end : option Date)
  : pyStationInfo.StationInfoRecord :=
  pyStationInfo.mkRecord net stn date_start date_end
    "TRIMBLE NETR9" "5137K78333" "4.85" "TRM57971.00" "NONE" "1441112501" "DHARP" "".

End StnInfoCheck.

(** ** parallel-gamit/com/IntegrityCheck.py: spatial coherence *)

Module Spatial.
Local Open Scope Z_scope.

(** A station of the catalog with its distance to the position of the
    solution, in millimetres. *)
Record station : Type := mkStation {
  NetworkCode : string;
  StationCode : string;
  distance : Z
}.

Definition tolerance : Z := 100000.

(** Modelled from the spec: the closest station, as a list of at most one
    element. *)
Fixpoint closest (stns : list station) : list station :=
  match stns with
  | [] => []
  | s :: rest =>
      match closest rest with
      | [] => [s]
      | c :: _ => if distance c <? distance s then [c] else [s]
      end
  end.

(** Modelled from the spec: [pyPPP.PPPSpatialCheck.verify_spatial_coherence]
    is missing from the sources.  It is given the declared station code
    only and returns [(Result, match, closest_stn)]: with no station
    within the tolerance, no match and the closest station overall; with
    exactly one, that station, confirmed when its code is the declared
    one; with several, the closest if it bears the declared code, else the
    stations bearing the declared code together with the closest, else
    all the candidates unconfirmed. *)
Definition verify_spatial_coherence (stns : list station) (declared : string)
  : bool * list station * list station :=
  match List.filter (fun s => distance s <=? tolerance) stns with
  | [] => (false, [], closest stns)
  | [s] => (String.eqb (StationCode s) declared, [s], [])
  | within =>
      match closest within with
      | min_stn :: _ =>
          if String.eqb (StationCode min_stn) declared then (true, [min_stn], [])
          else match List.filter (fun s => String.eqb (StationCode s) declared) within with
               | [] => (false, within, [])
               | stn_match => (true, stn_match, [min_stn])
               end
      | [] => (false, within, [])
      end
  end.

(** What [CheckSpatialCoherence] writes about a solution. *)
Inductive warning : Type :=
| OnlyCandidate (found : station)
| CloserTo (closest_stn matched : station)
| BestMatch (found : station)
| Candidates (found : list station)
| NoMatch (closest_stn : station).

(** The branches of [CheckSpatialCoherence] on the result
    [(Result, match, closest_stn)] of the spatial check, for the solution
    of the declared station [NetworkCode.StationCode]. *)
Definition check_solution (NetworkCode' StationCode' : string)
    (res : bool * list station * list station) : result (list warning) :=
  let '(Result, matched, closest_stn) := res in
  if Result then
    if (length closest_stn =? 0)%nat then
      m0 ← py_index matched 0;
      if negb (String.eqb (NetworkCode m0) NetworkCode') &&
         negb (String.eqb (StationCode m0) StationCode')
      then Ok [OnlyCandidate m0]
      else Ok []
    else
      c ← py_index closest_stn 0;
      m0 ← py_index matched 0;
      Ok [CloserTo c m0]
  else
    if (length matched =? 1)%nat then
      m0 ← py_index matched 0;
      Ok [BestMatch m0]
    else if (1 <? length matched)%nat then Ok [Candidates matched]
    else
      c ← py_index closest_stn 0;
      Ok [NoMatch c].

End Spatial.

(** ** parallel-gamit/com/IntegrityCheck.py: renaming or merging a station *)

Module Rename.
Import pyDate.

(** The steps of the transfer of one file at which a failure is
    simulated. *)
Inductive step : Type := AtUpdate | AtMove | AtCommit | AtStationInfo.

#[global] Instance step_eq_dec : EqDecision step.
Proof. solve_decision. Defined.

(** The exception a simulated failure raises. *)
Definition simulated (s : step) : exn :=
  match s with
  | AtUpdate => Exception "simulated failure of the catalog update"
  | AtMove => OSError "simulated failure of the file move"
  | AtCommit => Exception "simulated failure of the commit"
  | AtStationInfo => Exception "simulated failure of the station information query"
  end.

Section RenameStation.
(** [pyArchiveStruct.RinexStruct.build_rinex_path] is missing from the
    sources and taken as given; [horizon] is the reading of open
    intervals by the station information store; [faults] tells, for
    the position of a file in the queue, the step that is made to
    fail. *)
Variable build_rinex_path : string -> string -> Z -> Z -> string -> string.
Variable horizon : option Z.
Variable faults : nat -> option step.
Variables NetworkCode StationCode DestNetworkCode DestStationCode : string.
Variable archive_path : string.

(** The step of the file at position [i] raises if it is the one made to
    fail. *)
Definition simulate (i : nat) (s : step) : M unit := fun w =>
  if bool_decide (faults i = Some s) then (Raise (simulated s), w) else (Ok tt, w).

(** [os.path.split(os.path.join(archive_path, src_file_path))] *)
Definition src_split (src_rinex : Rinex.row) : string * string :=
  Str.path_split
    (Str.path_join archive_path
       (build_rinex_path NetworkCode StationCode (Rinex.ObservationYear src_rinex)
          (Rinex.ObservationDOY src_rinex) (Rinex.Filename src_rinex))).

(** [src_file.replace(StationCode, DestStationCode)] *)
Definition dest_file (src_rinex : Rinex.row) : string :=
  Str.replace StationCode DestStationCode (snd (src_split src_rinex)).

(** [src_path.replace(StationCode, DestStationCode)
             .replace(NetworkCode, DestNetworkCode)] *)
Definition dest_path (src_rinex : Rinex.row) : string :=
  Str.replace NetworkCode DestNetworkCode
    (Str.replace StationCode DestStationCode (fst (src_split src_rinex))).

(** [os.path.join(src_path, src_file)]: where the file is. *)
Definition src_location (src_rinex : Rinex.row) : string :=
  Str.path_join (fst (src_split src_rinex)) (snd (src_split src_rinex)).

(** [os.path.join(dest_path, dest_file)]: where the file is moved to. *)
Definition dest_location (src_rinex : Rinex.row) : string :=
  Str.path_join (dest_path src_rinex) (dest_file src_rinex).

(** The [WHERE] clause of the [UPDATE]. *)
Definition same_file (src_rinex r : Rinex.row) : bool :=
  String.eqb (Rinex.NetworkCode r) NetworkCode &&
  String.eqb (Rinex.StationCode r) StationCode &&
  (Rinex.ObservationYear r =? Rinex.ObservationYear src_rinex)%Z &&
  (Rinex.ObservationDOY r =? Rinex.ObservationDOY src_rinex)%Z &&
  String.eqb (Rinex.Filename r) (Rinex.Filename src_rinex).

(** The [SET] clause of the [UPDATE]. *)
Definition retag (src_rinex r : Rinex.row) : Rinex.row :=
  Rinex.mkRow DestNetworkCode DestStationCode (Rinex.ObservationYear r)
    (Rinex.ObservationDOY r) (Rinex.ObservationSTime r) (Rinex.ObservationETime r)
    (Rinex.ReceiverSerial r) (Str.replace "d.Z" "o" (dest_file src_rinex)).

(** [UPDATE rinex SET "NetworkCode" = ..., "StationCode" = ...,
    "Filename" = ... WHERE ...] *)
Definition update_rows (src_rinex : Rinex.row) (rows : list Rinex.row) : list Rinex.row :=
  map (fun r => if same_file src_rinex r then retag src_rinex r else r) rows.

(** The world with the row of the file retagged. *)
Definition updated (src_rinex : Rinex.row) (w : World) : World :=
  set_db (set_rinex (update_rows src_rinex (rinex (db w))) (db w)) w.

(** The world with the file at its destination. *)
Definition relocated (src_rinex : Rinex.row) (w : World) : World :=
  set_files ({[dest_location src_rinex]} ∪ (files w ∖ {[src_location src_rinex]})) w.

(** [cnn.query('UPDATE rinex ...')] *)
Definition update_rinex (src_rinex : Rinex.row) : M unit := modify (updated src_rinex).

(** The world in which the commit of a file is reached. *)
Definition before_commit (src_rinex : Rinex.row) (w : World) : World :=
  relocated src_rinex
    (snd (ensure_dir (dest_path src_rinex)
            (updated src_rinex (set_transaction (Some (db w)) w)))).

(** The world in which a step of the transfer of a file fails. *)
Definition failed_at (s : step) (src_rinex : Rinex.row) (w : World) : World :=
  match s with
  | AtUpdate => set_transaction (Some (db w)) w
  | AtMove => snd (ensure_dir (dest_path src_rinex)
                     (updated src_rinex (set_transaction (Some (db w)) w)))
  | AtCommit => before_commit src_rinex w
  | AtStationInfo => set_transaction None (before_commit src_rinex w)
  end.

(** The inner [try] of the station information transfer. *)
Definition copy_station_info (date : Date) : M unit :=
  w ← get;
  _ ← lift (pyStationInfo.StationInfo (stationinfo (db w))
              DestNetworkCode DestStationCode false);
  src ← lift (pyStationInfo.StationInfo_at (stationinfo (db w))
                NetworkCode StationCode date);
  let record := pyStationInfo.set_StationCode DestStationCode (snd src) in
  tbl ← lift (pyStationInfo.InsertStationInfo horizon (stationinfo (db w))
                DestNetworkCode DestStationCode record);
  modify (fun w => set_db (set_stationinfo tbl (db w)) w).

(** [# Station info transfer] *)
Definition transfer_station_info (i : nat) (date : Date) : M unit :=
  try_except
    (simulate i AtStationInfo;;
     w ← get;
     _ ← lift (pyStationInfo.StationInfo_at (stationinfo (db w))
                 DestNetworkCode DestStationCode date);
     mret tt)
    (fun e =>
       match e with
       | pyStationInfoException _ =>
           try_except (copy_station_info date)
             (fun e' =>
                match e' with
                | pyStationInfoException m => show (StationInfoError m)
                | _ => raise e'
                end)
       | _ => raise e
       end).

(** The body of [for src_rinex in tqdm(original_rs)]; [i] is the
    position of the file in the queue. *)
Definition rename_file (i : nat) (src_rinex : Rinex.row) : M unit :=
  begin_transac;;
  simulate i AtUpdate;;
  update_rinex src_rinex;;
  ensure_dir (dest_path src_rinex);;
  simulate i AtMove;;
  move (src_location src_rinex) (dest_location src_rinex);;
  simulate i AtCommit;;
  commit_transac;;
  transfer_station_info i
    (of_year_doy (Rinex.ObservationYear src_rinex) (Rinex.ObservationDOY src_rinex)).

(** [for src_rinex in tqdm(original_rs): ...] *)
Fixpoint rename_files (i : nat) (queue : list Rinex.row) : M unit :=
  match queue with
  | [] => mret tt
  | src_rinex :: rest => rename_file i src_rinex;; rename_files (S i) rest
  end.

(** The rows selected for the transfer, in table order. *)
Definition original_rs (w : World) (start_date end_date : Date) : list Rinex.row :=
  List.filter (Rinex.in_range NetworkCode StationCode start_date end_date) (rinex (db w)).

(** The world in which the transfer of the queue begins. *)
Definition started (w : World) (start_date end_date : Date) : World :=
  snd (show (BeginTransfer (length (original_rs w start_date end_date))) w).

(** The query for the destination station returns a row. *)
Definition destination_exists (w : World) : bool :=
  existsb (fun s => String.eqb (fst s) DestNetworkCode &&
                    String.eqb (snd s) DestStationCode) (stations (db w)).

(** [except Exception: cnn.rollback_transac(); raise] *)
Definition rollback_and_raise (e : exn) : M unit := rollback_transac;; raise e.

(** [RenameStation(cnn, NetworkCode, StationCode, DestNetworkCode,
    DestStationCode, start_date, end_date, archive_path)] *)
Definition RenameStation (start_date end_date : Date) : M unit :=
  try_except
    (w ← get;
     if destination_exists w
     then
       show (BeginTransfer (length (original_rs w start_date end_date)));;
       rename_files 0 (original_rs w start_date end_date)
     else show DestinationMissing)
    rollback_and_raise.

End RenameStation.

(** An archive layout for the examples: network/station/year/day/file,
    the file under its compressed name. *)
Definition sample_path (net stn : string) (year doy : Z) (filename : string) : string :=
  let ddd := pretty doy in
  let ddd := if (String.length ddd <? 3)%nat
             then String.concat "" (replicate (3 - String.length ddd) "0") ++ ddd
             else ddd in
  net ++ "/" ++ stn ++ "/" ++ pretty year ++ "/" ++ ddd ++ "/"
  ++ Str.replace "o" "d.Z" filename.

(** A row of the network rms for the examples. *)
Definition sample_row (stn : string) (doy : Z) (filename : string) : Rinex.row :=
  Rinex.mkRow "rms" stn 2020 doy (Rinex.midnight (of_year_doy 2020 doy))
    (Rinex.midnight (of_year_doy 2020 (doy + 1))) "5137K78333" filename.

(** An archive with the files of two days of rms.igm1, and the station
    rms.lpgs they are to be merged into. *)
Definition sample_world (stationinfo : pyStationInfo.table) : World :=
  let rows := [sample_row "igm1" 1 "igm10010.20o"; sample_row "igm1" 2 "igm10020.20o"] in
  mkWorld (mkCatalog [("rms", "igm1"); ("rms", "lpgs")] rows rows stationinfo []) None
    {[ "/archive/rms/igm1/2020/001/igm10010.20d.Z";
       "/archive/rms/igm1/2020/002/igm10020.20d.Z" ]} ∅ [].

(** The station information of the examples: rms.igm1 is covered from 2019
    to day 100 of 2020, rms.lpgs from day 200 of 2020 on. *)
Definition sample_stationinfo : pyStationInfo.table :=
  {[ ("rms", "igm1") :=
       [StnInfoCheck.sample_record "rms" "igm1" (of_year_doy 2019 1)
          (Some (of_year_doy 2020 100))];
     ("rms", "lpgs") :=
       [StnInfoCheck.sample_record "rms" "lpgs" (of_year_doy 2020 200) None] ]}.

(** The second file of the queue fails at the given step. *)
Definition fail_second_at (s : step) (i : nat) : option step :=
  if (i =? 1)%nat then Some s else None.

End Rename.

(** ** parallel-gamit/com/IntegrityCheck.py: files missing from the archive *)

Module Dispatcher.
Import pyDate.

(** Where a failure is simulated inside the task of a station: when the
    connection is opened, when the inventory is queried, or when the
    first missing file is removed from the catalog. *)
Inductive step : Type := AtConnect | AtQuery | AtRemove.

#[global] Instance step_eq_dec : EqDecision step.
Proof. solve_decision. Defined.

(** What a task reads from its surroundings. *)
Record Env : Type := mkEnv {
  build_rinex_path : string -> string -> Z -> Z -> string -> string;
  archive_path : string;
  node : string;
  traceback : string;
  event_env : pyEvents.Env;
  faults : string * string -> option step
}.

(** The result of a task: an error message or [None], the missing files
    or [None]. *)
Definition outcome : Type := option string * option (list string).

Section check_rinex_stn.
Variable env : Env.
Variables NetworkCode StationCode : string.

(** The step raises if it is the one made to fail for this station. *)
Definition simulate (s : step) : M unit := fun w =>
  if bool_decide (faults env (NetworkCode, StationCode) = Some s)
  then (Raise (Exception "simulated failure"), w) else (Ok tt, w).

(** Modelled from the spec: [Archive.remove_rinex(rnx)] removes the
    inventory row. *)
Definition remove_rinex (rnx : Rinex.row) : M unit :=
  modify (fun w =>
    set_db (set_rinex
      (List.filter (fun r => negb (
         String.eqb (Rinex.NetworkCode r) (Rinex.NetworkCode rnx) &&
         String.eqb (Rinex.StationCode r) (Rinex.StationCode rnx) &&
         (Rinex.ObservationYear r =? Rinex.ObservationYear rnx)%Z &&
         (Rinex.ObservationDOY r =? Rinex.ObservationDOY rnx)%Z &&
         String.eqb (Rinex.Filename r) (Rinex.Filename rnx))) (rinex (db w)))
      (db w)) w).

(** Modelled from the spec: [cnn.insert_event(event)] adds the event to
    the catalog. *)
Definition insert_event (event : gmap string pyval) : M unit :=
  modify (fun w => set_db (set_events (events (db w) ++ [event])%list (db w)) w).

(** [os.path.join(Config.archive_path, Archive.build_rinex_path(...))] *)
Definition crinex_path (rnx : Rinex.row) : string :=
  Str.path_join (archive_path env)
    (build_rinex_path env NetworkCode StationCode (Rinex.ObservationYear rnx)
       (Rinex.ObservationDOY rnx) (Rinex.Filename rnx)).

(** [for rnx in rnxtbl: ...] *)
Fixpoint check_files (rnxtbl : list Rinex.row) (missing_files : list string)
  : M (list string) :=
  match rnxtbl with
  | [] => mret missing_files
  | rnx :: rest =>
      w ← get;
      if bool_decide (crinex_path rnx ∈ files w) || bool_decide (crinex_path rnx ∈ dirs w)
      then check_files rest missing_files
      else
        simulate AtRemove;;
        remove_rinex rnx;;
        event ← lift (pyEvents.__init__ (event_env env)
          [("Description",
            PyStr ("A missing RINEX file was found during RINEX integrity check: "
                   ++ crinex_path rnx
                   ++ ". It has been removed from the database. Consider rerunning PPP for this station."));
           ("NetworkCode", PyStr NetworkCode);
           ("StationCode", PyStr StationCode);
           ("Year", PyInt (Rinex.ObservationYear rnx));
           ("DOY", PyInt (Rinex.ObservationDOY rnx))]);
        insert_event event;;
        check_files rest (missing_files ++ [crinex_path rnx])%list
  end.

(** The second [try] block. *)
Definition check_rinex_body (start_date end_date : Date) : M (list string) :=
  simulate AtQuery;;
  w ← get;
  check_files (Rinex.select (rinex (db w)) NetworkCode StationCode start_date end_date) [].

(** [check_rinex_stn(NetworkCode, StationCode, start_date, end_date)] *)
Definition check_rinex_stn (start_date end_date : Date) : M outcome :=
  try_except
    (simulate AtConnect;; mret None)
    (fun _ => mret (Some (traceback env ++ " processing: (" ++ NetworkCode ++ "."
                          ++ StationCode ++ ") using node " ++ node env)))
  ≫= fun failed : option string =>
    match failed with
    | Some msg => mret (Some msg, None)
    | None =>
        try_except
          (missing_files ← check_rinex_body start_date end_date;
           mret (None, Some missing_files))
          (fun _ => mret (Some (traceback env ++ " processing: " ++ NetworkCode ++ "."
                                ++ StationCode ++ " using node " ++ node env), None))
    end.

(** What the two [try] blocks of the task run, without their handlers. *)
Definition task_body (start_date end_date : Date) : M (list string) :=
  simulate AtConnect;; check_rinex_body start_date end_date.

End check_rinex_stn.

(** An exception is raised inside the task of the station when it is
    started in [w]. *)
Definition raises_inside (env : Env) (start_date end_date : Date) (w : World)
    (stn : string * string) : bool :=
  negb (is_Ok (fst (task_body env (fst stn) (snd stn) start_date end_date w))).

(** Two worlds are the same to the task of a station: the archive is the
    same and so are the rows of the station. *)
Definition same_for (stn : string * string) (w1 w2 : World) : Prop :=
  files w1 = files w2 /\ dirs w1 = dirs w2 /\
  List.filter (Rinex.of_station (fst stn) (snd stn)) (rinex (db w1))
  = List.filter (Rinex.of_station (fst stn) (snd stn)) (rinex (db w2)).

(** Modelled from the spec: the job server [pyJobServer.JobServer] is
    missing from the sources.  A job runs its task in isolation: what the
    task returns becomes [job.result]; an exception that escapes the task
    is kept as [job.exception] and is not propagated. *)
Definition run_job {R} (task : M R) : M (Job R) := fun w =>
  match task w with
  | (Ok r, w') => (Ok (mkJob (Some r) ""), w')
  | (Raise e, w') => (Ok (mkJob None (exn_str e)), w')
  end.

(** Modelled from the spec: [wait()] returns when every submitted job has
    finished; the callback has been called once for each job, in the
    order [completion] in which the jobs finished. *)
Fixpoint wait {R S} (completion : list (M R)) (callback : Job R -> S -> S) (st : S)
  : M S :=
  match completion with
  | [] => mret st
  | task :: rest =>
      job ← run_job task;
      wait rest callback (callback job st)
  end.

(** [CheckRinexIntegrity(stnlist, start_date, end_date, JobServer)]:
    [completion] is the station list in the order in which the jobs
    finish, [globals] the module variables [differences] and what
    [tqdm.write] has shown.  The report is read from [rinex_css], which
    the callback never fills. *)
Definition CheckRinexIntegrity (env : Env) (completion : list (string * string))
    (start_date end_date : Date) (globals : list outcome * list string)
  : M ((list outcome * list string) * list message) :=
  let rinex_css : list outcome := [] in
  globals' ← wait (map (fun stn => check_rinex_stn env (fst stn) (snd stn) start_date end_date)
                       completion)
                  stnrnx_callback globals;
  mret (globals',
        flat_map (fun rinex : outcome =>
                    match snd rinex, fst rinex with
                    | Some (_ :: _ as missing), _ => map FileNotFound missing
                    | _, Some msg => if bool_decide (msg = "") then [] else [ErrorEncountered msg]
                    | _, _ => []
                    end) rinex_css).

(** The error entry of a station, from either [except] block. *)
Definition error_entry (env : Env) (stn : string * string) (r : outcome) : Prop :=
  (r = (Some (traceback env ++ " processing: (" ++ fst stn ++ "." ++ snd stn
              ++ ") using node " ++ node env), None) \/
   r = (Some (traceback env ++ " processing: " ++ fst stn ++ "." ++ snd stn
              ++ " using node " ++ node env), None)).

(** A success entry: no message, and the list of missing files. *)
Definition success_entry (r : outcome) : Prop :=
  exists missing_files, r = (None, Some missing_files).

(** The entry carries an error message. *)
Definition is_error (r : outcome) : bool :=
  match fst r with
  | Some _ => true
  | None => false
  end.

End Dispatcher.

(** ** Decimal digits *)

(** The character is one of the ten digits [int()] reads. *)
Definition is_digit_char (c : ascii) : Prop := is_Some (Str.digit_of c).

(** ** parallel-gamit/classes/Utils.py: station identifiers, years, days
    and sets of integers *)

Module Naming.
Local Open Scope Z_scope.

(** A call either returns or raises [UtilsException(value)]. *)
Inductive utils (A : Type) : Type :=
| Return (a : A)
| UtilsException (value : string).
Arguments Return {A} a.
Arguments UtilsException {A} value.

(** [int(x)] for a value of any type. *)
Definition py_int (x : pyval) : result Z :=
  match x with
  | PyInt z => Ok z
  | PyStr s => Str.int s
  | PyNone =>
      Raise (TypeError "int() argument must be a string, a bytes-like object or a real number, not 'NoneType'")
  | PyDatetime _ =>
      Raise (TypeError "int() argument must be a string, a bytes-like object or a real number, not 'datetime.datetime'")
  end.

(** [s.strip()] *)
Definition strip (s : string) : string :=
  string_of_list_ascii (Str.strip (list_ascii_of_string s)).

(** [parse_stnId(stnId)]: [re.split('\.', stnId)] cuts at every dot. *)
Definition parse_stnId (stnId : string) : utils (string * string) :=
  let parts := Str.split "." stnId in
  if (length parts <? 2)%nat then UtilsException ("invalid station id: " ++ stnId)
  else
    let ns := String.concat "." (take (length parts - 1) parts) in
    let code := List.last parts "" in
    Return (ns, code).

(** [get_norm_year_str(year)] *)
Definition get_norm_year_str (year : pyval) : utils string :=
  match py_int year with
  | Raise _ => UtilsException "must provide a positive integer year YY or YYYY"
  | Ok year =>
      if year <? 0 then UtilsException "must provide a positive integer year YY or YYYY"
      else
        let year :=
          if (80 <=? year) && (year <=? 99) then year + 1900
          else if (0 <=? year) && (year <? 80) then year + 2000
          else year in
        Return (pretty year)
  end.



(** What [parseIntSet] ends with: the selection it returns, or
    [sys.exit(status)] after the invalid tokens have been printed. *)
Inductive parsed : Type :=
| Selection (selection : list Z)
| Exit (status : Z) (invalid : list string).

(** [if len(i) > 0: if i[:1] == "<": i = "1-%s" % (i[1:])] *)
Definition less_than (i : string) : string :=
  match i with
  | String c rest => if Ascii.eqb c "<" then "1-" ++ rest else i
  | EmptyString => i
  end.

(** [[int(k.strip()) for k in ks]] *)
Fixpoint ints (ks : list string) : result (list Z) :=
  match ks with
  | [] => Ok []
  | k :: rest =>
      n ← Str.int (strip k);
      ns ← ints rest;
      Ok (n :: ns)
  end.

(** The body of [for i in tokens]; the state is [(selection, invalid)]. *)
Definition token_step (st : list Z * list string) (i : string) : list Z * list string :=
  let i := less_than i in
  match Str.int i with
  | Ok n => ((fst st ++ [n])%list, snd st)
  | Raise _ =>
      match ints (Str.split "-" i) with
      | Ok token =>
          if (1 <? length token)%nat then
            let token := sort_by (fun x => x) token in
            match token, last token with
            | first :: _, Some final =>
                ((fst st ++ seqZ first (final + 1 - first))%list, snd st)
            | _, _ => st
            end
          else st
      | Raise _ => (fst st, (snd st ++ [i])%list)
      end
  end.

(** [parseIntSet(nputstr)] *)
Definition parseIntSet (nputstr : string) : parsed :=
  let tokens := map strip (Str.split "," nputstr) in
  let '(selection, invalid) := foldl token_step ([], []) tokens in
  if (0 <? length invalid)%nat then Exit 2 invalid else Selection selection.

(** [p.rfind(c)], [None] standing for [-1]. *)
Fixpoint rfind (c : ascii) (p : string) : option nat :=
  match p with
  | EmptyString => None
  | String c' p' =>
      match rfind c p' with
      | Some k => Some (S k)
      | None => if Ascii.eqb c' c then Some O else None
      end
  end.

(** [os.path.splitext(p)]: the extension starts at the last dot of the
    last component, unless only dots precede it there. *)
Definition splitext (p : string) : string * string :=
  let filenameIndex := match rfind "/" p with Some k => S k | None => O end in
  match rfind "." p with
  | Some dotIndex =>
      if (filenameIndex <=? dotIndex)%nat &&
         existsb (fun c => negb (Ascii.eqb c "."))
           (list_ascii_of_string (String.substring filenameIndex (dotIndex - filenameIndex) p))
      then (String.substring 0 dotIndex p,
            String.substring dotIndex (String.length p - dotIndex) p)
      else (p, "")
  | None => (p, "")
  end.

(** [while ext != '': file_name, ext = os.path.splitext(file_name);
    file_ext = ext + file_ext] *)
Fixpoint strip_exts (fuel : nat) (file_name file_ext : string) : option (string * string) :=
  match fuel with
  | O => None
  | S fuel =>
      let '(file_name, ext) := splitext file_name in
      let file_ext := ext ++ file_ext in
      if bool_decide (ext = "") then Some (file_name, file_ext)
      else strip_exts fuel file_name file_ext
  end.

(** [fix_gps_week(file_path)]; the loop runs at most once for each
    character of the file name, and once more. *)
Definition fix_gps_week (file_path : string) : option string :=
  let '(path, full_file_name) := Str.path_split file_path in
  '(file_name, file_ext) ← strip_exts (S (String.length full_file_name)) full_file_name "";
  let file_name :=
    if (String.length file_name =? 7)%nat
    then String.substring 0 3 file_name ++ "0"
         ++ String.substring 3 (String.length file_name - 3) file_name
    else file_name in
  Some (Str.path_join path (file_name ++ file_ext)).

End Naming.

(** ** parallel-gamit/classes/Utils.py: file names and copies *)

Module Files.

Definition is_digit (c : ascii) : bool :=
  let n := nat_of_ascii c in (48 <=? n)%nat && (n <=? 57)%nat.

(** The class [\w] on ASCII text. *)
Definition is_word (c : ascii) : bool :=
  let n := nat_of_ascii c in
  is_digit c || ((65 <=? n)%nat && (n <=? 90)%nat) || ((97 <=? n)%nat && (n <=? 122)%nat)
  || Ascii.eqb c "_".

(** The five groups of a match. *)
Definition fileparts : Type := string * string * string * string * string.

(** [(\w{4})(\d{3})(\w{1})\.(\d{2})(ext)] against the whole of [cs]. *)
Definition groups (ext : string) (cs : list ascii) : option fileparts :=
  match cs with
  | n1 :: n2 :: n3 :: n4 :: d1 :: d2 :: d3 :: s :: dot :: y1 :: y2 :: rest =>
      if forallb is_word [n1; n2; n3; n4] && forallb is_digit [d1; d2; d3] && is_word s
         && Ascii.eqb dot "." && forallb is_digit [y1; y2]
         && String.eqb (string_of_list_ascii rest) ext
      then Some (string_of_list_ascii [n1; n2; n3; n4], string_of_list_ascii [d1; d2; d3],
                 string_of_list_ascii [s], string_of_list_ascii [y1; y2], ext)
      else None
  | _ => None
  end.

(** Where [$] holds: at the end of the text, and before a newline that
    ends the text.  A pattern that cannot end with a newline therefore
    ends where the text without that newline ends. *)
Definition chomp (cs : list ascii) : list ascii :=
  match rev cs with
  | c :: r => if Ascii.eqb c "010" then rev r else cs
  | [] => cs
  end.

(** [re.findall(pattern + '$', filename)]: the pattern has a fixed
    length, so the only match ends at [$] and starts that many characters
    before. *)
Definition findall (ext : string) (filename : string) : option fileparts :=
  let cs := chomp (list_ascii_of_string filename) in
  let len := (11 + String.length ext)%nat in
  if (len <=? length cs)%nat then groups ext (drop (length cs - len) cs) else None.

(** [parse_crinex_rinex_filename(filename)]; [None] stands for the empty
    list. *)
Definition parse_crinex_rinex_filename (filename : string) : option fileparts :=
  match findall "d.Z" filename with
  | Some sfile => Some sfile
  | None => findall "o" filename
  end.

(** [sessions], each entry as [%s] renders it. *)
Definition sessions : list string :=
  ["0"; "1"; "2"; "3"; "4"; "5"; "6"; "7"; "8"; "9";
   "a"; "b"; "c"; "d"; "e"; "f"; "g"; "h"; "i"; "j"; "k"; "l"; "m";
   "n"; "o"; "p"; "q"; "r"; "s"; "t"; "u"; "v"; "w"; "x"; "y"; "z"].

(** ['%0wi' % n] *)
Definition zero_pad (w : nat) (n : Z) : string :=
  let digits := pretty (Z.abs n) in
  let sign := if (n <? 0)%Z then "-" else "" in
  sign ++ String.concat "" (replicate (w - String.length sign - String.length digits) "0")
  ++ digits.

(** ['%s%03i%s.%02i%s' % (fileparts[0].lower(), int(fileparts[1]),
    session, int(fileparts[3]), fileparts[4])] *)
Definition session_name (parts : fileparts) (session : string) : result string :=
  let '(stn, doy, _, yy, ext) := parts in
  doy ← Str.int doy;
  yy ← Str.int yy;
  Ok (Str.lower stn ++ zero_pad 3 doy ++ session ++ "." ++ zero_pad 2 yy ++ ext).

(** A generator that ends: the values it yields, in order, and the
    exception the call of [next] after the last of them raises. *)
Record generator : Type := mkGenerator { yields : list string; ends_with : exn }.

(** [mapM] on [result]. *)
Fixpoint all_ok {A} (l : list (result A)) : result (list A) :=
  match l with
  | [] => Ok []
  | r :: rest => a ← r; rest ← all_ok rest; Ok (a :: rest)
  end.

(** [_increment_filename(filename)] *)
Definition _increment_filename (filename : string) : generator :=
  let '(path, filename) := Str.path_split filename in
  match parse_crinex_rinex_filename filename with
  | None => mkGenerator [] (ValueError ("Invalid file naming convention: " ++ filename))
  | Some parts =>
      match all_ok (map (session_name parts) sessions) with
      | Raise e => mkGenerator [] e
      | Ok names =>
          mkGenerator (map (Str.path_join path) names)
            (ValueError ("Maximum number of sessions reached: " ++ List.last names ""))
      end
  end.

(** A regular file: what is in it and when it was last written. *)
Record file : Type := mkFile { content : string; mtime : Z }.

Inductive node : Type := File (f : file) | Dir.

(** The file system: what is found under each path.  The root and the
    working directory are always there. *)
Abbreviation FS := (gmap string node).

(** [os.path.exists(p)] *)
Definition exists_ (fs : FS) (p : string) : bool :=
  bool_decide (p = "/") || bool_decide (is_Some (fs !! p)).

(** The directory a new entry [p] goes into is there. *)
Definition parent_is_dir (fs : FS) (p : string) : bool :=
  let d := fst (Str.path_split p) in
  bool_decide (d = "") || bool_decide (d = "/") ||
  match fs !! d with Some Dir => true | _ => false end.

(** [filecmp.cmp(f1, f2)]: both are regular files, and either they have
    the same size and modification time, or they hold the same bytes. *)
Definition cmp (fs : FS) (f1 f2 : string) : bool :=
  match fs !! f1, fs !! f2 with
  | Some (File a), Some (File b) =>
      ((String.length (content a) =? String.length (content b))%nat && (mtime a =? mtime b)%Z)
      || String.eqb (content a) (content b)
  | _, _ => false
  end.

Section copyfile.
(** [makedirs fs d] is the file system after
    [try: os.makedirs(d) except OSError: pass]; [now] is the time a file
    written by the copy is stamped with. *)
Variable makedirs : FS -> string -> FS.
Variable now : Z.

(** The [else] branch of the loop: [dst] is not there. *)
Definition write (src dst : string) (fs : FS) : result string * FS :=
  if parent_is_dir fs dst then
    match fs !! src with
    | Some (File f) => (Ok dst, <[dst := File (mkFile (content f) now)]> fs)
    | _ => (Raise (OSError "Is a directory"), <[dst := File (mkFile "" now)]> fs)
    end
  else (Raise (OSError ("No such file or directory: " ++ dst)), fs).

(** [while True: dst = next(dst_gen) ...] *)
Fixpoint attempts (src : string) (ends_with : exn) (names : list string) (fs : FS)
  : result string * FS :=
  match names with
  | [] => (Raise ends_with, fs)
  | dst :: rest =>
      if exists_ fs dst then
        if cmp fs src dst then (Ok dst, fs) else attempts src ends_with rest fs
      else write src dst fs
  end.

(** [copyfile(src, dst)] *)
Definition copyfile (src dst : string) (fs : FS) : result string * FS :=
  if negb (exists_ fs src)
  then (Raise (ValueError ("Source file does not exist: " ++ src)), fs)
  else
    let dir := fst (Str.path_split dst) in
    let fs := if exists_ fs dir then fs else makedirs fs dir in
    let dst_gen := _increment_filename dst in
    attempts src (ends_with dst_gen) (yields dst_gen) fs.

(** [move(src, dst)] *)
Definition move (src dst : string) (fs : FS) : result string * FS :=
  match copyfile src dst fs with
  | (Ok dst, fs) =>
      match fs !! src with
      | Some (File _) => (Ok dst, delete src fs)
      | Some Dir => (Raise (OSError ("Is a directory: " ++ src)), fs)
      | None => (Raise (OSError ("No such file or directory: " ++ src)), fs)
      end
  | (Raise e, fs) => (Raise e, fs)
  end.

End copyfile.

(** What [os.makedirs] does in the examples: the directory is added
    where nothing is. *)
Definition sample_makedirs (fs : FS) (d : string) : FS :=
  match fs !! d with
  | None => <[d := Dir]> fs
  | Some _ => fs
  end.

(** A file system for the examples: one observation file in [/data],
    and the directory [/archive] holding a file of the same name, size
    and time but with other bytes. *)
Definition sample_fs : FS :=
  {[ "/data" := Dir;
     "/data/igm10010.20o" := File (mkFile "observations" 7);
     "/archive" := Dir;
     "/archive/igm10010.20o" := File (mkFile "0bservations" 7) ]}.

(** The same, the file in [/archive] written at another time. *)
Definition sample_fs_taken : FS :=
  <["/archive/igm10010.20o" := File (mkFile "0bservations" 3)]> sample_fs.

End Files.

(** ** parallel-gamit/classes/Utils.py: frames, columns and station lists *)

Module StationList.

(** An entry of [Config.options['frames']]. *)
Record frame (D : Type) : Type := mkFrame { dates : D * D; name : string; atx : string }.
Arguments mkFrame {D} _ _ _.
Arguments dates {D} _.
Arguments name {D} _.
Arguments atx {D} _.

Section determine_frame.
Context {D : Type}.
(** [a <= b] on dates. *)
Variable le : D -> D -> bool.

(** [frame['dates'][0] <= date <= frame['dates'][1]] *)
Definition within (date : D) (f : frame D) : bool :=
  le (fst (dates f)) date && le date (snd (dates f)).

(** [determine_frame(frames, date)] *)
Fixpoint determine_frame (frames : list (frame D)) (date : D) : result (string * string) :=
  match frames with
  | [] => Raise (Exception "No valid frame was found for the specified date.")
  | f :: rest =>
      if within date f then Ok (name f, atx f) else determine_frame rest date
  end.

End determine_frame.

(** [l[k::8]]: [wait] items are skipped before the next one is taken. *)
Fixpoint every8 (wait : nat) (l : list string) : list string :=
  match l with
  | [] => []
  | x :: l' =>
      match wait with
      | O => x :: every8 7 l'
      | S w => every8 w l'
      end
  end.

Definition row : Type := string * string * string * string * string * string * string * string.

(** [zip(a, b, c, d, e, f, g, h)] *)
Fixpoint zip8 (a b c d e f g h : list string) : list row :=
  match a, b, c, d, e, f, g, h with
  | x0 :: a, x1 :: b, x2 :: c, x3 :: d, x4 :: e, x5 :: f, x6 :: g, x7 :: h =>
      (x0, x1, x2, x3, x4, x5, x6, x7) :: zip8 a b c d e f g h
  | _, _, _, _, _, _, _, _ => []
  end.

(** ['{:<10}'.format(s)] *)
Definition ljust10 (s : string) : string :=
  s ++ String.concat "" (replicate (10 - String.length s) " ").

(** ['    {:<10}{:<10}{:<10}{:<10}{:<10}{:<10}{:<10}{:<}'.format(a, ..., h)] *)
Definition row_line (r : row) : string :=
  let '(a, b, c, d, e, f, g, h) := r in
  "    " ++ ljust10 a ++ ljust10 b ++ ljust10 c ++ ljust10 d ++ ljust10 e ++ ljust10 f
  ++ ljust10 g ++ h.

(** The line of the items that do not fill a row. *)
Definition rest_line (rest : list string) : string :=
  "    " ++ String.concat "" (map ljust10 rest).

(** The items of a row, in order. *)
Definition cells (r : row) : list string :=
  let '(a, b, c, d, e, f, g, h) := r in [a; b; c; d; e; f; g; h].

(** The rows [print_columns(l)] goes through. *)
Definition rows (l : list string) : list row :=
  zip8 (every8 0 l) (every8 1 l) (every8 2 l) (every8 3 l)
       (every8 4 l) (every8 5 l) (every8 6 l) (every8 7 l).

(** [print_columns(l)]: the lines written. *)
Definition print_columns (l : list string) : list string :=
  map row_line (rows l) ++
  (if negb (length l mod 8 =? 0)%nat
   then [rest_line (drop (length l - length l mod 8) l)]
   else [])%list.

(** A row of the [stations] table: [NetworkCode] and [StationCode]. *)
Definition station : Type := string * string.

(** The double quote that encloses the column names in the queries. *)
Definition dq : string := String (ascii_of_nat 34) EmptyString.

(** The text of the query for the single item [all]; it is sent as it is
    written, with both percent signs. *)
Definition sql_all : string :=
  "SELECT * FROM stations WHERE " ++ dq ++ "NetworkCode" ++ dq ++ " NOT LIKE '?%%' "
  ++ "ORDER BY " ++ dq ++ "NetworkCode" ++ dq ++ ", " ++ dq ++ "StationCode" ++ dq.

(** The text of the query for [net.all]: the format string with
    [stn.split('.')[0]] pasted in for [%s]. *)
Definition sql_network (net : string) : string :=
  "SELECT * FROM stations WHERE " ++ dq ++ "NetworkCode" ++ dq ++ " = '" ++ net ++ "' AND "
  ++ dq ++ "NetworkCode" ++ dq ++ " NOT LIKE '?%' ORDER BY "
  ++ dq ++ "NetworkCode" ++ dq ++ ", " ++ dq ++ "StationCode" ++ dq.

(** The text of the query for [net.stnm]: the format string with
    [stn.split('.')[0]] and [stn.split('.')[1]] pasted in. *)
Definition sql_station (net code : string) : string :=
  "SELECT * FROM stations WHERE " ++ dq ++ "NetworkCode" ++ dq ++ " NOT LIKE '?%' AND "
  ++ dq ++ "NetworkCode" ++ dq ++ " = '" ++ net ++ "' "
  ++ "AND " ++ dq ++ "StationCode" ++ dq ++ " = '" ++ code ++ "' ORDER BY "
  ++ dq ++ "NetworkCode" ++ dq ++ ", " ++ dq ++ "StationCode" ++ dq.

(** The text of the query for [stnm]: the format string with the item
    pasted in. *)
Definition sql_name (stn : string) : string :=
  "SELECT * FROM stations WHERE " ++ dq ++ "NetworkCode" ++ dq ++ " NOT LIKE '?%' AND "
  ++ dq ++ "StationCode" ++ dq ++ " = '" ++ stn ++ "' ORDER BY "
  ++ dq ++ "NetworkCode" ++ dq ++ ", " ++ dq ++ "StationCode" ++ dq.

Section process_stnlist.
(** The files there are: [isfile p] is [None] when [os.path.isfile(p)]
    is false, and else the lines of the file.  The connection:
    [cnn_query sql] is what [cnn.query(sql).dictresult()] gives, the two
    codes of each row, or the exception [cnn.query(sql)] raises. *)
Variable isfile : string -> option (list string).
Variable cnn_query : string -> result (list station).

(** The query an item of the list stands for, if any, and its rows. *)
Definition item_query (stn : string) : result (option (list station)) :=
  if Str.contains "." stn && negb (Str.contains "-" stn) then
    code ← py_index (Str.split "." stn) 1;
    if String.eqb code "all"
    then
      net ← py_index (Str.split "." stn) 0;
      rs ← cnn_query (sql_network net);
      Ok (Some rs)
    else
      net ← py_index (Str.split "." stn) 0;
      code ← py_index (Str.split "." stn) 1;
      rs ← cnn_query (sql_station net code);
      Ok (Some rs)
  else if negb (Str.contains "." stn) && negb (Str.contains "-" stn) then
    rs ← cnn_query (sql_name stn);
    Ok (Some rs)
  else Ok None.

(** [if {...} not in stnlist: stnlist += [{...}]] *)
Definition add_new (stnlist : list station) (rstn : station) : list station :=
  if bool_decide (rstn ∈ stnlist) then stnlist else (stnlist ++ [rstn])%list.

(** [for stn in stnlist_in: ...] *)
Fixpoint gather (stnlist_in : list string) (stnlist : list station)
  : result (list station) :=
  match stnlist_in with
  | [] => Ok stnlist
  | stn :: rest =>
      rs ← item_query stn;
      gather rest
        (match rs with
         | Some rows => foldl add_new stnlist rows
         | None => stnlist
         end)
  end.

(** The body of the loop over the removals. *)
Definition remove (stnlist : list station) (stn : string) : list station :=
  if Str.contains "." (Str.lower stn)
  then List.filter (fun s => negb (String.eqb (fst s ++ "." ++ snd s) (Str.lower stn))) stnlist
  else List.filter (fun s => negb (String.eqb (snd s) (Str.lower stn))) stnlist.

(** [[stn.replace('-', '') for stn in stnlist_in if '-' in stn]] *)
Definition removals (stnlist_in : list string) : list string :=
  map (Str.replace "-" "") (List.filter (Str.contains "-") stnlist_in).

(** The list of items after a file has been read in its place. *)
Definition items (stnlist_in : list string) : list string :=
  match stnlist_in with
  | [f] =>
      match isfile f with
      | Some lines => map Naming.strip lines
      | None => stnlist_in
      end
  | _ => stnlist_in
  end.

(** What is written when the list is read from a file. *)
Definition file_notice (stnlist_in : list string) : list string :=
  match stnlist_in with
  | [f] =>
      match isfile f with
      | Some _ => [" >> Station list read from file: " ++ f]
      | None => []
      end
  | _ => []
  end.

(** [process_stnlist(cnn, stnlist_in, print_summary)]: the lines written
    and the station list returned, or the exception of a query. *)
Definition process_stnlist (stnlist_in : list string)
    (print_summary : bool) : result (list string * list station) :=
  let notice := file_notice stnlist_in in
  let stnlist_in := items stnlist_in in
  stnlist ← (match stnlist_in with
             | [stn] =>
                 if String.eqb stn "all" then cnn_query sql_all
                 else gather stnlist_in []
             | _ => gather stnlist_in []
             end);
  let stnlist := foldl remove stnlist (removals stnlist_in) in
  let summary :=
    if print_summary
    then " >> Selected station list:"
         :: print_columns (map (fun item => fst item ++ "." ++ snd item) stnlist)
    else [] in
  Ok ((notice ++ summary)%list, stnlist).

End process_stnlist.

(** In the words of the help text: what an item of the list asks for.
    [net.all] asks for the stations of a network, [net.stnm] for one
    station, [stnm] for the stations of that name in every network; an
    item with a dash asks for nothing. *)
Definition asks_for (item : string) (s : station) : bool :=
  if Str.contains "-" item then false
  else match Str.split "." item with
       | [stnm] => String.eqb (snd s) stnm
       | net :: code :: _ =>
           String.eqb (fst s) net && (String.eqb code "all" || String.eqb (snd s) code)
       | [] => false
       end.

(** In the words of the help text: the station is taken off the list by
    an item with a dash. *)
Definition taken_off (item : string) (s : station) : bool :=
  Str.contains "-" item &&
  let stn := Str.lower (Str.replace "-" "" item) in
  if Str.contains "." stn then String.eqb (fst s ++ "." ++ snd s) stn
  else String.eqb (snd s) stn.

(** The stations wanted: all of them for the single item [all], else
    those an item asks for; none that an item takes off. *)
Definition wanted (stnlist_in : list string) (s : station) : bool :=
  (match stnlist_in with
   | [stn] => String.eqb stn "all" || asks_for stn s
   | _ => existsb (fun item => asks_for item s) stnlist_in
   end)
  && negb (existsb (fun item => taken_off item s) stnlist_in).

(** Modelled from the spec: a network code that starts with a question
    mark, which every query leaves out. *)
Definition temporary (s : station) : bool := String.prefix "?" (fst s).

(** Modelled from the spec: a character that stands for itself between
    the single quotes of a query: a visible ASCII character other than
    the single quote and the backslash. *)
Definition plain_char (c : ascii) : bool :=
  let n := nat_of_ascii c in
  (33 <=? n)%nat && (n <=? 126)%nat && negb (n =? 39)%nat && negb (n =? 92)%nat.

(** Modelled from the spec: a text that, pasted between the single
    quotes of a query, is read by the catalog as that text. *)
Fixpoint plain (s : string) : bool :=
  match s with
  | EmptyString => true
  | String c s' => plain_char c && plain s'
  end.

(** The item is plain if its text is pasted into a query, which the text
    of an item with a dash is not. *)
Definition pasted_plain (item : string) : Prop :=
  Str.contains "-" item = false -> plain item = true.

Section catalog.
(** The order of text in the catalog: [a <= b] under its collation. *)
Variable collate_le : string -> string -> bool.

(** Modelled from the spec: the order of the rows of a query, by network
    code and then by station code. *)
Definition order_le (a b : station) : bool :=
  if String.eqb (fst a) (fst b) then collate_le (snd a) (snd b)
  else collate_le (fst a) (fst b).

Fixpoint insert_le (x : station) (l : list station) : list station :=
  match l with
  | [] => [x]
  | y :: l' => if order_le x y then x :: l else y :: insert_le x l'
  end.

Definition order_by_codes (l : list station) : list station := foldr insert_le [] l.

(** Modelled from the spec: the rows of the [stations] table a query
    selects: those outside the temporary networks that meet its
    condition, in the order of the codes. *)
Definition rows_where (stations : list station) (where_ : station -> bool) : list station :=
  order_by_codes (List.filter (fun s => negb (temporary s) && where_ s) stations).

(** Modelled from the spec: the connection is to a catalog whose
    [stations] table holds the rows [stations]: each of the four queries,
    when the texts pasted into it are plain, is answered with the rows it
    selects.  Of the other texts nothing is said: the connection may
    raise on them or answer with any rows. *)
Definition answers (cnn_query : string -> result (list station)) (stations : list station)
  : Prop :=
  cnn_query sql_all = Ok (rows_where stations (fun _ => true)) /\
  (forall net, plain net = true ->
     cnn_query (sql_network net)
     = Ok (rows_where stations (fun s => String.eqb (fst s) net))) /\
  (forall net code, plain net = true -> plain code = true ->
     cnn_query (sql_station net code)
     = Ok (rows_where stations (fun s => String.eqb (fst s) net && String.eqb (snd s) code))) /\
  (forall stn, plain stn = true ->
     cnn_query (sql_name stn)
     = Ok (rows_where stations (fun s => String.eqb (snd s) stn))).

End catalog.

(** The order of text by character codes, for the examples. *)
Definition bytewise_le (a b : string) : bool :=
  match String.compare a b with
  | Gt => false
  | _ => true
  end.

(** A [stations] table for the examples; the last network is a
    temporary one. *)
Definition sample_stations : list station :=
  [("rms", "igm1"); ("rms", "lpgs"); ("arg", "igm1"); ("?tm", "x001")].

(** No item of the list is a file. *)
Definition no_file (p : string) : option (list string) := None.

(** [s] without [p] at its start, if it starts with it. *)
Fixpoint strip_prefix (p s : string) : option string :=
  match p with
  | EmptyString => Some s
  | String a p' =>
      match s with
      | String b s' => if Ascii.eqb a b then strip_prefix p' s' else None
      | EmptyString => None
      end
  end.

(** The text before the first single quote, and the text after it. *)
Fixpoint until_quote (s : string) : option (string * string) :=
  match s with
  | EmptyString => None
  | String c s' =>
      if Ascii.eqb c "'" then Some (EmptyString, s')
      else match until_quote s' with
           | Some (a, r) => Some (String c a, r)
           | None => None
           end
  end.

(** The parts of the four queries around the texts pasted in. *)
Definition order_by : string :=
  " ORDER BY " ++ dq ++ "NetworkCode" ++ dq ++ ", " ++ dq ++ "StationCode" ++ dq.

Definition network_head : string :=
  "SELECT * FROM stations WHERE " ++ dq ++ "NetworkCode" ++ dq ++ " = '".

Definition network_tail : string :=
  " AND " ++ dq ++ "NetworkCode" ++ dq ++ " NOT LIKE '?%'" ++ order_by.

Definition station_head : string :=
  "SELECT * FROM stations WHERE " ++ dq ++ "NetworkCode" ++ dq ++ " NOT LIKE '?%' AND "
  ++ dq ++ "NetworkCode" ++ dq ++ " = '".

Definition station_mid : string := " AND " ++ dq ++ "StationCode" ++ dq ++ " = '".

Definition name_head : string :=
  "SELECT * FROM stations WHERE " ++ dq ++ "NetworkCode" ++ dq ++ " NOT LIKE '?%' AND "
  ++ dq ++ "StationCode" ++ dq ++ " = '".

(** What the connection of the examples raises on a text that is none of
    the four queries with plain texts pasted in. *)
Definition syntax_error : exn := Exception "ERROR:  syntax error in the query".

(** The answer to a query whose condition is on the station code, or on
    both codes: [sql] is the text after [WHERE ... NOT LIKE '?%' AND]
    and the column name. *)
Definition read_station (stations : list station) (sql : string) : result (list station) :=
  match until_quote sql with
  | Some (net, r1) =>
      match strip_prefix station_mid r1 with
      | Some r2 =>
          match until_quote r2 with
          | Some (code, r3) =>
              if String.eqb r3 order_by && plain net && plain code
              then Ok (rows_where bytewise_le stations
                         (fun s => String.eqb (fst s) net && String.eqb (snd s) code))
              else Raise syntax_error
          | None => Raise syntax_error
          end
      | None => Raise syntax_error
      end
  | None => Raise syntax_error
  end.

(** A connection for the examples, to a catalog with the rows
    [stations] under the order by character codes: it reads the four
    queries and raises on every other text. *)
Definition sample_cnn (stations : list station) (sql : string) : result (list station) :=
  if String.eqb sql sql_all then Ok (rows_where bytewise_le stations (fun _ => true))
  else
    match strip_prefix network_head sql with
    | Some r =>
        match until_quote r with
        | Some (net, r1) =>
            if String.eqb r1 network_tail && plain net
            then Ok (rows_where bytewise_le stations (fun s => String.eqb (fst s) net))
            else Raise syntax_error
        | None => Raise syntax_error
        end
    | None =>
        match strip_prefix station_head sql with
        | Some r => read_station stations r
        | None =>
            match strip_prefix name_head sql with
            | Some r =>
                match until_quote r with
                | Some (stn, r1) =>
                    if String.eqb r1 order_by && plain stn
                    then Ok (rows_where bytewise_le stations (fun s => String.eqb (snd s) stn))
                    else Raise syntax_error
                | None => Raise syntax_error
                end
            | None => Raise syntax_error
            end
        end
    end.

End StationList.

(** ** classes/pyEvents.py: the event as a row of the catalog *)

Module EventRow.

Definition is_ascii (c : ascii) : bool := (nat_of_ascii c <? 128)%nat.

(** [re.sub(r'[^\x00-\x7f]+', '', s)] *)
Fixpoint ascii_only (s : string) : string :=
  match s with
  | EmptyString => EmptyString
  | String c s' => if is_ascii c then String c (ascii_only s') else ascii_only s'
  end.

(** The character [chr(34)]. *)
Definition double_quote : string := String "034" "".

(** [re.sub(pat + '.*', '', s)] for a literal [pat]: every occurrence of
    [pat] is removed together with what follows it on its line;
    [skipping] tells that the text read lies in a match. *)
Fixpoint cut (pat : string) (skipping : bool) (s : string) : string :=
  match s with
  | EmptyString => EmptyString
  | String c s' =>
      if skipping then
        if Ascii.eqb c "010" then String c (cut pat false s') else cut pat true s'
      else if String.prefix pat s then cut pat true s'
      else String c (cut pat false s')
  end.

(** What is done to a value of type [str]. *)
Definition clean (s : string) : string :=
  cut "PSQL" false (cut "BASH" false (Str.replace "'" double_quote (ascii_only s))).

(** The text holds [pat] somewhere. *)
Definition occurs_in (pat s : string) : Prop := exists a b, s = a ++ pat ++ b.

(** A character that is safe between single quotes: an ASCII character
    other than the single quote. *)
Definition plain (c : ascii) : bool := is_ascii c && negb (Ascii.eqb c "'").

(** [Event.db_dict()]; [None] stands for the [KeyError] of
    [val.pop('EventDate')]. *)
Definition db_dict (self : gmap string pyval) : option (gmap string pyval) :=
  match self !! "EventDate" with
  | None => None
  | Some _ =>
      Some ((fun v => match v with
                      | PyStr s => PyStr (clean s)
                      | _ => v
                      end) <$> delete "EventDate" self)
  end.

(** The surroundings of the examples: the constructor is called from
    [process_crinex] of the module [pyArchiveService]. *)
Definition sample_env : pyEvents.Env :=
  pyEvents.mkEnv 0 "node1" (Some "pyArchiveService") "process_crinex"
    [("<module>", "File a, line 1"); ("main", "File a, line 2");
     ("process_crinex", "File a, line 3"); ("__init__", "File b, line 4")].

(** An event for the examples, with a quote and the output of a shell in
    its description. *)
Definition sample_event : gmap string pyval :=
  match pyEvents.__init__ sample_env
          [("Description", PyStr "can't read igm1 BASH: no such file"); ("Year", PyInt 2020)]
  with
  | Ok ev => ev
  | Raise _ => ∅
  end.

End EventRow.

(** ** parallel-gamit/com/IntegrityCheck.py: what the check of the archive
    is to find *)

Module MissingFiles.
Import pyDate Dispatcher.

Section check_rinex_stn.
Variable env : Env.
Variables NetworkCode StationCode : string.

(** [os.path.exists(crinex_path)] for the file of a row. *)
Definition in_archive (w : World) (rnx : Rinex.row) : bool :=
  bool_decide (crinex_path env NetworkCode StationCode rnx ∈ files w)
  || bool_decide (crinex_path env NetworkCode StationCode rnx ∈ dirs w).

(** The rows [Archive.remove_rinex(rnx)] takes away. *)
Definition same_rinex (rnx r : Rinex.row) : bool :=
  String.eqb (Rinex.NetworkCode r) (Rinex.NetworkCode rnx) &&
  String.eqb (Rinex.StationCode r) (Rinex.StationCode rnx) &&
  (Rinex.ObservationYear r =? Rinex.ObservationYear rnx)%Z &&
  (Rinex.ObservationDOY r =? Rinex.ObservationDOY rnx)%Z &&
  String.eqb (Rinex.Filename r) (Rinex.Filename rnx).

(** The rows of the station in the range whose file is not in the
    archive, in the order of the query. *)
Definition missing_rows (start_date end_date : Date) (w : World) : list Rinex.row :=
  List.filter (fun rnx => negb (in_archive w rnx))
    (Rinex.select (rinex (db w)) NetworkCode StationCode start_date end_date).

(** The event tells of the missing file of the row. *)
Definition reports (rnx : Rinex.row) (event : gmap string pyval) : Prop :=
  event !! "Description" =
    Some (PyStr ("A missing RINEX file was found during RINEX integrity check: "
                 ++ crinex_path env NetworkCode StationCode rnx
                 ++ ". It has been removed from the database. Consider rerunning PPP for this station.")) /\
  event !! "NetworkCode" = Some (PyStr NetworkCode) /\
  event !! "StationCode" = Some (PyStr StationCode) /\
  event !! "Year" = Some (PyInt (Rinex.ObservationYear rnx)) /\
  event !! "DOY" = Some (PyInt (Rinex.ObservationDOY rnx)) /\
  event !! "EventType" = Some (PyStr "info").

End check_rinex_stn.

(** The surroundings of the examples: no step is made to fail. *)
Definition sample_env : Env :=
  mkEnv Rename.sample_path "/archive" "node1" "Traceback (most recent call last): ..."
    (pyEvents.mkEnv 0 "node1" (Some "pyIntegrityCheck") "check_rinex_stn"
       [("<module>", ""); ("run", ""); ("check_rinex_stn", ""); ("__init__", "")])
    (fun _ => None).

(** The archive of the examples after the file of the second day of
    rms.igm1 has been lost. *)
Definition sample_world : World :=
  set_files {[ "/archive/rms/igm1/2020/001/igm10010.20d.Z" ]} (Rename.sample_world ∅).

End MissingFiles.

(** ** parallel-gamit/com/IntegrityCheck.py: what a transfer is to leave *)

Module Merge.
Import pyDate Rename.

Section RenameStation.
Variable build_rinex_path : string -> string -> Z -> Z -> string -> string.
Variables NetworkCode StationCode DestNetworkCode DestStationCode : string.
Variable archive_path : string.

(** The [UPDATE] of one of the queued files applies to the row. *)
Definition transferred (queue : list Rinex.row) (r : Rinex.row) : bool :=
  existsb (fun src_rinex => same_file NetworkCode StationCode src_rinex r) queue.

(** The inventory after the [UPDATE] of every queued file. *)
Definition retagged (queue : list Rinex.row) (rows : list Rinex.row) : list Rinex.row :=
  map (fun r => if transferred queue r
                then retag build_rinex_path NetworkCode StationCode DestNetworkCode
                       DestStationCode archive_path r r
                else r) rows.

End RenameStation.

(** Nothing is made to fail. *)
Definition no_fault (i : nat) : option step := None.

End Merge.

(** ** parallel-gamit/com/IntegrityCheck.py: what a reported gap is *)

Module GapReport.
Import pyDate Gaps.
Local Open Scope Z_scope.

(** A reported gap is in order: its length is the number of days from its
    first to its last day and exceeds the threshold, its first day is the
    day after a day with a row and its last day the day before one. *)
Definition in_order (ignore_val : Z) (rows : list Rinex.row) (g : gap) : Prop :=
  days g = mjd (gap_end g) - mjd (gap_begin g) + 1 /\
  ignore_val < days g /\
  (exists r, In r rows /\ gap_begin g = add (Rinex.date r) 1) /\
  (exists r, In r rows /\ gap_end g = sub (Rinex.date r) 1).

(** What the scan keeps true of its state [(gap_begin, gaps)]. *)
Definition scan_inv (ignore_val : Z) (rows : list Rinex.row)
    (st : option Date * list gap) : Prop :=
  (forall b, fst st = Some b -> exists r, In r rows /\ b = add (Rinex.date r) 1) /\
  Forall (in_order ignore_val rows) (snd st).

(** Every row is of the day after the row before it. *)
Fixpoint consecutive (prev : Rinex.row) (rows : list Rinex.row) : bool :=
  match rows with
  | [] => true
  | rnx :: rest => eqb (Rinex.date rnx) (add (Rinex.date prev) 1) && consecutive rnx rest
  end.

(** The rows leave no day out between the first and the last. *)
Definition complete (rows : list Rinex.row) : bool :=
  match rows with
  | [] => true
  | first :: rest => consecutive first rest
  end.

End GapReport.

(** ** parallel-gamit/com/IntegrityCheck.py: the picture of the gaps *)

Module VisualizeGaps.
Local Open Scope Z_scope.

(** The characters [chr(0x2588)], [chr(0x258C)], [chr(0x2590)] and the
    space: both days of a pair observed, the first only, the second only,
    none. *)
Inductive glyph : Type := FullBlock | LeftHalf | RightHalf | Blank.

(** What a call of [sys.stdout.write] is given. *)
Inductive written : Type :=
| Glyph (g : glyph)
| Text (s : string).

(** The line feed. *)
Definition nl : string := String "010" "".

(** [doy in missing_dates] *)
Definition is_missing (missing_dates : list Z) (doy : Z) : bool :=
  existsb (Z.eqb doy) missing_dates.

(** [l[0::2]] *)
Fixpoint evens {A} (l : list A) : list A :=
  match l with
  | a :: _ :: rest => a :: evens rest
  | _ => l
  end.

(** The days two by two; a day left over at the end is dropped. *)
Fixpoint pairs (l : list Z) : list (Z * Z) :=
  match l with
  | a :: b :: rest => (a, b) :: pairs rest
  | _ => []
  end.

(** The chain of [if] and [elif] on a pair of days. *)
Definition pair_glyph (missing_dates : list Z) (doy : Z * Z) : list written :=
  let m0 := is_missing missing_dates (fst doy) in
  let m1 := is_missing missing_dates (snd doy) in
  if negb m0 && negb m1 then [Glyph FullBlock]
  else if negb m0 && m1 then [Glyph LeftHalf]
  else if m0 && negb m1 then [Glyph RightHalf]
  else if m0 && m1 then [Glyph Blank]
  else [].

(** [for i, doy in enumerate(zip(p_doys[0:-1:2], p_doys[1::2])): ...] *)
Fixpoint pairs_loop (missing_dates : list Z) (cut_len : nat) (i : nat)
    (todo : list (Z * Z)) : list written :=
  match todo with
  | [] => []
  | doy :: rest =>
      (pair_glyph missing_dates doy
       ++ (if (i + 1 =? cut_len)%nat
           then [Text ("<" ++ Files.zero_pad 3 (fst doy) ++ nl);
                 Text ("    " ++ Files.zero_pad 3 (fst doy + 1) ++ ">")]
           else [])
       ++ pairs_loop missing_dates cut_len (S i) rest)%list
  end.

(** The body of [for year in sorted(set(...))], given the days of the
    year that are missing and those that are possible: what is written for
    the year. *)
Definition year_group (year : Z) (missing_dates p_doys : list Z) : result (list written) :=
  first ← py_index p_doys 0;
  let head := [Text (nl ++ pretty year ++ ":" ++ nl ++ "    " ++ Files.zero_pad 3 first ++ ">")] in
  let cut_len :=
    if (240 <? length p_doys)%nat then ((length p_doys + 3) / 4)%nat else length p_doys in
  let body :=
    pairs_loop missing_dates cut_len 0 (zip (evens (removelast p_doys)) (evens (tail p_doys))) in
  final ← py_index p_doys (-1);
  let foot :=
    if negb (length p_doys mod 2 =? 0)%nat then
      ((if negb (is_missing missing_dates final) then [Glyph LeftHalf]
        else if is_missing missing_dates final then [Glyph Blank]
        else [])
       ++ [Text (if (cut_len <? length p_doys)%nat
                 then "< " ++ Files.zero_pad 3 final ++ nl
                 else "<" ++ Files.zero_pad 3 final ++ nl)])%list
    else [Text ("<" ++ Files.zero_pad 3 final ++ nl)] in
  Ok (head ++ body ++ foot)%list.

(** The glyphs among what is written. *)
Definition cells (out : list written) : list glyph :=
  omap (fun w => match w with Glyph g => Some g | Text _ => None end) out.

(** What a glyph tells of its two days: for each, whether it is missing. *)
Definition reads (g : glyph) : list bool :=
  match g with
  | FullBlock => [false; false]
  | LeftHalf => [false; true]
  | RightHalf => [true; false]
  | Blank => [true; true]
  end.

(** The glyphs the days call for, two days to a glyph. *)
Fixpoint cells_of (missing_dates : list Z) (p_doys : list Z) : list glyph :=
  match p_doys with
  | a :: b :: rest =>
      match is_missing missing_dates a, is_missing missing_dates b with
      | false, false => FullBlock
      | false, true => LeftHalf
      | true, false => RightHalf
      | true, true => Blank
      end :: cells_of missing_dates rest
  | [a] => [if is_missing missing_dates a then Blank else LeftHalf]
  | [] => []
  end.

End VisualizeGaps.

(* ================================================================== *)
(** * Properties *)

Section EventFacts.
Import pyEvents.

Lemma defaults_dom env m :
  dom (<["module" := PyStr m]> (defaults env)) = list_to_set valid_fields.
Proof.
  unfold defaults. rewrite !dom_insert_L, dom_empty_L.
  unfold valid_fields. simpl. set_solver.
Qed.

Lemma set_kwargs_ok kwargs : forall self ev,
  set_kwargs self kwargs = Ok ev ->
  dom ev = dom self /\ Forall (fun kv => fst kv ∈ dom self) kwargs.
Proof.
  induction kwargs as [|[key arg] rest IH]; intros self ev H; simpl in H.
  - inversion H; subst. split; [reflexivity | constructor].
  - destruct (self !! key) as [old|] eqn:Hk; [|discriminate].
    apply IH in H as [Hd Hall].
    assert (Hin : key ∈ dom self) by (apply elem_of_dom; eauto).
    rewrite dom_insert_L in Hd, Hall.
    assert (Heq : {[key]} ∪ dom self = dom self) by set_solver.
    rewrite Heq in Hd, Hall. split; [exact Hd|].
    constructor; [exact Hin | exact Hall].
Qed.

Lemma set_kwargs_total kwargs : forall self,
  Forall (fun kv => fst kv ∈ dom self) kwargs ->
  exists ev, set_kwargs self kwargs = Ok ev.
Proof.
  induction kwargs as [|[key arg] rest IH]; intros self Hall; simpl.
  - eauto.
  - inversion Hall as [|? ? Hk Hrest]; subst. simpl in Hk.
    apply elem_of_dom in Hk as [old Hold]. rewrite Hold.
    apply IH. rewrite dom_insert_L.
    eapply Forall_impl; [exact Hrest|]. intros kv Hkv. simpl in *. set_solver.
Qed.

Lemma set_kwargs_invalid kwargs : forall self,
  Exists (fun kv => fst kv ∉ dom self) kwargs ->
  set_kwargs self kwargs = Raise (Exception "Provided key not in list of valid fields.").
Proof.
  induction kwargs as [|[key arg] rest IH]; intros self Hex; simpl.
  - inversion Hex.
  - destruct (self !! key) as [old|] eqn:Hk; [|reflexivity].
    apply IH. inversion Hex as [? ? Hbad|? ? Hbad]; subst.
    + simpl in Hbad. exfalso. apply Hbad. apply elem_of_dom. eauto.
    + rewrite dom_insert_L.
      assert (Hin : key ∈ dom self) by (apply elem_of_dom; eauto).
      eapply Exists_impl; [exact Hbad|]. intros kv Hkv. simpl in *. set_solver.
Qed.

Lemma set_stack_dom env self :
  is_Some (self !! "stack") -> dom (set_stack env self) = dom self.
Proof.
  intros Hs. unfold set_stack.
  assert (Hin : "stack" ∈ dom self) by (apply elem_of_dom; exact Hs).
  destruct (self !! "EventType") as [ty|]; [|reflexivity].
  destruct (py_eq_str ty "error"); rewrite dom_insert_L; set_solver.
Qed.

Lemma set_stack_iff env self :
  is_Some (self !! "EventType") ->
  (stack_populated (set_stack env self) <->
   set_stack env self !! "EventType" = Some (PyStr "error")).
Proof.
  intros [ty Hty]. unfold set_stack, stack_populated. rewrite Hty.
  destruct (py_eq_str ty "error") eqn:He.
  - rewrite lookup_insert_eq, lookup_insert_ne by discriminate.
    destruct ty; simpl in He; try discriminate.
    apply bool_decide_eq_true in He. subst. split; eauto.
  - rewrite lookup_insert_eq, lookup_insert_ne by discriminate.
    split.
    + intros [s Hs]. discriminate.
    + intros H. rewrite Hty in H. inversion H; subst. discriminate He.
Qed.

Lemma Event_init_builds env kwargs :
  is_Ok (module_name env) = true ->
  Forall (fun kv => fst kv ∈ valid_fields) kwargs ->
  exists ev, __init__ env kwargs = Ok ev.
Proof.
  unfold __init__. intros Hm Hall.
  destruct (module_name env) as [m|e]; simpl in *; [|discriminate].
  destruct (set_kwargs_total kwargs (<["module" := PyStr m]> (defaults env))) as [self Hself].
  - rewrite defaults_dom. eapply Forall_impl; [exact Hall|].
    intros kv Hkv. simpl in *. set_solver.
  - rewrite Hself. simpl. eauto.
Qed.

End EventFacts.

(** C9. The constructor [Event.__init__] raises as soon as a keyword is not one of the ten
    fixed fields; an event that is built carries exactly the ten fields, and
    its [stack] is something other than [None] exactly when its [EventType]
    is ['error']; with valid keywords and a resolvable calling module the
    constructor does build an event. *)
Theorem Event_init_fields (env : pyEvents.Env) (kwargs : list (string * pyval)) :
  (Exists (fun kv => fst kv ∉ pyEvents.valid_fields) kwargs ->
   exists e, pyEvents.__init__ env kwargs = Raise e) /\
  (forall ev, pyEvents.__init__ env kwargs = Ok ev ->
     dom ev = list_to_set pyEvents.valid_fields /\
     (pyEvents.stack_populated ev <-> ev !! "EventType" = Some (PyStr "error"))) /\
  (is_Ok (pyEvents.module_name env) = true ->
   Forall (fun kv => fst kv ∈ pyEvents.valid_fields) kwargs ->
   exists ev, pyEvents.__init__ env kwargs = Ok ev).
Proof.
  unfold pyEvents.__init__.
  split; [|split].
  - intros Hex. destruct (pyEvents.module_name env) as [m|e]; simpl; [|eauto].
    rewrite set_kwargs_invalid; [eauto|].
    rewrite defaults_dom. eapply Exists_impl; [exact Hex|].
    intros kv Hkv. simpl in *. set_solver.
  - intros ev H. destruct (pyEvents.module_name env) as [m|e]; simpl in H; [|discriminate].
    destruct (pyEvents.set_kwargs _ kwargs) as [self|e] eqn:Hset; simpl in H; [|discriminate].
    inversion H; subst; clear H.
    apply set_kwargs_ok in Hset as [Hd _]. rewrite defaults_dom in Hd.
    assert (Hs : is_Some (self !! "stack")).
    { apply elem_of_dom. rewrite Hd. unfold pyEvents.valid_fields. set_solver. }
    assert (Ht : is_Some (self !! "EventType")).
    { apply elem_of_dom. rewrite Hd. unfold pyEvents.valid_fields. set_solver. }
    split.
    + rewrite set_stack_dom by exact Hs. exact Hd.
    + apply set_stack_iff. exact Ht.
  - apply Event_init_builds.
Qed.

(** An event of type ['error'] carries the formatted call stack; an unknown
    keyword is refused. *)
Example Event_error_has_stack :
  let env := pyEvents.mkEnv 0 "node1" (Some "pyArchiveService") "process_crinex"
               [("<module>", "File a, line 1
"); ("main", "File a, line 2
");
                ("process_crinex", "File a, line 3
"); ("__init__", "File b, line 4
")] in
  (pyEvents.__init__ env [("EventType", PyStr "error"); ("Year", PyInt 2020)]
     ≫= fun ev => Ok (ev !! "stack", ev !! "module"))
  = Ok (Some (PyStr "File a, line 1
File a, line 2
"), Some (PyStr "pyArchiveService.main")) /\
  (pyEvents.__init__ env [("Description", PyStr "x"); ("stack", PyStr "mine")]
     ≫= fun ev => Ok (ev !! "stack"))
  = Ok (Some PyNone) /\
  pyEvents.__init__ env [("Severity", PyStr "high")]
  = Raise (Exception "Provided key not in list of valid fields.").
Proof. cbv zeta. repeat split; vm_compute; reflexivity. Qed.

Section ProcessDateFacts.
Import pyDate Utils.
Context {F : Formats}.
Variable clk : Clock.

Lemma decode_bare_first a N :
  bare a = true -> Str.int_opt a = Some N ->
  decode clk true 0 a = Ok (Some (sub (of_datetime (now_days clk)) N)).
Proof.
  unfold bare, decode. intros Hb Hn.
  apply andb_prop in Hb as [Hb H4]. apply andb_prop in Hb as [Hb H3].
  apply andb_prop in Hb as [H1 H2].
  apply negb_true_iff in H1, H2, H3, H4. rewrite H1, H2, H3, H4.
  destruct a as [|c a']; [discriminate Hn|]. simpl.
  unfold Str.int. rewrite Hn. reflexivity.
Qed.

Lemma decode_bare_later a i allow :
  bare a = true -> a <> "" -> (0 < i)%nat ->
  decode clk allow i a =
    Raise (ValueError "Invalid input date: allow_days was set to False.").
Proof.
  unfold bare, decode. intros Hb Hne Hi.
  apply andb_prop in Hb as [Hb H4]. apply andb_prop in Hb as [Hb H3].
  apply andb_prop in Hb as [H1 H2].
  apply negb_true_iff in H1, H2, H3, H4. rewrite H1, H2, H3, H4.
  destruct a as [|c a']; [congruence|]. simpl.
  destruct i; [lia|]. simpl. rewrite andb_false_r. reflexivity.
Qed.

End ProcessDateFacts.


Section GapFacts.
Import pyDate Gaps.
Local Open Scope Z_scope.

Lemma not_observed_iff (doy : Date) (rows : list Rinex.row) :
  negb (existsb (eqb doy) (map Rinex.date rows)) = true <->
  ~ In (mjd doy) (map (fun r => mjd (Rinex.date r)) rows).
Proof.
  rewrite negb_true_iff, <- not_true_iff_false, existsb_exists.
  split; intros H Hin; apply H.
  - apply in_map_iff in Hin as [r [Hr Hin]].
    exists (Rinex.date r). split; [apply in_map; exact Hin|].
    unfold eqb. rewrite <- Hr. apply Z.eqb_refl.
  - destruct Hin as [a [Hin Heq]]. apply in_map_iff in Hin as [r [Hr Hin]].
    apply in_map_iff. exists r. split; [|exact Hin].
    unfold eqb in Heq. apply Z.eqb_eq in Heq. subst a. symmetry. exact Heq.
Qed.

Lemma mjd_of_mjd_list (l : list Z) : map mjd (map of_mjd l) = l.
Proof. induction l as [|x l IH]; simpl; [reflexivity | f_equal; exact IH]. Qed.

Lemma NoDup_map_filter (f : Date -> bool) (l : list Date) :
  List.NoDup (map mjd l) -> List.NoDup (map mjd (List.filter f l)).
Proof.
  induction l as [|x l IH]; simpl; intros Hnd; [constructor|].
  inversion Hnd as [|? ? Hx Hl]; subst.
  destruct (f x); simpl; [|apply IH; exact Hl].
  constructor; [|apply IH; exact Hl].
  intros Hin. apply Hx. apply in_map_iff in Hin as [y [Hy Hin]].
  apply filter_In in Hin as [Hin _]. apply in_map_iff. eauto.
Qed.

End GapFacts.

(** C2 (as the code has it).  [GetGaps] first narrows the range to the days
    of the first and of the last inventory row found in the queried range;
    the gaps are exactly the days from the first row's day to the last row's
    day on which no returned row falls, each listed once, and there is none
    when the query finds no row. *)
Theorem GetGaps_between_first_and_last (rinex_proc : list Rinex.row)
    (net stn : string) (start_date end_date : pyDate.Date) :
  let rnxtbl := Rinex.select rinex_proc net stn start_date end_date in
  let gaps := fst (Gaps.GetGaps rinex_proc net stn start_date end_date) in
  (rnxtbl = [] -> gaps = []) /\
  List.NoDup (map pyDate.mjd gaps) /\
  (forall first final, head rnxtbl = Some first -> last rnxtbl = Some final ->
     forall m : Z,
       In m (map pyDate.mjd gaps) <->
       (pyDate.mjd (Rinex.date first) <= m <= pyDate.mjd (Rinex.date final))%Z /\
       ~ In m (map (fun r => pyDate.mjd (Rinex.date r)) rnxtbl)).
Proof.
  intros rnxtbl gaps. subst gaps. unfold Gaps.GetGaps. fold rnxtbl.
  destruct rnxtbl as [|r0 rest] eqn:Hrn.
  - simpl. repeat split; try constructor; intros; discriminate.
  - destruct (last (r0 :: rest)) as [fin|] eqn:Hlast.
    + cbn [fst]. split; [intros; discriminate|]. split.
      * apply NoDup_map_filter. rewrite mjd_of_mjd_list.
        apply NoDup_ListNoDup, NoDup_seqZ.
      * intros first final Hf Hl m. simpl in Hf. inversion Hf; subst first.
        inversion Hl; subst final. clear Hf Hl.
        rewrite in_map_iff. split.
        -- intros [g [Hg Hin]]. apply filter_In in Hin as [Hin Hno].
           apply in_map_iff in Hin as [k [Hk Hin]]. subst g. simpl in Hg. subst k.
           apply list_elem_of_In, elem_of_seqZ in Hin.
           split; [lia|]. apply not_observed_iff in Hno. exact Hno.
        -- intros [Hrange Hno]. exists (pyDate.of_mjd m). split; [reflexivity|].
           apply filter_In. split.
           ++ apply in_map. apply list_elem_of_In, elem_of_seqZ. lia.
           ++ apply not_observed_iff. exact Hno.
    + exfalso. rewrite last_cons in Hlast. destruct (last rest); discriminate.
Qed.

(** The example of the inventory with days 1, 2, 5 and 6 in the range 1..6:
    the gaps are the days 3 and 4. *)
Example GetGaps_days_1_2_5_6 :
  fst (Gaps.GetGaps (map (Gaps.day_row "rms" "igm1" 2020) [1; 2; 5; 6]%Z) "rms" "igm1"
         (pyDate.of_year_doy 2020 1) (pyDate.of_year_doy 2020 6))
  = [pyDate.of_year_doy 2020 3; pyDate.of_year_doy 2020 4].
Proof. reflexivity. Qed.

(** C2 (as stated) fails: with inventory rows on days 3 and 4 only and the
    queried range 1..6, day 1 lies in the range and has no inventory row, yet
    no gap is returned. *)
Lemma GetGaps_ignores_days_outside_data :
  let inventory := map (Gaps.day_row "rms" "igm1" 2020) [3; 4]%Z in
  let start_date := pyDate.of_year_doy 2020 1 in
  let end_date := pyDate.of_year_doy 2020 6 in
  (pyDate.mjd start_date <= pyDate.mjd (pyDate.of_year_doy 2020 1) <= pyDate.mjd end_date)%Z /\
  existsb (pyDate.eqb (pyDate.of_year_doy 2020 1)) (map Rinex.date inventory) = false /\
  fst (Gaps.GetGaps inventory "rms" "igm1" start_date end_date) = [].
Proof. cbv zeta. split; [vm_compute; split; discriminate|]. split; reflexivity. Qed.

(** C3, at an inventory the code mishandles.  Days 1 and 8 are observed, so
    the six days 2..7 are missing ([GetGaps] lists them) and exceed the
    threshold 5, yet [GetStnGaps] reports no gap: a run is only closed by a
    later pair of consecutive observed days.  With day 9 observed as well the
    run 2..7 of 6 days is reported, and a run of 3 days is suppressed. *)
Theorem GetStnGaps_unclosed_run_is_lost :
  let inventory := map (Gaps.day_row "rms" "igm1" 2020) [1; 8]%Z in
  let start_date := pyDate.of_year_doy 2020 1 in
  let end_date := pyDate.of_year_doy 2020 30 in
  Gaps.GetStnGaps inventory [("rms", "igm1")] 5 start_date end_date
    = [Gaps.NoDataGaps "rms" "igm1"] /\
  fst (Gaps.GetGaps inventory "rms" "igm1" start_date end_date)
    = map (pyDate.of_year_doy 2020) [2; 3; 4; 5; 6; 7]%Z /\
  Gaps.GetStnGaps (map (Gaps.day_row "rms" "igm1" 2020) [1; 8; 9]%Z)
      [("rms", "igm1")] 5 start_date end_date
    = [Gaps.DataGaps "rms" "igm1"
         [Gaps.mkGap (pyDate.of_year_doy 2020 2) (pyDate.of_year_doy 2020 7) 6]] /\
  Gaps.GetStnGaps (map (Gaps.day_row "rms" "igm1" 2020) [1; 2; 6; 7]%Z)
      [("rms", "igm1")] 5 start_date end_date
    = [Gaps.NoDataGaps "rms" "igm1"].
Proof. cbv zeta. repeat split; vm_compute; reflexivity. Qed.

(** Comparisons of integers that [lia] decides, as boolean equations. *)
Ltac zbool :=
  symmetry;
  first [ apply Z.ltb_lt; lia | apply Z.ltb_ge; lia | apply Z.leb_le; lia
        | apply Z.leb_gt; lia | apply Z.eqb_eq; lia | apply Z.eqb_neq; lia ].

Section SortFacts.
Context {A : Type} (key : A -> Z).

Lemma insert_by_perm x l : Permutation (insert_by key x l) (x :: l).
Proof.
  induction l as [|y l IH]; simpl; [reflexivity|].
  destruct (key y <? key x)%Z; [|reflexivity].
  rewrite IH. apply perm_swap.
Qed.

Lemma sort_by_perm l : Permutation (sort_by key l) l.
Proof.
  induction l as [|x l IH]; simpl; [reflexivity|].
  unfold sort_by in *. simpl. rewrite insert_by_perm. constructor. exact IH.
Qed.

Lemma insert_by_hd x y l :
  key_le key y x -> HdRel (key_le key) y l -> HdRel (key_le key) y (insert_by key x l).
Proof.
  intros Hyx Hl. destruct l as [|z l]; simpl; [constructor; exact Hyx|].
  inversion Hl; subst. destruct (key z <? key x)%Z; constructor; assumption.
Qed.

Lemma insert_by_sorted x l :
  Sorted (key_le key) l -> Sorted (key_le key) (insert_by key x l).
Proof.
  induction l as [|y l IH]; simpl; intros Hs.
  - constructor; constructor.
  - inversion Hs as [|? ? Hl Hhd]; subst.
    destruct (key y <? key x)%Z eqn:Hlt.
    + constructor; [apply IH; exact Hl|].
      apply insert_by_hd; [|exact Hhd]. unfold key_le. lia.
    + constructor; [exact Hs|]. constructor. unfold key_le. lia.
Qed.

Lemma sort_by_sorted l : Sorted (key_le key) (sort_by key l).
Proof.
  induction l as [|x l IH]; simpl; [constructor|].
  apply insert_by_sorted. exact IH.
Qed.

End SortFacts.


(** C5, at stations the code mishandles.  The test on the gap between two
    records compares the method [total_seconds] itself with 1.  Under
    Python 3 the scan of a station with two records raises [TypeError]
    before any query, although the gap of twenty days holds three files and
    no record covers its midpoint; under Python 2 the count query is sent
    even for two records that follow each other without a gap. *)
Theorem station_info_gaps_never_measures_the_gap :
  let a := StnInfoCheck.sample_record "rms" "igm1" (pyDate.of_year_doy 2020 1)
             (Some (pyDate.of_year_doy 2020 100)) in
  let b := StnInfoCheck.sample_record "rms" "igm1" (pyDate.of_year_doy 2020 120) None in
  let b' := StnInfoCheck.sample_record "rms" "igm1" (pyDate.of_year_doy 2020 100) None in
  let files := map (Gaps.day_row "rms" "igm1" 2020) [105; 106; 107]%Z in
  let cat := mkCatalog [("rms", "igm1")] files files {[ ("rms", "igm1") := [a; b] ]} [] in
  let cat' := mkCatalog [("rms", "igm1")] files files {[ ("rms", "igm1") := [a; b'] ]} [] in
  (exists m, StnInfoCheck.station_info_gaps StnInfoCheck.Python3 cat "rms" "igm1" [a; b]
             = Raise (TypeError m)) /\
  StnInfoCheck.count_between files "rms" "igm1"
    (pyDate.datetime (pyDate.of_year_doy 2020 100))
    (pyDate.datetime (pyDate.of_year_doy 2020 120)) = 3%Z /\
  StnInfoCheck.station_info_gaps StnInfoCheck.Python2 cat "rms" "igm1" [a; b]
    = Ok ([(pyDate.datetime (pyDate.of_year_doy 2020 100),
            pyDate.datetime (pyDate.of_year_doy 2020 120))],
          [StnInfoCheck.mkUncovered 3 a b]) /\
  StnInfoCheck.station_info_gaps StnInfoCheck.Python2 cat' "rms" "igm1" [a; b']
    = Ok ([(pyDate.datetime (pyDate.of_year_doy 2020 100),
            pyDate.datetime (pyDate.of_year_doy 2020 100))], []).
Proof.
  cbv zeta. split; [eexists; reflexivity|]. repeat split; vm_compute; reflexivity.
Qed.

(** Under Python 3 the scan raises for every station with at least two
    records whose first record has an end date. *)
Lemma station_info_gaps_python3 (cat : Catalog) (net stn : string)
    (a b : pyStationInfo.StationInfoRecord) (rest : list pyStationInfo.StationInfoRecord)
    (e : pyDate.Date) :
  pyStationInfo.DateEnd a = Some e ->
  exists m, StnInfoCheck.station_info_gaps StnInfoCheck.Python3 cat net stn (a :: b :: rest)
            = Raise (TypeError m).
Proof.
  intros He. unfold StnInfoCheck.station_info_gaps.
  cbn [length Nat.ltb Nat.leb]. cbn [Nat.sub take drop zip zip_with].
  replace (length rest - 0)%nat with (length rest) by lia.
  cbn [StnInfoCheck.check_pairs]. unfold StnInfoCheck.check_pair, StnInfoCheck.end_datetime.
  rewrite He. cbn. eexists. reflexivity.
Qed.

(** C4, at a solution the code mishandles.  The declared station is
    rms.igm1 and the only station within 100 m is arg.igm1: the identities
    differ, the spatial check returns it as the match, and no warning is
    written, because the caller warns only when the network code and the
    station code both differ.  The same holds for a single match rms.lpgs
    returned as confirmed. *)
Theorem single_candidate_other_network_not_reported :
  let stns := [Spatial.mkStation "arg" "igm1" 12000; Spatial.mkStation "rms" "lpgs" 5000000] in
  Spatial.verify_spatial_coherence stns "igm1"
    = (true, [Spatial.mkStation "arg" "igm1" 12000], []) /\
  Spatial.check_solution "rms" "igm1" (Spatial.verify_spatial_coherence stns "igm1") = Ok [] /\
  Spatial.check_solution "rms" "igm1" (true, [Spatial.mkStation "rms" "lpgs" 12000], []) = Ok [] /\
  Spatial.check_solution "rms" "igm1" (true, [Spatial.mkStation "arg" "lpgs" 12000], [])
    = Ok [Spatial.OnlyCandidate (Spatial.mkStation "arg" "lpgs" 12000)].
Proof. cbv zeta. repeat split. Qed.

Section StationInfoFacts.
Import pyDate pyStationInfo.

Lemma sort_by_nil {A} (key : A -> Z) (l : list A) : sort_by key l = [] -> l = [].
Proof.
  intros H. apply Permutation_nil. rewrite <- H. apply sort_by_perm.
Qed.

Lemma StationInfo_found (tbl : table) net stn :
  default [] (tbl !! (net, stn)) <> [] ->
  exists recs, StationInfo tbl net stn false = Ok recs.
Proof.
  intros Hne. unfold StationInfo.
  destruct (sort_by _ (default [] (tbl !! (net, stn)))) as [|r recs] eqn:Hs.
  - apply sort_by_nil in Hs. contradiction.
  - eauto.
Qed.

Lemma StationInfo_missing (tbl : table) net stn :
  default [] (tbl !! (net, stn)) = [] ->
  exists m, StationInfo tbl net stn false = Raise (pyStationInfoException m).
Proof.
  intros He. unfold StationInfo. rewrite He. simpl. eauto.
Qed.

Lemma StationInfo_at_raises (tbl : table) net stn date e :
  StationInfo_at tbl net stn date = Raise e -> exists m, e = pyStationInfoException m.
Proof.
  unfold StationInfo_at, StationInfo, mbind, result_bind, rbind.
  destruct (sort_by _ _) as [|r recs].
  - intros H. inversion H. eauto.
  - destruct (last _); intros H; inversion H. eauto.
Qed.

Lemma not_Ok_raises (tbl : table) net stn date :
  is_Ok (StationInfo_at tbl net stn date) = false ->
  exists m, StationInfo_at tbl net stn date = Raise (pyStationInfoException m).
Proof.
  destruct (StationInfo_at tbl net stn date) as [x|e] eqn:H; [discriminate|].
  intros _. apply StationInfo_at_raises in H as [m ->]. eauto.
Qed.

Lemma StationInfo_raises (tbl : table) (net stn : string) (allow : bool) (e : exn) :
  StationInfo tbl net stn allow = Raise e -> exists m, e = pyStationInfoException m.
Proof.
  unfold StationInfo. destruct (sort_by _ _); [|discriminate].
  destruct allow; intros H; inversion H. eauto.
Qed.

Lemma InsertStationInfo_raises (horizon : option Z) (tbl : table) (net stn : string)
    (record : StationInfoRecord) (e : exn) :
  InsertStationInfo horizon tbl net stn record = Raise e ->
  exists m, e = pyStationInfoException m.
Proof.
  unfold InsertStationInfo. destruct (List.filter _ _); intros H; inversion H. eauto.
Qed.

End StationInfoFacts.

Section MonadFacts.

Lemma bind_ok {A B} (m : M A) (k : A -> M B) (w w' : World) (a : A) :
  m w = (Ok a, w') -> (m ≫= k) w = k a w'.
Proof. intros H. unfold mbind, M_bind. rewrite H. reflexivity. Qed.

Lemma bind_raise {A B} (m : M A) (k : A -> M B) (w w' : World) (e : exn) :
  m w = (Raise e, w') -> (m ≫= k) w = (Raise e, w').
Proof. intros H. unfold mbind, M_bind. rewrite H. reflexivity. Qed.

Lemma bind_ok_inv {A B} (m : M A) (k : A -> M B) (w w'' : World) (b : B) :
  (m ≫= k) w = (Ok b, w'') ->
  exists a w', m w = (Ok a, w') /\ k a w' = (Ok b, w'').
Proof.
  unfold mbind, M_bind. destruct (m w) as [[a|e] w']; intros H.
  - eauto.
  - discriminate.
Qed.

End MonadFacts.

Section RenameFacts.
Import pyDate Rename.
Variable build_rinex_path : string -> string -> Z -> Z -> string -> string.
Variable horizon : option Z.
Variable faults : nat -> option step.
Variables NetworkCode StationCode DestNetworkCode DestStationCode : string.
Variable archive_path : string.

Abbreviation transfer :=
  (transfer_station_info horizon faults NetworkCode StationCode
     DestNetworkCode DestStationCode).
Abbreviation rename1 :=
  (rename_file build_rinex_path horizon faults NetworkCode StationCode
     DestNetworkCode DestStationCode archive_path).
Abbreviation rename_all :=
  (rename_files build_rinex_path horizon faults NetworkCode StationCode
     DestNetworkCode DestStationCode archive_path).
Abbreviation upd :=
  (updated build_rinex_path NetworkCode StationCode DestNetworkCode
     DestStationCode archive_path).
Abbreviation reloc :=
  (relocated build_rinex_path NetworkCode StationCode DestNetworkCode
     DestStationCode archive_path).
Abbreviation src_at :=
  (src_location build_rinex_path NetworkCode StationCode archive_path).
Abbreviation dest_dir :=
  (dest_path build_rinex_path NetworkCode StationCode DestNetworkCode
     DestStationCode archive_path).

Abbreviation bc :=
  (before_commit build_rinex_path NetworkCode StationCode DestNetworkCode
     DestStationCode archive_path).

Lemma simulate_other i s s' w :
  faults i = Some s -> s <> s' -> simulate faults i s' w = (Ok tt, w).
Proof.
  intros Hf Hne. unfold simulate. rewrite Hf.
  rewrite bool_decide_eq_false_2; [reflexivity | congruence].
Qed.

Lemma simulate_hit i s w :
  faults i = Some s -> simulate faults i s w = (Raise (simulated s), w).
Proof.
  intros Hf. unfold simulate. rewrite Hf.
  rewrite bool_decide_eq_true_2; reflexivity.
Qed.

Lemma simulate_none i s w :
  faults i = None -> simulate faults i s w = (Ok tt, w).
Proof.
  intros Hf. unfold simulate. rewrite Hf. reflexivity.
Qed.

Lemma simulate_world i s r w w' : simulate faults i s w = (r, w') -> w' = w.
Proof.
  unfold simulate. destruct (bool_decide _); intros H; inversion H; reflexivity.
Qed.

Lemma copy_frame date w r w' :
  copy_station_info horizon NetworkCode StationCode DestNetworkCode DestStationCode
    date w = (r, w') ->
  transaction w' = transaction w /\ files w' = files w /\
  rinex (db w') = rinex (db w) /\ shown w' = shown w.
Proof.
  unfold copy_station_info, mbind, M_bind, get, lift, modify.
  destruct (pyStationInfo.StationInfo _ _ _ _) as [recs|e]; [|intros H; inversion H; auto].
  destruct (pyStationInfo.StationInfo_at _ _ _ _) as [src|e]; [|intros H; inversion H; auto].
  destruct (pyStationInfo.InsertStationInfo _ _ _ _ _) as [tbl|e];
    intros H; inversion H; subst; simpl; auto.
Qed.

Lemma transfer_frame i date w r w' :
  transfer i date w = (r, w') ->
  transaction w' = transaction w /\ files w' = files w /\
  rinex (db w') = rinex (db w).
Proof.
  unfold transfer_station_info, try_except.
  unfold mbind at 1, M_bind at 1.
  destruct (simulate faults i AtStationInfo w) as [[[]|e] w1] eqn:Hs;
    apply simulate_world in Hs; subst w1.
  - unfold mbind, M_bind, get, lift, mret, M_ret.
    destruct (pyStationInfo.StationInfo_at _ _ _ _) as [x|e].
    + intros H; inversion H; subst; auto.
    + destruct e; try (intros H; inversion H; subst; auto; fail).
      destruct (copy_station_info _ _ _ _ _ _ w) as [[[]|e'] w2] eqn:Hc;
        apply copy_frame in Hc as (Ht & Hf & Hr & Hsh).
      * intros H; inversion H; subst; auto.
      * destruct e'; intros H; inversion H; subst; simpl; auto.
  - destruct e; try (intros H; inversion H; subst; auto; fail).
    destruct (copy_station_info _ _ _ _ _ _ w) as [[[]|e'] w2] eqn:Hc;
      apply copy_frame in Hc as (Ht & Hf & Hr & Hsh).
    + intros H; inversion H; subst; auto.
    + destruct e'; intros H; inversion H; subst; simpl; auto.
Qed.

Lemma transfer_simulated i date w :
  faults i = Some AtStationInfo ->
  transfer i date w = (Raise (simulated AtStationInfo), w).
Proof.
  intros Hf. unfold transfer_station_info, try_except.
  unfold mbind at 1, M_bind at 1. rewrite (simulate_hit _ _ _ Hf). reflexivity.
Qed.

(** The transfer of a file up to its commit, when nothing makes it fail. *)
Lemma rename_file_reaches_commit i src w :
  faults i <> Some AtUpdate -> faults i <> Some AtMove ->
  src_at src ∈ files w ->
  rename1 i src w =
  ((simulate faults i AtCommit;; commit_transac;;
    transfer i (of_year_doy (Rinex.ObservationYear src) (Rinex.ObservationDOY src)))
     (bc src w)).
Proof.
  intros Hu Hm Hin. unfold rename_file.
  unfold mbind at 1, M_bind at 1, begin_transac, modify.
  unfold mbind at 1, M_bind at 1.
  unfold simulate at 1. rewrite bool_decide_eq_false_2 by exact Hu.
  unfold mbind at 1, M_bind at 1, update_rinex, modify.
  unfold mbind at 1, M_bind at 1, ensure_dir, modify.
  unfold mbind at 1, M_bind at 1.
  unfold simulate at 1. rewrite bool_decide_eq_false_2 by exact Hm.
  unfold mbind at 1, M_bind at 1, move.
  rewrite bool_decide_eq_true_2; [reflexivity|].
  destruct (bool_decide _); exact Hin.
Qed.


Lemma rename_file_ok_transaction i src w w' :
  rename1 i src w = (Ok tt, w') -> transaction w' = None.
Proof.
  unfold rename_file. intros H.
  repeat (apply bind_ok_inv in H as (? & ? & ? & H)).
  apply transfer_frame in H as (Ht & _ & _). rewrite Ht.
  match goal with Hc : commit_transac _ = _ |- _ => inversion Hc; reflexivity end.
Qed.

Lemma rename_files_ok_transaction q : forall i w w',
  transaction w = None -> rename_all i q w = (Ok tt, w') -> transaction w' = None.
Proof.
  induction q as [|src q IH]; intros i w w' Ht H; simpl in H.
  - inversion H; subst. exact Ht.
  - apply bind_ok_inv in H as ([] & w1 & H1 & H).
    apply rename_file_ok_transaction in H1. eapply IH; eassumption.
Qed.

Lemma rename_files_app q1 : forall q2 i w,
  rename_all i (q1 ++ q2)%list w =
  match rename_all i q1 w with
  | (Ok _, w') => rename_all (i + length q1) q2 w'
  | (Raise e, w') => (Raise e, w')
  end.
Proof.
  induction q1 as [|src q1 IH]; intros q2 i w; simpl.
  - replace (i + 0)%nat with i by lia. reflexivity.
  - unfold mbind, M_bind.
    destruct (rename1 i src w) as [[[]|e] w1]; [|reflexivity].
    rewrite IH. replace (i + S (length q1))%nat with (S i + length q1)%nat by lia.
    reflexivity.
Qed.

Abbreviation failed :=
  (failed_at build_rinex_path NetworkCode StationCode DestNetworkCode
     DestStationCode archive_path).

Lemma rename_file_fails i src s w :
  faults i = Some s ->
  (s = AtCommit \/ s = AtStationInfo -> src_at src ∈ files w) ->
  rename1 i src w = (Raise (simulated s), failed s src w).
Proof.
  intros Hf Hin. destruct s.
  - unfold rename_file.
    unfold mbind at 1, M_bind at 1, begin_transac, modify.
    unfold mbind at 1, M_bind at 1. rewrite (simulate_hit _ _ _ Hf). reflexivity.
  - unfold rename_file.
    unfold mbind at 1, M_bind at 1, begin_transac, modify.
    unfold mbind at 1, M_bind at 1.
    rewrite (simulate_other _ _ AtUpdate _ Hf) by discriminate.
    unfold mbind at 1, M_bind at 1, update_rinex, modify.
    unfold mbind at 1, M_bind at 1, ensure_dir, modify.
    unfold mbind at 1, M_bind at 1. rewrite (simulate_hit _ _ _ Hf). reflexivity.
  - rewrite rename_file_reaches_commit; [|congruence|congruence|auto].
    unfold mbind at 1, M_bind at 1. rewrite (simulate_hit _ _ _ Hf). reflexivity.
  - rewrite rename_file_reaches_commit; [|congruence|congruence|auto].
    unfold mbind at 1, M_bind at 1.
    rewrite (simulate_other _ _ AtCommit _ Hf) by discriminate.
    unfold mbind at 1, M_bind at 1, commit_transac, modify.
    rewrite (transfer_simulated _ _ _ Hf). reflexivity.
Qed.

Lemma files_ensure_dir p w : files (snd (ensure_dir p w)) = files w.
Proof. unfold ensure_dir, modify. simpl. destruct (bool_decide _); reflexivity. Qed.

Lemma db_ensure_dir p w : db (snd (ensure_dir p w)) = db w.
Proof. unfold ensure_dir, modify. simpl. destruct (bool_decide _); reflexivity. Qed.

Lemma transaction_ensure_dir p w : transaction (snd (ensure_dir p w)) = transaction w.
Proof. unfold ensure_dir, modify. simpl. destruct (bool_decide _); reflexivity. Qed.

(** The world the handler leaves after a failure on a file whose transfer
    began in [w]. *)
Lemma rolled_back s src w :
  transaction w = None ->
  let w' := snd (rollback_transac (failed s src w)) in
  transaction w' = None /\
  match s with
  | AtUpdate | AtMove => db w' = db w /\ files w' = files w
  | AtCommit => db w' = db w /\ files w' = files (reloc src w)
  | AtStationInfo => db w' = db (upd src w) /\ files w' = files (reloc src w)
  end.
Proof.
  intros Ht. cbv zeta. unfold rollback_transac, modify. cbn [snd].
  destruct s; unfold failed_at, before_commit, relocated, updated.
  - cbn [transaction set_transaction set_db db files]. auto.
  - rewrite transaction_ensure_dir.
    cbn [transaction set_transaction set_db db files].
    rewrite files_ensure_dir. cbn [files set_db set_transaction]. auto.
  - cbn [transaction set_files]. rewrite transaction_ensure_dir.
    cbn [transaction set_transaction set_db set_files db files].
    rewrite files_ensure_dir. cbn [files set_db set_transaction]. auto.
  - cbn [transaction set_transaction set_files db files].
    rewrite db_ensure_dir, files_ensure_dir.
    cbn [transaction set_transaction set_files set_db db files]. auto.
Qed.

Lemma copy_station_info_total date w :
  (exists w', copy_station_info horizon NetworkCode StationCode DestNetworkCode
                DestStationCode date w = (Ok tt, w')) \/
  (exists m w', copy_station_info horizon NetworkCode StationCode DestNetworkCode
                  DestStationCode date w = (Raise (pyStationInfoException m), w')).
Proof.
  unfold copy_station_info, mbind, M_bind, get, lift, modify.
  destruct (pyStationInfo.StationInfo _ _ _ _) as [recs|e] eqn:H1.
  - destruct (pyStationInfo.StationInfo_at _ _ _ _) as [src|e] eqn:H2.
    + destruct (pyStationInfo.InsertStationInfo _ _ _ _ _) as [tbl|e] eqn:H3.
      * left. eauto.
      * apply InsertStationInfo_raises in H3 as [m ->]. right. eauto.
    + apply StationInfo_at_raises in H2 as [m ->]. right. eauto.
  - apply StationInfo_raises in H1 as [m ->]. right. eauto.
Qed.

Lemma transfer_total i date w :
  faults i <> Some AtStationInfo -> exists w', transfer i date w = (Ok tt, w').
Proof.
  intros Hf. unfold transfer_station_info, try_except.
  unfold mbind at 1, M_bind at 1, simulate.
  rewrite bool_decide_eq_false_2 by exact Hf.
  unfold mbind at 1 2, M_bind at 1 2, get, lift, mret, M_ret.
  destruct (pyStationInfo.StationInfo_at _ _ _ _) as [x|e] eqn:Hd; [eauto|].
  apply StationInfo_at_raises in Hd as [m ->].
  destruct (copy_station_info_total date w) as [[w' Hc] | (m' & w' & Hc)]; rewrite Hc.
  - eauto.
  - unfold show, modify. eauto.
Qed.

(** A file whose transfer nothing makes fail is migrated: its row bears the
    destination identity, the file is at its destination. *)
Lemma rename_file_migrates i src w :
  faults i = None -> src_at src ∈ files w ->
  exists w',
    rename1 i src w = (Ok tt, w') /\ transaction w' = None /\
    rinex (db w') = rinex (db (upd src w)) /\ files w' = files (reloc src w).
Proof.
  intros Hf Hin.
  rewrite rename_file_reaches_commit; [|congruence|congruence|exact Hin].
  unfold mbind at 1, M_bind at 1. rewrite (simulate_none _ _ _ Hf).
  unfold mbind at 1, M_bind at 1, commit_transac, modify.
  destruct (transfer_total i
              (of_year_doy (Rinex.ObservationYear src) (Rinex.ObservationDOY src))
              (set_transaction None (bc src w))) as [w' Ht]; [congruence|].
  rewrite Ht. exists w'. split; [reflexivity|].
  apply transfer_frame in Ht as (Htx & Hfiles & Hrows).
  rewrite Htx, Hfiles, Hrows. unfold before_commit, relocated, updated.
  cbn [transaction set_transaction set_files set_db db files rinex set_rinex].
  rewrite db_ensure_dir, files_ensure_dir.
  cbn [transaction set_transaction set_files set_db db files rinex set_rinex].
  auto.
Qed.

(** C1 (as the code has it).  When the transfer of the file at position [m]
    of the queue fails, the files before it having been transferred, the
    exception is raised again, no transaction is left open, and the later
    files have not been processed: after a failure of the catalog update or
    of the move the catalog and the archive are as the transfer of the
    files before [m] left them; after a failure of the commit the catalog
    is so too, but the file is at its destination; after a failure of the
    station information transfer the file stays transferred. *)
Theorem RenameStation_failure_on_file (start_date end_date : Date) (w0 w1 : World)
    (m : nat) (src : Rinex.row) (s : step) :
  let queue := original_rs NetworkCode StationCode w0 start_date end_date in
  destination_exists DestNetworkCode DestStationCode w0 = true ->
  transaction w0 = None ->
  queue !! m = Some src ->
  rename_all 0 (take m queue) (started NetworkCode StationCode w0 start_date end_date)
    = (Ok tt, w1) ->
  faults m = Some s ->
  (s = AtCommit \/ s = AtStationInfo -> src_at src ∈ files w1) ->
  exists w',
    RenameStation build_rinex_path horizon faults NetworkCode StationCode
      DestNetworkCode DestStationCode archive_path start_date end_date w0
      = (Raise (simulated s), w') /\
    transaction w' = None /\
    match s with
    | AtUpdate | AtMove => db w' = db w1 /\ files w' = files w1
    | AtCommit => db w' = db w1 /\ files w' = files (reloc src w1)
    | AtStationInfo => db w' = db (upd src w1) /\ files w' = files (reloc src w1)
    end.
Proof.
  intros queue Hd Ht Hm Hpre Hf Hin.
  assert (Hq : (take m queue ++ src :: drop (S m) queue)%list = queue)
    by (apply take_drop_middle; exact Hm).
  assert (Hlen : length (take m queue) = m).
  { rewrite length_take. apply lookup_lt_Some in Hm. lia. }
  assert (Ht1 : transaction w1 = None).
  { eapply rename_files_ok_transaction; [|exact Hpre]. exact Ht. }
  assert (Hrun : rename_all 0 queue (started NetworkCode StationCode w0 start_date end_date)
                 = (Raise (simulated s), failed s src w1)).
  { rewrite <- Hq. rewrite rename_files_app, Hpre, Hlen.
    cbn [rename_files Nat.add]. unfold mbind at 1, M_bind at 1.
    rewrite (rename_file_fails _ _ _ _ Hf Hin). reflexivity. }
  exists (snd (rollback_transac (failed s src w1))). split.
  - unfold RenameStation, try_except.
    unfold mbind at 1, M_bind at 1, get. rewrite Hd.
    unfold mbind at 1, M_bind at 1.
    change (show (BeginTransfer (length (original_rs NetworkCode StationCode w0
                                          start_date end_date))) w0)
      with (Ok tt, started NetworkCode StationCode w0 start_date end_date).
    fold queue. cbv beta iota. rewrite Hrun.
    unfold rollback_and_raise, mbind, M_bind, rollback_transac, modify, raise.
    reflexivity.
  - apply rolled_back. exact Ht1.
Qed.

End RenameFacts.

(** Two files are queued and the commit of the second is made to fail. *)
Lemma RenameStation_failure_on_file_witness :
  exists w',
    Rename.RenameStation Rename.sample_path None (Rename.fail_second_at Rename.AtCommit)
      "rms" "igm1" "rms" "lpgs" "/archive"
      (pyDate.of_year_doy 2020 1) (pyDate.of_year_doy 2020 30)
      (Rename.sample_world Rename.sample_stationinfo)
    = (Raise (Rename.simulated Rename.AtCommit), w') /\
    transaction w' = None /\
    rinex (db w') =
      [Rinex.mkRow "rms" "lpgs" 2020 1 5084553600000000 5084640000000000
         "5137K78333" "lpgs0010.20o";
       Rename.sample_row "igm1" 2 "igm10020.20o"] /\
    files w' = {[ "/archive/rms/lpgs/2020/001/lpgs0010.20d.Z";
                  "/archive/rms/lpgs/2020/002/lpgs0020.20d.Z" ]}.
Proof.
  destruct (RenameStation_failure_on_file Rename.sample_path None
              (Rename.fail_second_at Rename.AtCommit) "rms" "igm1" "rms" "lpgs" "/archive"
              (pyDate.of_year_doy 2020 1) (pyDate.of_year_doy 2020 30)
              (Rename.sample_world Rename.sample_stationinfo)
              (snd (Rename.rename_files Rename.sample_path None
                      (Rename.fail_second_at Rename.AtCommit)
                      "rms" "igm1" "rms" "lpgs" "/archive" 0
                      [Rename.sample_row "igm1" 1 "igm10010.20o"]
                      (Rename.started "rms" "igm1"
                         (Rename.sample_world Rename.sample_stationinfo)
                         (pyDate.of_year_doy 2020 1) (pyDate.of_year_doy 2020 30))))
              1 (Rename.sample_row "igm1" 2 "igm10020.20o") Rename.AtCommit)
    as [w' [Hrun [Htx [Hdb Hfiles]]]].
  - reflexivity.
  - reflexivity.
  - reflexivity.
  - vm_compute. reflexivity.
  - reflexivity.
  - intros _. vm_compute. reflexivity.
  - exists w'. split; [exact Hrun|]. split; [exact Htx|]. split.
    + rewrite Hdb. vm_compute. reflexivity.
    + rewrite Hfiles. vm_compute. reflexivity.
Defined.

(** C1 (as stated) fails: two files are queued and the commit of the second
    fails.  The first file stays transferred and the row of the second is
    the original one again, but the second file is not at its original
    location: it has been moved to the destination. *)
Lemma RenameStation_commit_failure_leaves_file_moved :
  let run := Rename.RenameStation Rename.sample_path None
               (Rename.fail_second_at Rename.AtCommit)
               "rms" "igm1" "rms" "lpgs" "/archive"
               (pyDate.of_year_doy 2020 1) (pyDate.of_year_doy 2020 30)
               (Rename.sample_world Rename.sample_stationinfo) in
  fst run = Raise (Rename.simulated Rename.AtCommit) /\
  rinex (db (snd run)) =
    [Rinex.mkRow "rms" "lpgs" 2020 1 5084553600000000 5084640000000000
       "5137K78333" "lpgs0010.20o";
     Rename.sample_row "igm1" 2 "igm10020.20o"] /\
  bool_decide ("/archive/rms/igm1/2020/002/igm10020.20d.Z" ∈ files (snd run)) = false /\
  bool_decide ("/archive/rms/lpgs/2020/002/lpgs0020.20d.Z" ∈ files (snd run)) = true.
Proof. cbv zeta. repeat split; vm_compute; reflexivity. Qed.

Section TransferFacts.
Import pyDate Rename pyStationInfo.
Variable horizon : option Z.
Variable faults : nat -> option step.
Variables NetworkCode StationCode DestNetworkCode DestStationCode : string.

Abbreviation transfer :=
  (transfer_station_info horizon faults NetworkCode StationCode
     DestNetworkCode DestStationCode).

(** The transfer once the destination has been found without a record for
    the date. *)
Lemma transfer_copies i date w m :
  faults i <> Some AtStationInfo ->
  StationInfo_at (stationinfo (db w)) DestNetworkCode DestStationCode date
    = Raise (pyStationInfoException m) ->
  transfer i date w =
  try_except
    (copy_station_info horizon NetworkCode StationCode DestNetworkCode DestStationCode date)
    (fun e' => match e' with
               | pyStationInfoException m => show (StationInfoError m)
               | _ => raise e'
               end) w.
Proof.
  intros Hf Hd. unfold transfer_station_info.
  unfold try_except at 1. unfold mbind at 1, M_bind at 1.
  unfold simulate. rewrite bool_decide_eq_false_2 by exact Hf.
  unfold mbind, M_bind, get, lift. rewrite Hd. reflexivity.
Qed.

(** C8 (as the code has it).  After the move of a file, when the destination
    station has a record that applies to the date of the file its station
    information is left as it is.  When it has records but none for that
    date, the source has one, and that record with its station code set to
    the destination's overlaps no record of the destination, this record is
    added to the destination.  When the destination has no record at all,
    the source has none for the date, or the record overlaps, a warning is
    written and the station information is left as it is. *)
Theorem station_info_transfer (i : nat) (date : Date) (w : World) :
  faults i <> Some AtStationInfo ->
  let tbl := stationinfo (db w) in
  let existing := default [] (tbl !! (DestNetworkCode, DestStationCode)) in
  let applies_at_destination :=
    is_Ok (StationInfo_at tbl DestNetworkCode DestStationCode date) in
  (applies_at_destination = true -> transfer i date w = (Ok tt, w)) /\
  (forall recs current,
     applies_at_destination = false ->
     existing <> [] ->
     StationInfo_at tbl NetworkCode StationCode date = Ok (recs, current) ->
     List.filter (intersects horizon (set_StationCode DestStationCode current)) existing = [] ->
     transfer i date w =
     (Ok tt,
      set_db (set_stationinfo
                (<[(DestNetworkCode, DestStationCode) :=
                     (existing ++ [set_StationCode DestStationCode current])%list]> tbl)
                (db w)) w)) /\
  (applies_at_destination = false ->
   (existing = [] \/
    is_Ok (StationInfo_at tbl NetworkCode StationCode date) = false \/
    exists recs current,
      StationInfo_at tbl NetworkCode StationCode date = Ok (recs, current) /\
      List.filter (intersects horizon (set_StationCode DestStationCode current)) existing <> []) ->
   exists msg,
     transfer i date w = (Ok tt, set_shown (shown w ++ [StationInfoError msg])%list w)).
Proof.
  intros Hf tbl existing applies. subst applies. split; [|split].
  - intros Hok. unfold transfer_station_info, try_except.
    unfold mbind at 1, M_bind at 1. unfold simulate.
    rewrite bool_decide_eq_false_2 by exact Hf.
    unfold mbind, M_bind, get, lift, mret, M_ret. fold tbl.
    destruct (StationInfo_at tbl DestNetworkCode DestStationCode date); [reflexivity|discriminate].
  - intros recs current Hno Hne Hsrc Hfree.
    apply not_Ok_raises in Hno as [m Hno].
    rewrite (transfer_copies _ _ _ m Hf Hno).
    destruct (StationInfo_found tbl DestNetworkCode DestStationCode Hne) as [drecs Hd].
    unfold try_except, copy_station_info, mbind, M_bind, get, lift, modify. fold tbl.
    rewrite Hd, Hsrc. unfold InsertStationInfo. fold existing. cbn [snd].
    rewrite Hfree. reflexivity.
  - intros Hno Hwhy. apply not_Ok_raises in Hno as [m Hno].
    rewrite (transfer_copies _ _ _ m Hf Hno).
    unfold try_except, copy_station_info, mbind, M_bind, get, lift, modify, show. fold tbl.
    destruct Hwhy as [Hempty | [Hsrc | (recs & current & Hsrc & Hover)]].
    + destruct (StationInfo_missing tbl DestNetworkCode DestStationCode Hempty) as [msg Hd].
      rewrite Hd. eauto.
    + apply not_Ok_raises in Hsrc as [msg Hsrc].
      destruct (StationInfo tbl DestNetworkCode DestStationCode false) as [drecs|e] eqn:Hd.
      * rewrite Hsrc. eauto.
      * unfold StationInfo in Hd. destruct (sort_by _ _); [|discriminate].
        inversion Hd. eauto.
    + destruct (StationInfo tbl DestNetworkCode DestStationCode false) as [drecs|e] eqn:Hd.
      * rewrite Hsrc. unfold InsertStationInfo. fold existing. cbn [snd].
        destruct (List.filter _ existing); [contradiction|]. eauto.
      * unfold StationInfo in Hd. destruct (sort_by _ _); [|discriminate].
        inversion Hd. eauto.
Qed.

End TransferFacts.

(** The destination rms.lpgs is covered from day 200 of 2020 on only; for
    the file of day 1 the record of rms.igm1 is added to it with the
    station code lpgs. *)
Lemma station_info_transfer_witness :
  let w := Rename.sample_world Rename.sample_stationinfo in
  Rename.transfer_station_info None (fun _ => None) "rms" "igm1" "rms" "lpgs" 0
    (pyDate.of_year_doy 2020 1) w
  = (Ok tt,
     set_db (set_stationinfo
       (<[("rms", "lpgs") :=
            [StnInfoCheck.sample_record "rms" "lpgs" (pyDate.of_year_doy 2020 200) None;
             StnInfoCheck.sample_record "rms" "lpgs" (pyDate.of_year_doy 2019 1)
               (Some (pyDate.of_year_doy 2020 100))]]> Rename.sample_stationinfo)
       (db w)) w).
Proof.
  cbv zeta.
  refine (proj1 (proj2 (station_info_transfer None (fun _ => None) "rms" "igm1" "rms" "lpgs" 0
            (pyDate.of_year_doy 2020 1) (Rename.sample_world Rename.sample_stationinfo) _))
            [StnInfoCheck.sample_record "rms" "igm1" (pyDate.of_year_doy 2019 1)
               (Some (pyDate.of_year_doy 2020 100))]
            (StnInfoCheck.sample_record "rms" "igm1" (pyDate.of_year_doy 2019 1)
               (Some (pyDate.of_year_doy 2020 100))) _ _ _ _).
  - discriminate.
  - vm_compute. reflexivity.
  - vm_compute. discriminate.
  - vm_compute. reflexivity.
  - vm_compute. reflexivity.
Defined.

(** C8 (as stated) fails.  The file of day 1 of 2020 has been moved and the
    source rms.igm1 has a record that applies to that day.  When the
    destination rms.lpgs has no station information at all, nothing is
    copied and a warning is written; the same happens when the record of
    the source is open-ended and so overlaps the record the destination
    has from day 200 on. *)
Lemma station_info_not_copied :
  let date := pyDate.of_year_doy 2020 1 in
  let covered := StnInfoCheck.sample_record "rms" "igm1" (pyDate.of_year_doy 2019 1) None in
  let later := StnInfoCheck.sample_record "rms" "lpgs" (pyDate.of_year_doy 2020 200) None in
  let only_source : pyStationInfo.table := {[ ("rms", "igm1") := [covered] ]} in
  let both : pyStationInfo.table :=
    {[ ("rms", "igm1") := [covered]; ("rms", "lpgs") := [later] ]} in
  let transfer := Rename.transfer_station_info None (fun _ => None)
                    "rms" "igm1" "rms" "lpgs" 0 date in
  pyStationInfo.StationInfo_at only_source "rms" "igm1" date = Ok ([covered], covered) /\
  is_Ok (pyStationInfo.StationInfo_at only_source "rms" "lpgs" date) = false /\
  is_Ok (pyStationInfo.StationInfo_at both "rms" "lpgs" date) = false /\
  transfer (Rename.sample_world only_source)
    = (Ok tt, set_shown [StationInfoError
                           "Could not find ANY valid station info entry for rms.lpgs"]
                (Rename.sample_world only_source)) /\
  transfer (Rename.sample_world both)
    = (Ok tt, set_shown [StationInfoError
                           "Record overlaps with existing station.info records"]
                (Rename.sample_world both)).
Proof. cbv zeta. repeat split; vm_compute; reflexivity. Qed.

(* ================================================================== *)
(** * Further properties of the sources *)

(** ** Strings *)

Section StrFacts.

Lemma str_app_cons (x : ascii) (a b : string) : String x a ++ b = String x (a ++ b).
Proof. reflexivity. Qed.

Lemma str_app_nil_l (a : string) : "" ++ a = a.
Proof. reflexivity. Qed.

Lemma str_app_assoc (a b c : string) : (a ++ b) ++ c = a ++ b ++ c.
Proof.
  induction a as [|x a IH]; [reflexivity|].
  rewrite !str_app_cons, IH. reflexivity.
Qed.

Lemma str_app_nil_r (a : string) : a ++ "" = a.
Proof.
  induction a as [|x a IH]; [reflexivity|].
  rewrite str_app_cons, IH. reflexivity.
Qed.

Lemma str_length_app (a b : string) :
  String.length (a ++ b) = (String.length a + String.length b)%nat.
Proof.
  induction a as [|x a IH]; [reflexivity|].
  rewrite str_app_cons. simpl. rewrite IH. reflexivity.
Qed.

Lemma list_of_app (a b : string) :
  list_ascii_of_string (a ++ b) = (list_ascii_of_string a ++ list_ascii_of_string b)%list.
Proof.
  induction a as [|x a IH]; [reflexivity|].
  rewrite str_app_cons. simpl. rewrite IH. reflexivity.
Qed.

Lemma str_of_app (a b : list ascii) :
  string_of_list_ascii (a ++ b)%list = string_of_list_ascii a ++ string_of_list_ascii b.
Proof.
  induction a as [|x a IH]; [reflexivity|].
  simpl. rewrite IH. reflexivity.
Qed.

Lemma length_list_of (a : string) : length (list_ascii_of_string a) = String.length a.
Proof. induction a as [|x a IH]; simpl; [reflexivity|]. rewrite IH. reflexivity. Qed.

Lemma split_not_nil sep s : Str.split sep s <> [].
Proof.
  destruct s as [|c s]; simpl; [discriminate|].
  destruct (Ascii.eqb c sep); [discriminate|].
  destruct (Str.split sep s); discriminate.
Qed.

Lemma concat_split sep s : String.concat (String sep "") (Str.split sep s) = s.
Proof.
  induction s as [|c s IH]; simpl; [reflexivity|].
  destruct (Ascii.eqb_spec c sep) as [->|Hne].
  - pose proof (split_not_nil sep s) as Hnil.
    destruct (Str.split sep s) as [|p ps] eqn:E; [congruence|].
    simpl. simpl in IH. rewrite IH. reflexivity.
  - pose proof (split_not_nil sep s) as Hnil.
    destruct (Str.split sep s) as [|p ps] eqn:E; [congruence|].
    simpl in *. destruct ps; simpl in *; rewrite <- IH; reflexivity.
Qed.

Lemma split_pieces sep s : Forall (fun p => Str.contains sep p = false) (Str.split sep s).
Proof.
  induction s as [|c s IH]; simpl.
  - constructor; [reflexivity|constructor].
  - destruct (Ascii.eqb_spec c sep) as [->|Hne].
    + constructor; [reflexivity|exact IH].
    + pose proof (split_not_nil sep s) as Hnil.
      destruct (Str.split sep s) as [|p ps] eqn:E; [congruence|].
      inversion IH; subst. constructor; [|assumption].
      simpl. destruct (Ascii.eqb_spec c sep); [contradiction|]. simpl. assumption.
Qed.

Lemma split_length sep s :
  Str.contains sep s = bool_decide (2 <= length (Str.split sep s)).
Proof.
  induction s as [|c s IH]; simpl; [reflexivity|].
  pose proof (split_not_nil sep s) as Hnil.
  destruct (Ascii.eqb_spec c sep) as [->|Hne]; simpl.
  - destruct (Str.split sep s); [congruence|]. reflexivity.
  - rewrite IH. destruct (Str.split sep s); [congruence|]. reflexivity.
Qed.

Lemma split_plain sep s : Str.contains sep s = false -> Str.split sep s = [s].
Proof.
  induction s as [|c s IH]; simpl; [reflexivity|].
  destruct (Ascii.eqb c sep); simpl; [discriminate|].
  intros H. rewrite (IH H). reflexivity.
Qed.

Lemma split_app sep a b :
  Str.contains sep a = false ->
  Str.split sep (a ++ String sep b) = a :: Str.split sep b.
Proof.
  induction a as [|c a IH]; simpl.
  - rewrite Ascii.eqb_refl. reflexivity.
  - destruct (Ascii.eqb c sep); simpl; [discriminate|].
    intros H. rewrite (IH H). reflexivity.
Qed.

Lemma split_concat sep l :
  l <> [] -> Forall (fun p => Str.contains sep p = false) l ->
  Str.split sep (String.concat (String sep "") l) = l.
Proof.
  induction l as [|a l IH]; [congruence|].
  intros _ Hall. inversion Hall as [|? ? Ha Hl]; subst.
  destruct l as [|b l].
  - simpl. apply split_plain. assumption.
  - change (String.concat (String sep "") (a :: b :: l))
      with (a ++ String sep (String.concat (String sep "") (b :: l))).
    rewrite split_app by assumption. f_equal. apply IH; [discriminate|assumption].
Qed.

End StrFacts.
Section NamingFacts.
Import Naming.

Lemma concat_snoc sep (l : list string) x :
  l <> [] -> String.concat sep (l ++ [x]) = String.concat sep l ++ sep ++ x.
Proof.
  induction l as [|a l IH]; [congruence|]. intros _.
  destruct l as [|b l]; [reflexivity|].
  change (String.concat sep ((a :: b :: l) ++ [x])%list)
    with (a ++ sep ++ String.concat sep ((b :: l) ++ [x])%list).
  rewrite IH by discriminate.
  change (String.concat sep (a :: b :: l)) with (a ++ sep ++ String.concat sep (b :: l)).
  rewrite !str_app_assoc. reflexivity.
Qed.

Lemma take_last_snoc {A} (l : list A) (d : A) :
  l <> [] -> (take (length l - 1) l ++ [List.last l d])%list = l.
Proof.
  induction l as [|a l IH]; [congruence|]. intros _.
  destruct l as [|b l]; [reflexivity|].
  change (List.last (a :: b :: l) d) with (List.last (b :: l) d).
  replace (length (a :: b :: l) - 1)%nat with (S (length (b :: l) - 1)) by (simpl; lia).
  simpl take. simpl app. f_equal. apply IH. discriminate.
Qed.

End NamingFacts.

(** X1.  [parse_stnId] cuts a station identifier at its last dot: when
    the identifier holds a dot, it returns a name space and a code that,
    joined by a dot, give the identifier back, and the code holds no dot;
    when the identifier holds no dot, [UtilsException] is raised. *)
Theorem parse_stnId_round_trip (stnId : string) :
  (Str.contains "." stnId = true ->
     exists ns code,
       Naming.parse_stnId stnId = Naming.Return (ns, code) /\
       stnId = ns ++ "." ++ code /\
       Str.contains "." code = false) /\
  (Str.contains "." stnId = false ->
     Naming.parse_stnId stnId = Naming.UtilsException ("invalid station id: " ++ stnId)).
Proof.
  unfold Naming.parse_stnId.
  pose proof (split_not_nil "." stnId) as Hnil.
  pose proof (concat_split "." stnId) as Hcat.
  pose proof (split_pieces "." stnId) as Hpieces.
  rewrite split_length.
  set (parts := Str.split "." stnId) in *.
  split; intros H.
  - apply bool_decide_eq_true in H.
    replace (length parts <? 2)%nat with false by (symmetry; apply Nat.ltb_ge; lia).
    eexists _, _. split; [reflexivity|]. split.
    + rewrite <- Hcat at 1.
      rewrite <- (take_last_snoc parts "") at 1 by assumption.
      apply concat_snoc.
      destruct parts as [|a [|b l]]; simpl in *; try lia; discriminate.
    + rewrite Forall_forall in Hpieces. apply Hpieces.
      rewrite <- (take_last_snoc parts "") at 2 by assumption.
      set_solver.
  - apply bool_decide_eq_false in H.
    replace (length parts <? 2)%nat with true by (symmetry; apply Nat.ltb_lt; lia).
    reflexivity.
Qed.
(** ** Integers as text *)

Section IntFacts.
Local Open Scope Z_scope.

Lemma digit_of_pretty_char (m : N) :
  (m < 10)%N -> Str.digit_of (pretty_N_char m) = Some (Z.of_N m).
Proof.
  intros H.
  assert (m = 0 \/ m = 1 \/ m = 2 \/ m = 3 \/ m = 4 \/ m = 5 \/ m = 6 \/ m = 7
          \/ m = 8 \/ m = 9)%N as Hm by lia.
  repeat (destruct Hm as [->|Hm]; [reflexivity|]). subst. reflexivity.
Qed.

Lemma digit_not_space (c : ascii) : is_digit_char c -> Str.is_space c = false.
Proof.
  destruct c as [[] [] [] [] [] [] [] []]; intros [d Hd]; try discriminate Hd; reflexivity.
Qed.

Lemma digit_not_sign (c : ascii) :
  is_digit_char c -> Ascii.eqb c "-" = false /\ Ascii.eqb c "+" = false /\ Ascii.eqb c "<" = false
                     /\ Ascii.eqb c "," = false /\ Ascii.eqb c "." = false.
Proof.
  destruct c as [[] [] [] [] [] [] [] []]; intros [d Hd]; try discriminate Hd;
    repeat split; reflexivity.
Qed.

(** The decimal digits of a positive number, as [pretty] writes them in
    front of what is already written. *)
Lemma pretty_N_go_digits (x : N) :
  (0 < x)%N ->
  exists d : list ascii,
    d <> [] /\ Forall is_digit_char d /\
    (forall s, pretty_N_go x s = string_of_list_ascii d ++ s) /\
    (forall acc prev rest,
        Str.digits acc prev (d ++ rest) = Str.digits (acc * 10 ^ Z.of_nat (length d) + Z.of_N x) true rest).
Proof.
  induction (N.lt_wf_0 x) as [x _ IH]. intros Hx.
  assert (Hm : (x `mod` 10 < 10)%N) by (apply N.mod_lt; lia).
  pose proof (digit_of_pretty_char _ Hm) as Hc.
  destruct (decide (x `div` 10 = 0)%N) as [Hz|Hnz].
  - exists [pretty_N_char (x `mod` 10)]. split; [discriminate|]. split.
    { constructor; [eexists; exact Hc|constructor]. }
    split.
    + intros s. rewrite pretty_N_go_step by assumption. rewrite Hz, pretty_N_go_0. reflexivity.
    + intros acc prev rest. simpl app. cbn [Str.digits]. rewrite Hc.
      f_equal. change (10 ^ Z.of_nat (length [pretty_N_char (x `mod` 10)])) with 10.
      pose proof (N.div_mod x 10 ltac:(lia)) as Hdm.
      clear Hc IH Hm. set (q := (x `div` 10)%N) in *. set (r := (x `mod` 10)%N) in *.
      clearbody q r. lia.
  - destruct (IH (x `div` 10)%N) as (d & Hne & Hall & Hgo & Hdig).
    { apply N.div_lt; lia. }
    { apply N.neq_0_lt_0. assumption. }
    exists (d ++ [pretty_N_char (x `mod` 10)])%list. split.
    { destruct d; discriminate. }
    split.
    { apply Forall_app. split; [assumption|]. constructor; [eexists; exact Hc|constructor]. }
    split.
    + intros s. rewrite pretty_N_go_step by assumption. rewrite Hgo.
      rewrite str_of_app, str_app_assoc. reflexivity.
    + intros acc prev rest. rewrite <- app_assoc. rewrite Hdig.
      simpl app. cbn [Str.digits]. rewrite Hc. f_equal.
      rewrite length_app. simpl length.
      rewrite Nat2Z.inj_add, Z.pow_add_r by lia.
      change (10 ^ Z.of_nat 1) with 10.
      pose proof (N.div_mod x 10 ltac:(lia)) as Hdm.
      set (k := 10 ^ Z.of_nat (length d)). clearbody k.
      clear Hc IH Hm Hdig Hgo. set (q := (x `div` 10)%N) in *. set (r := (x `mod` 10)%N) in *.
      clearbody q r. lia.
Qed.

Lemma lstrip_digit (c : ascii) (l : list ascii) :
  Str.is_space c = false -> Str.lstrip (c :: l) = c :: l.
Proof. intros H. simpl. rewrite H. reflexivity. Qed.

Lemma strip_clean (l : list ascii) (a z : ascii) :
  hd_error l = Some a -> hd_error (rev l) = Some z ->
  Str.is_space a = false -> Str.is_space z = false -> Str.strip l = l.
Proof.
  intros Ha Hz Hsa Hsz. unfold Str.strip.
  destruct l as [|a' l]; [discriminate|]. injection Ha as ->.
  rewrite lstrip_digit by assumption.
  destruct (rev (a :: l)) as [|z' r] eqn:E; [discriminate|]. injection Hz as ->.
  rewrite lstrip_digit by assumption. rewrite <- E. apply rev_involutive.
Qed.

Lemma hd_rev_digits (d : list ascii) :
  d <> [] -> Forall is_digit_char d ->
  exists a z, hd_error d = Some a /\ hd_error (rev d) = Some z /\
              is_digit_char a /\ is_digit_char z.
Proof.
  intros Hne Hall.
  destruct d as [|a d]; [congruence|].
  assert (Hr : Forall is_digit_char (rev (a :: d))).
  { apply List.Forall_rev. exact Hall. }
  destruct (rev (a :: d)) as [|z r] eqn:E.
  { apply (f_equal (@length _)) in E. rewrite length_rev in E. discriminate. }
  exists a, z. inversion Hall; inversion Hr; subst. auto.
Qed.

(** [int(str(z)) == z] *)
Lemma int_pretty (z : Z) : Str.int (pretty z) = Ok z.
Proof.
  unfold Str.int, Str.int_opt.
  destruct z as [|p|p].
  - reflexivity.
  - change (pretty (Z.pos p)) with (pretty_N_go (N.pos p) "").
    destruct (pretty_N_go_digits (N.pos p)) as (d & Hne & Hall & Hgo & Hdig); [lia|].
    rewrite Hgo, str_app_nil_r, list_ascii_of_string_of_list_ascii.
    destruct (hd_rev_digits d Hne Hall) as (a & z & Ha & Hz & Hda & Hdz).
    rewrite (strip_clean d a z Ha Hz (digit_not_space _ Hda) (digit_not_space _ Hdz)).
    destruct d as [|c body]; [congruence|]. injection Ha as ->.
    destruct (digit_not_sign _ Hda) as (-> & -> & _).
    specialize (Hdig 0 false []). rewrite app_nil_r in Hdig. rewrite Hdig.
    simpl. reflexivity.
  - change (pretty (Z.neg p)) with ("-" ++ pretty_N_go (N.pos p) "").
    destruct (pretty_N_go_digits (N.pos p)) as (d & Hne & Hall & Hgo & Hdig); [lia|].
    rewrite Hgo, str_app_nil_r.
    change (list_ascii_of_string ("-" ++ string_of_list_ascii d))
      with ("-"%char :: list_ascii_of_string (string_of_list_ascii d)).
    rewrite list_ascii_of_string_of_list_ascii.
    destruct (hd_rev_digits d Hne Hall) as (a & z & Ha & Hz & Hda & Hdz).
    assert (Hz' : hd_error (rev ("-"%char :: d)) = Some z).
    { simpl. destruct (rev d); [discriminate|]. exact Hz. }
    rewrite (strip_clean ("-"%char :: d) "-"%char z eq_refl Hz' eq_refl (digit_not_space _ Hdz)).
    change (Ascii.eqb "-" "-") with true. cbv iota.
    specialize (Hdig 0 false []). rewrite app_nil_r in Hdig. rewrite Hdig.
    simpl. reflexivity.
Qed.

End IntFacts.
(** X2.  [get_norm_year_str] accepts whatever [int()] reads as a year
    that is not negative and returns the decimal text of a year [Y]: a
    two-digit year is moved into the window 1980..2079 (80..99 to the
    1900s, 0..79 to the 2000s) and keeps its last two digits, any other
    year is returned as it is; normalising the result again changes
    nothing. *)
Theorem get_norm_year_str_window (year : pyval) (y : Z) :
  Naming.py_int year = Ok y -> (0 <= y)%Z ->
  exists Y : Z,
    Naming.get_norm_year_str year = Naming.Return (pretty Y) /\
    (y <= 99 -> 1980 <= Y <= 2079 /\ Y mod 100 = y)%Z /\
    (100 <= y -> Y = y)%Z /\
    Naming.get_norm_year_str (PyStr (pretty Y)) = Naming.Return (pretty Y).
Proof.
  intros Hint Hy. unfold Naming.get_norm_year_str at 1. rewrite Hint.
  replace (y <? 0)%Z with false by (symmetry; apply Z.ltb_ge; lia).
  assert (Hidem : forall Y, (100 <= Y)%Z ->
            Naming.get_norm_year_str (PyStr (pretty Y)) = Naming.Return (pretty Y)).
  { intros Y HY. unfold Naming.get_norm_year_str, Naming.py_int. rewrite int_pretty.
    replace (Y <? 0)%Z with false by (symmetry; apply Z.ltb_ge; lia).
    replace (Y <=? 99)%Z with false by (symmetry; apply Z.leb_gt; lia).
    replace (Y <? 80)%Z with false by (symmetry; apply Z.ltb_ge; lia).
    rewrite !andb_false_r. reflexivity. }
  destruct (Z.leb_spec 80 y) as [H80|H80]; destruct (Z.leb_spec y 99) as [H99|H99];
    cbn [andb].
  - exists (y + 1900)%Z. split; [reflexivity|]. split; [|split].
    + intros _. split; [lia|].
      replace (y + 1900)%Z with (y + 19 * 100)%Z by lia.
      rewrite Z.mod_add by lia. apply Z.mod_small. lia.
    + lia.
    + apply Hidem. lia.
  - replace (y <? 80)%Z with false by (symmetry; apply Z.ltb_ge; lia).
    rewrite andb_false_r.
    exists y. split; [reflexivity|]. split; [lia|]. split; [reflexivity|]. apply Hidem. lia.
  - replace (0 <=? y)%Z with true by (symmetry; apply Z.leb_le; lia).
    replace (y <? 80)%Z with true by (symmetry; apply Z.ltb_lt; lia).
    exists (y + 2000)%Z. split; [reflexivity|]. split; [|split].
    + intros _. split; [lia|].
      replace (y + 2000)%Z with (y + 20 * 100)%Z by lia.
      rewrite Z.mod_add by lia. apply Z.mod_small. lia.
    + lia.
    + apply Hidem. lia.
  - lia.
Qed.

(** A year given as the text [7] is the year 2007. *)
Lemma get_norm_year_str_window_witness :
  exists Y : Z,
    Naming.get_norm_year_str (PyStr "7") = Naming.Return (pretty Y) /\
    (7 <= 99 -> 1980 <= Y <= 2079 /\ Y mod 100 = 7)%Z /\
    (100 <= 7 -> Y = 7)%Z /\
    Naming.get_norm_year_str (PyStr (pretty Y)) = Naming.Return (pretty Y).
Proof.
  apply (get_norm_year_str_window (PyStr "7") 7); [reflexivity|lia].
Defined.

Section DoyFacts.
Local Open Scope Z_scope.


End DoyFacts.


Section ParseIntSetFacts.
Import Naming.
Local Open Scope Z_scope.

Lemma pretty_nonneg_digits (z : Z) :
  0 <= z ->
  exists d : list ascii,
    d <> [] /\ Forall is_digit_char d /\
    pretty z = string_of_list_ascii d /\
    (forall acc prev rest,
        Str.digits acc prev (d ++ rest) = Str.digits (acc * 10 ^ Z.of_nat (length d) + z) true rest).
Proof.
  intros Hz. destruct z as [|p|p]; [| |lia].
  - exists ["0"%char]. split; [discriminate|]. split.
    { constructor; [eexists; reflexivity|constructor]. }
    split; [reflexivity|]. intros acc prev rest.
    change (Str.digits acc prev (["0"%char] ++ rest)) with (Str.digits (10 * acc + 0) true rest).
    change (10 ^ Z.of_nat (length ["0"%char])) with 10. f_equal. lia.
  - destruct (pretty_N_go_digits (N.pos p)) as (d & Hne & Hall & Hgo & Hdig); [lia|].
    exists d. split; [assumption|]. split; [assumption|]. split.
    + change (pretty (Z.pos p)) with (pretty_N_go (N.pos p) "").
      rewrite Hgo. apply str_app_nil_r.
    + exact Hdig.
Qed.

Lemma contains_digits (c : ascii) (d : list ascii) :
  Forall is_digit_char d -> Str.digit_of c = None ->
  Str.contains c (string_of_list_ascii d) = false.
Proof.
  intros Hall Hc. induction Hall as [|x d Hx _ IH]; [reflexivity|].
  simpl. rewrite IH, orb_false_r.
  destruct (Ascii.eqb_spec x c) as [->|]; [|reflexivity].
  destruct Hx as [? Hx]. congruence.
Qed.

Lemma strip_digits (pre d : list ascii) :
  d <> [] -> Forall is_digit_char d -> Forall (fun c => Str.is_space c = false) pre ->
  Str.strip (pre ++ d) = (pre ++ d)%list.
Proof.
  intros Hne Hall Hpre.
  destruct (hd_rev_digits d Hne Hall) as (a & z & Ha & Hz & Hda & Hdz).
  assert (Hz' : hd_error (rev (pre ++ d)) = Some z).
  { rewrite rev_app_distr. destruct (rev d); [discriminate|]. exact Hz. }
  destruct pre as [|p pre].
  - apply (strip_clean _ a z); auto using digit_not_space.
  - inversion Hpre; subst.
    apply (strip_clean _ p z); auto using digit_not_space.
Qed.

(** The text of an integer: an optional minus sign and digits. *)
Lemma pretty_shape (z : Z) :
  exists (sign d : list ascii),
    (sign = [] \/ sign = ["-"%char]) /\ d <> [] /\ Forall is_digit_char d /\
    pretty z = string_of_list_ascii (sign ++ d).
Proof.
  destruct (Z.le_gt_cases 0 z) as [H|H].
  - destruct (pretty_nonneg_digits z H) as (d & Hne & Hall & Hp & _).
    exists [], d. auto.
  - destruct z as [|p|p]; try lia.
    destruct (pretty_nonneg_digits (Z.pos p) ltac:(lia)) as (d & Hne & Hall & Hp & _).
    exists ["-"%char], d. split; [auto|]. split; [assumption|]. split; [assumption|].
    change (pretty (Z.neg p)) with ("-" ++ pretty (Z.pos p)). rewrite Hp. reflexivity.
Qed.

Lemma strip_pretty (z : Z) : strip (pretty z) = pretty z.
Proof.
  destruct (pretty_shape z) as (sign & d & Hs & Hne & Hall & ->).
  unfold strip. rewrite list_ascii_of_string_of_list_ascii.
  rewrite strip_digits; [reflexivity|assumption|assumption|].
  destruct Hs as [->| ->]; repeat constructor.
Qed.

Lemma contains_pretty (c : ascii) (z : Z) :
  Str.digit_of c = None -> c <> "-"%char -> Str.contains c (pretty z) = false.
Proof.
  intros Hc Hm. destruct (pretty_shape z) as (sign & d & Hs & Hne & Hall & ->).
  destruct Hs as [->| ->].
  - apply contains_digits; assumption.
  - change (Str.contains c (string_of_list_ascii (["-"%char] ++ d)))
      with (Ascii.eqb "-" c || Str.contains c (string_of_list_ascii d)).
    rewrite (contains_digits c d) by assumption.
    destruct (Ascii.eqb_spec "-"%char c); [congruence|reflexivity].
Qed.

Lemma less_than_pretty (z : Z) : less_than (pretty z) = pretty z.
Proof.
  destruct (pretty_shape z) as (sign & d & Hs & Hne & Hall & ->).
  destruct Hs as [->| ->]; [|reflexivity].
  destruct d as [|c d]; [congruence|]. inversion Hall; subst.
  simpl. destruct (digit_not_sign c) as (_ & _ & -> & _); [assumption|reflexivity].
Qed.

Lemma token_step_int (z : Z) (st : list Z * list string) :
  token_step st (pretty z) = ((fst st ++ [z])%list, snd st).
Proof.
  unfold token_step. rewrite less_than_pretty, int_pretty. reflexivity.
Qed.

Lemma foldl_token_step_ints (zs : list Z) : forall st,
  foldl token_step st (map pretty zs) = ((fst st ++ zs)%list, snd st).
Proof.
  induction zs as [|z zs IH]; intros st; simpl.
  - rewrite app_nil_r. destruct st; reflexivity.
  - rewrite token_step_int, IH. simpl. rewrite <- app_assoc. reflexivity.
Qed.

(** The text [a-b] is not an integer. *)
Lemma int_range_raises (a : Z) (rest : string) :
  0 <= a -> Naming.strip (pretty a ++ "-" ++ rest) = pretty a ++ "-" ++ rest ->
  exists e, Str.int (pretty a ++ "-" ++ rest) = Raise e.
Proof.
  intros Ha Hstrip. unfold Str.int, Str.int_opt.
  unfold Naming.strip in Hstrip.
  apply (f_equal list_ascii_of_string) in Hstrip.
  rewrite list_ascii_of_string_of_list_ascii in Hstrip. rewrite Hstrip.
  destruct (pretty_nonneg_digits a Ha) as (d & Hne & Hall & -> & Hdig).
  rewrite list_of_app, list_ascii_of_string_of_list_ascii.
  destruct d as [|c d]; [congruence|]. inversion Hall; subst.
  simpl app. destruct (digit_not_sign c) as (-> & -> & _); [assumption|].
  pose proof (Hdig 0 false ("-"%char :: list_ascii_of_string ("" ++ rest))) as Hd.
  simpl app in Hd. rewrite Hd. simpl. eexists. reflexivity.
Qed.

End ParseIntSetFacts.

(** X4.  [parseIntSet] reads back a list of integers written with
    commas between them: for every non-empty list of integers, parsing
    the texts of the integers joined by commas returns the list. *)
Theorem parseIntSet_integers (zs : list Z) :
  zs <> [] ->
  Naming.parseIntSet (String.concat "," (map pretty zs)) = Naming.Selection zs.
Proof.
  intros Hne. unfold Naming.parseIntSet.
  rewrite split_concat.
  - rewrite map_map. rewrite (map_ext _ pretty) by (intros; apply strip_pretty).
    rewrite foldl_token_step_ints. reflexivity.
  - destruct zs; [congruence|discriminate].
  - apply Forall_forall. intros p Hp. apply list_elem_of_fmap in Hp as (z & -> & _).
    apply contains_pretty; [reflexivity|discriminate].
Qed.

(** The text [3,-1,20] is the list 3, -1, 20. *)
Lemma parseIntSet_integers_witness :
  Naming.parseIntSet (String.concat "," (map pretty [3; -1; 20]%Z))
  = Naming.Selection [3; -1; 20]%Z.
Proof.
  apply (parseIntSet_integers [3; -1; 20]%Z). discriminate.
Defined.
Section ParseIntSetRangeFacts.
Import Naming.
Local Open Scope Z_scope.

Lemma strip_range (pre : string) (b : Z) :
  0 <= b -> Forall (fun c => Str.is_space c = false) (list_ascii_of_string pre) ->
  strip (pre ++ pretty b) = pre ++ pretty b.
Proof.
  intros Hb Hpre. unfold strip.
  destruct (pretty_nonneg_digits b Hb) as (d & Hne & Hall & -> & _).
  rewrite list_of_app, list_ascii_of_string_of_list_ascii.
  rewrite strip_digits by assumption.
  rewrite str_of_app, string_of_list_ascii_of_string. reflexivity.
Qed.

Lemma digits_not_space (d : list ascii) :
  Forall is_digit_char d -> Forall (fun c => Str.is_space c = false) d.
Proof. intros H. eapply Forall_impl; [exact H|]. apply digit_not_space. Qed.

Lemma token_step_range (a b : Z) (st : list Z * list string) :
  0 <= a -> 0 <= b ->
  token_step st (pretty a ++ "-" ++ pretty b)
  = ((fst st ++ seqZ (Z.min a b) (Z.abs (a - b) + 1))%list, snd st).
Proof.
  intros Ha Hb. unfold token_step.
  assert (Hless : less_than (pretty a ++ "-" ++ pretty b) = pretty a ++ "-" ++ pretty b).
  { destruct (pretty_nonneg_digits a Ha) as (d & Hne & Hall & -> & _).
    destruct d as [|c d]; [congruence|]. inversion Hall; subst.
    simpl. destruct (digit_not_sign c) as (_ & _ & -> & _); [assumption|reflexivity]. }
  rewrite Hless.
  assert (Hstrip : strip (pretty a ++ "-" ++ pretty b) = pretty a ++ "-" ++ pretty b).
  { rewrite <- str_app_assoc. apply strip_range; [assumption|].
    destruct (pretty_nonneg_digits a Ha) as (d & Hne & Hall & -> & _).
    rewrite list_of_app, list_ascii_of_string_of_list_ascii.
    apply Forall_app. split; [apply digits_not_space; assumption|repeat constructor]. }
  destruct (int_range_raises a (pretty b) Ha Hstrip) as [e ->].
  change (pretty a ++ "-" ++ pretty b) with (pretty a ++ String "-" (pretty b)).
  rewrite split_app.
  2:{ destruct (pretty_nonneg_digits a Ha) as (d & Hne & Hall & -> & _).
      apply contains_digits; [assumption|reflexivity]. }
  rewrite split_plain.
  2:{ destruct (pretty_nonneg_digits b Hb) as (d & Hne & Hall & -> & _).
      apply contains_digits; [assumption|reflexivity]. }
  cbn [ints]. rewrite !strip_pretty, !int_pretty.
  change (Ok a ≫= (fun n => (Ok b ≫= fun n0 => Ok [] ≫= fun ns => Ok (n0 :: ns))
                              ≫= fun ns => Ok (n :: ns)))
    with (Ok [a; b] : result (list Z)).
  cbv iota. change (1 <? length [a; b])%nat with true. cbv iota.
  unfold sort_by. cbn [foldr insert_by].
  destruct (Z.ltb_spec b a) as [Hlt|Hge]; cbn [last]; cbv iota beta.
  - replace (Z.min a b) with b by lia. replace (Z.abs (a - b) + 1) with (a + 1 - b) by lia.
    reflexivity.
  - replace (Z.min a b) with a by lia. replace (Z.abs (a - b) + 1) with (b + 1 - a) by lia.
    reflexivity.
Qed.

Lemma token_step_invalid_grows (st : list Z * list string) (i x : string) :
  In x (snd st) -> In x (snd (token_step st i)).
Proof.
  intros H. unfold token_step.
  destruct (Str.int (less_than i)); [exact H|].
  destruct (ints (Str.split "-" (less_than i))) as [token|].
  - destruct (1 <? length token)%nat; [|exact H].
    destruct (sort_by (fun x => x) token); [exact H|].
    destruct (last (z :: l)); exact H.
  - simpl. apply in_or_app. left. exact H.
Qed.

Lemma foldl_invalid_grows (tokens : list string) : forall st x,
  In x (snd st) -> In x (snd (foldl token_step st tokens)).
Proof.
  induction tokens as [|i tokens IH]; intros st x H; simpl; [exact H|].
  apply IH. apply token_step_invalid_grows. exact H.
Qed.

Lemma token_step_empty (st : list Z * list string) :
  In "" (snd (token_step st "")).
Proof. simpl. apply in_or_app. right. left. reflexivity. Qed.

Lemma foldl_empty_token (tokens : list string) : forall st,
  In "" tokens -> In "" (snd (foldl token_step st tokens)).
Proof.
  induction tokens as [|i tokens IH]; intros st H; [destruct H|].
  simpl. destruct H as [->|H].
  - apply foldl_invalid_grows. apply token_step_empty.
  - apply IH. exact H.
Qed.

End ParseIntSetRangeFacts.

(** X5.  [parseIntSet] reads [a-b] as the integers between [a] and [b],
    both included and in increasing order, whichever of the two bounds is
    written first; [<b] is read as [1-b]. *)
Theorem parseIntSet_range (a b : Z) :
  (0 <= a)%Z -> (0 <= b)%Z ->
  Naming.parseIntSet (pretty a ++ "-" ++ pretty b)
    = Naming.Selection (seqZ (Z.min a b) (Z.abs (a - b) + 1)) /\
  Naming.parseIntSet (pretty b ++ "-" ++ pretty a)
    = Naming.parseIntSet (pretty a ++ "-" ++ pretty b) /\
  Naming.parseIntSet ("<" ++ pretty b) = Naming.parseIntSet ("1-" ++ pretty b).
Proof.
  intros Ha Hb.
  assert (Hrange : forall a b : Z, (0 <= a)%Z -> (0 <= b)%Z ->
            Naming.parseIntSet (pretty a ++ "-" ++ pretty b)
            = Naming.Selection (seqZ (Z.min a b) (Z.abs (a - b) + 1))).
  { clear. intros a b Ha Hb. unfold Naming.parseIntSet.
    rewrite split_plain.
    2:{ destruct (pretty_nonneg_digits a Ha) as (d & Hne & Hall & -> & _).
        destruct (pretty_nonneg_digits b Hb) as (d' & Hne' & Hall' & -> & _).
        change "-" with (string_of_list_ascii ["-"%char]).
        rewrite <- !str_of_app.
        assert (H : forall l, Forall (fun c => Ascii.eqb c "," = false) l ->
                    Str.contains "," (string_of_list_ascii l) = false).
        { induction 1 as [|x l Hx _ IH]; [reflexivity|]. simpl. rewrite Hx, IH. reflexivity. }
        apply H. rewrite !Forall_app. repeat split.
        - eapply Forall_impl; [exact Hall|]. intros c Hc. apply (digit_not_sign c Hc).
        - repeat constructor.
        - eapply Forall_impl; [exact Hall'|]. intros c Hc. apply (digit_not_sign c Hc). }
    cbn [map foldl].
    assert (Hstrip : Naming.strip (pretty a ++ "-" ++ pretty b) = pretty a ++ "-" ++ pretty b).
    { rewrite <- str_app_assoc. apply strip_range; [assumption|].
      destruct (pretty_nonneg_digits a Ha) as (d & Hne & Hall & -> & _).
      rewrite list_of_app, list_ascii_of_string_of_list_ascii.
      apply Forall_app. split; [apply digits_not_space; assumption|repeat constructor]. }
    rewrite Hstrip, token_step_range by assumption. reflexivity. }
  split; [apply Hrange; assumption|]. split.
  - rewrite !Hrange by assumption. f_equal. f_equal; lia.
  - unfold Naming.parseIntSet.
    assert (Hcomma : Str.contains "," (pretty b) = false).
    { apply contains_pretty; [reflexivity|discriminate]. }
    assert (H1 : Str.contains "," ("<" ++ pretty b) = false) by exact Hcomma.
    assert (H2 : Str.contains "," ("1-" ++ pretty b) = false) by exact Hcomma.
    rewrite (split_plain _ _ H1), (split_plain _ _ H2).
    cbn [map foldl].
    assert (Hs : forall pre : string,
               Forall (fun c => Str.is_space c = false) (list_ascii_of_string pre) ->
               Naming.strip (pre ++ pretty b) = pre ++ pretty b).
    { intros pre Hpre. apply strip_range; assumption. }
    rewrite (Hs "<"), (Hs "1-") by repeat constructor.
    reflexivity.
Qed.

(** The texts [7-3] and [3-7] both give 3, 4, 5, 6, 7. *)
Lemma parseIntSet_range_witness :
  Naming.parseIntSet (pretty 7%Z ++ "-" ++ pretty 3%Z)
    = Naming.Selection (seqZ (Z.min 7 3) (Z.abs (7 - 3) + 1)) /\
  Naming.parseIntSet (pretty 3%Z ++ "-" ++ pretty 7%Z)
    = Naming.parseIntSet (pretty 7%Z ++ "-" ++ pretty 3%Z) /\
  Naming.parseIntSet ("<" ++ pretty 3%Z) = Naming.parseIntSet ("1-" ++ pretty 3%Z).
Proof.
  apply (parseIntSet_range 7 3); lia.
Defined.

(** X6.  An empty item makes [parseIntSet] exit: when one of the items
    between the commas is empty or blank (the text itself is empty, two
    commas follow each other, or the text ends with a comma), the
    function ends the program with status 2 and the empty item is among
    the invalid tokens it prints; no selection is returned. *)
Theorem parseIntSet_empty_item (nputstr : string) :
  In "" (map Naming.strip (Str.split "," nputstr)) ->
  exists invalid,
    Naming.parseIntSet nputstr = Naming.Exit 2 invalid /\ In "" invalid.
Proof.
  intros H. unfold Naming.parseIntSet.
  pose proof (foldl_empty_token _ ([], []) H) as Hin.
  destruct (foldl Naming.token_step ([], []) (map Naming.strip (Str.split "," nputstr)))
    as [selection invalid].
  simpl in Hin. exists invalid.
  destruct invalid as [|x invalid]; [destruct Hin|]. split; [reflexivity|exact Hin].
Qed.

(** The default argument, the empty text, ends the program. *)
Lemma parseIntSet_empty_item_witness :
  exists invalid,
    Naming.parseIntSet "" = Naming.Exit 2 invalid /\ In "" invalid.
Proof.
  apply (parseIntSet_empty_item ""). left. reflexivity.
Defined.
Section FileNameFacts.
Import Files.

Lemma is_word_lower (c : ascii) : is_word c = true -> is_word (Str.lower_ascii c) = true.
Proof. destruct c as [[] [] [] [] [] [] [] []]; intros H; try discriminate H; reflexivity. Qed.

Lemma is_word_not_slash (c : ascii) : is_word c = true -> Str.is_slash c = false.
Proof. destruct c as [[] [] [] [] [] [] [] []]; intros H; try discriminate H; reflexivity. Qed.

Lemma is_digit_chars (c : ascii) :
  is_digit c = true ->
  In c ["0"; "1"; "2"; "3"; "4"; "5"; "6"; "7"; "8"; "9"]%char.
Proof.
  destruct c as [[] [] [] [] [] [] [] []]; intros H; try discriminate H; simpl; tauto.
Qed.

Lemma three_digits_back :
  forallb (fun d1 => forallb (fun d2 => forallb (fun d3 =>
    match Str.int (string_of_list_ascii [d1; d2; d3]) with
    | Ok n => String.eqb (zero_pad 3 n) (string_of_list_ascii [d1; d2; d3])
    | Raise _ => false
    end)
    ["0"; "1"; "2"; "3"; "4"; "5"; "6"; "7"; "8"; "9"]%char)
    ["0"; "1"; "2"; "3"; "4"; "5"; "6"; "7"; "8"; "9"]%char)
    ["0"; "1"; "2"; "3"; "4"; "5"; "6"; "7"; "8"; "9"]%char = true.
Proof. vm_compute. reflexivity. Qed.

Lemma two_digits_back :
  forallb (fun d1 => forallb (fun d2 =>
    match Str.int (string_of_list_ascii [d1; d2]) with
    | Ok n => String.eqb (zero_pad 2 n) (string_of_list_ascii [d1; d2])
    | Raise _ => false
    end)
    ["0"; "1"; "2"; "3"; "4"; "5"; "6"; "7"; "8"; "9"]%char)
    ["0"; "1"; "2"; "3"; "4"; "5"; "6"; "7"; "8"; "9"]%char = true.
Proof. vm_compute. reflexivity. Qed.

(** ['%03i' % int(ddd)] gives the three digits back. *)
Lemma doy_back (d1 d2 d3 : ascii) :
  is_digit d1 = true -> is_digit d2 = true -> is_digit d3 = true ->
  exists n, Str.int (string_of_list_ascii [d1; d2; d3]) = Ok n /\
            zero_pad 3 n = string_of_list_ascii [d1; d2; d3].
Proof.
  intros H1 H2 H3.
  pose proof three_digits_back as Hall.
  rewrite forallb_forall in Hall. specialize (Hall d1 (is_digit_chars d1 H1)).
  rewrite forallb_forall in Hall. specialize (Hall d2 (is_digit_chars d2 H2)).
  rewrite forallb_forall in Hall. specialize (Hall d3 (is_digit_chars d3 H3)).
  destruct (Str.int (string_of_list_ascii [d1; d2; d3])) as [n|]; [|discriminate].
  exists n. split; [reflexivity|]. apply String.eqb_eq. exact Hall.
Qed.

Lemma yy_back (d1 d2 : ascii) :
  is_digit d1 = true -> is_digit d2 = true ->
  exists n, Str.int (string_of_list_ascii [d1; d2]) = Ok n /\
            zero_pad 2 n = string_of_list_ascii [d1; d2].
Proof.
  intros H1 H2.
  pose proof two_digits_back as Hall.
  rewrite forallb_forall in Hall. specialize (Hall d1 (is_digit_chars d1 H1)).
  rewrite forallb_forall in Hall. specialize (Hall d2 (is_digit_chars d2 H2)).
  destruct (Str.int (string_of_list_ascii [d1; d2])) as [n|]; [|discriminate].
  exists n. split; [reflexivity|]. apply String.eqb_eq. exact Hall.
Qed.

(** What a match looks like. *)
Lemma groups_shape (ext : string) (cs : list ascii) (parts : fileparts) :
  groups ext cs = Some parts ->
  exists n1 n2 n3 n4 d1 d2 d3 s y1 y2,
    cs = ([n1; n2; n3; n4; d1; d2; d3; s; "."%char; y1; y2] ++ list_ascii_of_string ext)%list /\
    parts = (string_of_list_ascii [n1; n2; n3; n4], string_of_list_ascii [d1; d2; d3],
             string_of_list_ascii [s], string_of_list_ascii [y1; y2], ext) /\
    forallb is_word [n1; n2; n3; n4; s] = true /\
    forallb is_digit [d1; d2; d3; y1; y2] = true.
Proof.
  unfold groups.
  destruct cs as [|n1 [|n2 [|n3 [|n4 [|d1 [|d2 [|d3 [|s [|dot [|y1 [|y2 rest]]]]]]]]]]];
    try discriminate.
  destruct (forallb is_word [n1; n2; n3; n4] && forallb is_digit [d1; d2; d3] && is_word s
            && Ascii.eqb dot "." && forallb is_digit [y1; y2]
            && String.eqb (string_of_list_ascii rest) ext) eqn:E; [|discriminate].
  intros [= <-].
  repeat (apply andb_prop in E as [E ?]).
  exists n1, n2, n3, n4, d1, d2, d3, s, y1, y2.
  match goal with H : String.eqb _ _ = true |- _ => apply String.eqb_eq in H; subst ext end.
  match goal with H : Ascii.eqb _ _ = true |- _ => apply Ascii.eqb_eq in H; subst dot end.
  rewrite list_ascii_of_string_of_list_ascii.
  split; [reflexivity|]. split; [reflexivity|].
  simpl in *. repeat (match goal with H : _ && _ = true |- _ => apply andb_prop in H as [? ?] end).
  split; cbn [forallb];
    repeat match goal with H : ?f ?c = true |- context [?f ?c] => rewrite H end; reflexivity.
Qed.

Lemma parse_shape (filename : string) (parts : fileparts) :
  parse_crinex_rinex_filename filename = Some parts ->
  exists cs ext, (ext = "d.Z" \/ ext = "o") /\ groups ext cs = Some parts.
Proof.
  unfold parse_crinex_rinex_filename, findall. intros H.
  destruct (11 + String.length "d.Z" <=? length (chomp (list_ascii_of_string filename)))%nat.
  - destruct (groups "d.Z" _) eqn:E.
    + injection H as <-. eauto.
    + destruct (11 + String.length "o" <=? length (chomp (list_ascii_of_string filename)))%nat;
        [|discriminate]. eauto.
  - destruct (11 + String.length "o" <=? length (chomp (list_ascii_of_string filename)))%nat;
      [|discriminate]. eauto.
Qed.

End FileNameFacts.
Section CandidateFacts.
Import Files.

Lemma sessions_shape (session : string) :
  In session sessions -> exists c, session = String c "" /\ is_word c = true.
Proof.
  unfold sessions. intros H.
  repeat (destruct H as [<-|H]; [eexists; split; reflexivity|]). destruct H.
Qed.

Lemma lower_four (n1 n2 n3 n4 : ascii) :
  Str.lower (string_of_list_ascii [n1; n2; n3; n4])
  = string_of_list_ascii [Str.lower_ascii n1; Str.lower_ascii n2; Str.lower_ascii n3;
                          Str.lower_ascii n4].
Proof. reflexivity. Qed.

(** Every name the generator builds is read back by the parser. *)
Lemma session_name_parses (n1 n2 n3 n4 d1 d2 d3 s y1 y2 : ascii) (ext session : string) :
  ext = "d.Z" \/ ext = "o" ->
  forallb is_word [n1; n2; n3; n4; s] = true ->
  forallb is_digit [d1; d2; d3; y1; y2] = true ->
  In session sessions ->
  exists c,
    session = String c "" /\
    session_name (string_of_list_ascii [n1; n2; n3; n4], string_of_list_ascii [d1; d2; d3],
                  string_of_list_ascii [s], string_of_list_ascii [y1; y2], ext) session
    = Ok (string_of_list_ascii
            ([Str.lower_ascii n1; Str.lower_ascii n2; Str.lower_ascii n3; Str.lower_ascii n4;
              d1; d2; d3; c; "."%char; y1; y2] ++ list_ascii_of_string ext)) /\
    parse_crinex_rinex_filename
      (string_of_list_ascii
         ([Str.lower_ascii n1; Str.lower_ascii n2; Str.lower_ascii n3; Str.lower_ascii n4;
           d1; d2; d3; c; "."%char; y1; y2] ++ list_ascii_of_string ext))
    = Some (Str.lower (string_of_list_ascii [n1; n2; n3; n4]), string_of_list_ascii [d1; d2; d3],
            session, string_of_list_ascii [y1; y2], ext).
Proof.
  intros Hext Hw Hd Hs.
  cbn [forallb] in Hw, Hd.
  repeat (match goal with H : _ && _ = true |- _ => apply andb_prop in H as [? ?] end).
  destruct (sessions_shape session Hs) as (c & -> & Hc).
  exists c. split; [reflexivity|].
  destruct (doy_back d1 d2 d3) as (doy & Hdoy & Hpad3); try assumption.
  destruct (yy_back y1 y2) as (yy & Hyy & Hpad2); try assumption.
  split.
  - unfold session_name. rewrite Hdoy, Hyy. unfold mbind, result_bind, rbind.
    rewrite Hpad3, Hpad2, lower_four. f_equal.
    rewrite str_of_app, string_of_list_ascii_of_string. reflexivity.
  - pose proof (is_word_lower n1 ltac:(assumption)).
    pose proof (is_word_lower n2 ltac:(assumption)).
    pose proof (is_word_lower n3 ltac:(assumption)).
    pose proof (is_word_lower n4 ltac:(assumption)).
    unfold parse_crinex_rinex_filename, findall.
    rewrite !list_ascii_of_string_of_list_ascii.
    destruct Hext as [-> | ->];
      cbn -[is_word is_digit Str.lower_ascii];
      repeat match goal with H : ?f ?x = true |- context [?f ?x] => rewrite H end;
      reflexivity.
Qed.

End CandidateFacts.
Section GeneratorFacts.
Import Files.

Lemma all_ok_map {A B} (f : A -> result B) (g : A -> B) (l : list A) :
  (forall x, In x l -> f x = Ok (g x)) -> all_ok (map f l) = Ok (map g l).
Proof.
  induction l as [|x l IH]; intros H; [reflexivity|].
  simpl. rewrite (H x) by (left; reflexivity).
  rewrite IH by (intros y Hy; apply H; right; exact Hy). reflexivity.
Qed.

Lemma path_join_prefix (a : string) :
  exists P, forall b, String.prefix "/" b = false -> Str.path_join a b = P ++ b.
Proof.
  unfold Str.path_join.
  destruct (rev (list_ascii_of_string a)) as [|c r].
  - exists "". intros b ->. reflexivity.
  - destruct (Str.is_slash c).
    + exists a. intros b ->. reflexivity.
    + exists (a ++ "/"). intros b ->. rewrite str_app_assoc. reflexivity.
Qed.

Lemma prefix_slash_word (c : ascii) (rest : string) :
  is_word c = true -> String.prefix "/" (String c rest) = false.
Proof.
  destruct c as [[] [] [] [] [] [] [] []]; intros H; try discriminate H; reflexivity.
Qed.

Lemma string_of_list_inj (a b : list ascii) :
  string_of_list_ascii a = string_of_list_ascii b -> a = b.
Proof.
  intros H. apply (f_equal list_ascii_of_string) in H.
  rewrite !list_ascii_of_string_of_list_ascii in H. exact H.
Qed.

Lemma list_of_string_inj (a b : string) :
  list_ascii_of_string a = list_ascii_of_string b -> a = b.
Proof.
  intros H. apply (f_equal string_of_list_ascii) in H.
  rewrite !string_of_list_ascii_of_string in H. exact H.
Qed.

Lemma NoDup_sessions : NoDup sessions.
Proof. apply (bool_decide_unpack (NoDup sessions)). vm_compute. exact I. Qed.

End GeneratorFacts.

(** X7.  When the name of the file follows the naming convention,
    [_increment_filename] yields 36 paths, one for each session
    character 0..9, a..z in that order, all different and all in the
    directory of the file; the name of each is read back by
    [parse_crinex_rinex_filename] as the station in lower case, the day,
    that session character, the year and the extension of the given
    file.  After these the generator raises [ValueError].  When the name
    does not follow the convention, nothing is yielded and [ValueError]
    is raised at once. *)
Theorem increment_filename_candidates (filename : string) :
  (forall stn doy s yy ext,
     Files.parse_crinex_rinex_filename (snd (Str.path_split filename))
       = Some (stn, doy, s, yy, ext) ->
     exists names : list string,
       Files.yields (Files._increment_filename filename)
         = map (Str.path_join (fst (Str.path_split filename))) names /\
       NoDup (Files.yields (Files._increment_filename filename)) /\
       length names = 36%nat /\
       (forall k session, Files.sessions !! k = Some session ->
          exists name, names !! k = Some name /\
            Files.parse_crinex_rinex_filename name
              = Some (Str.lower stn, doy, session, yy, ext)) /\
       Files.ends_with (Files._increment_filename filename)
         = ValueError ("Maximum number of sessions reached: " ++ List.last names "")) /\
  (Files.parse_crinex_rinex_filename (snd (Str.path_split filename)) = None ->
     Files._increment_filename filename
       = Files.mkGenerator []
           (ValueError ("Invalid file naming convention: " ++ snd (Str.path_split filename)))).
Proof.
  unfold Files._increment_filename.
  destruct (Str.path_split filename) as [path fname]. cbn [fst snd].
  split; [|intros ->; reflexivity].
  intros stn doy s yy ext Hparse. rewrite Hparse.
  destruct (parse_shape _ _ Hparse) as (cs & ext' & Hext & Hgroups).
  destruct (groups_shape _ _ _ Hgroups)
    as (n1 & n2 & n3 & n4 & d1 & d2 & d3 & s' & y1 & y2 & _ & Hparts & Hw & Hd).
  injection Hparts as -> -> -> -> <-.
  set (name_of := fun session : string =>
         string_of_list_ascii
           ([Str.lower_ascii n1; Str.lower_ascii n2; Str.lower_ascii n3; Str.lower_ascii n4;
             d1; d2; d3] ++ list_ascii_of_string session
            ++ ["."%char; y1; y2] ++ list_ascii_of_string ext)).
  assert (Hname : forall session, In session Files.sessions ->
            Files.session_name
              (string_of_list_ascii [n1; n2; n3; n4], string_of_list_ascii [d1; d2; d3],
               string_of_list_ascii [s'], string_of_list_ascii [y1; y2], ext) session
            = Ok (name_of session) /\
            Files.parse_crinex_rinex_filename (name_of session)
            = Some (Str.lower (string_of_list_ascii [n1; n2; n3; n4]),
                    string_of_list_ascii [d1; d2; d3], session,
                    string_of_list_ascii [y1; y2], ext) /\
            String.prefix "/" (name_of session) = false).
  { intros session Hin.
    destruct (session_name_parses n1 n2 n3 n4 d1 d2 d3 s' y1 y2 ext session Hext Hw Hd Hin)
      as (c & -> & H1 & H2).
    split; [exact H1|]. split; [exact H2|].
    apply prefix_slash_word. apply is_word_lower.
    cbn [forallb] in Hw. apply andb_prop in Hw as [Hw _]. exact Hw. }
  rewrite (all_ok_map _ name_of) by (intros x Hx; apply (Hname x Hx)).
  exists (map name_of Files.sessions). cbn [Files.yields Files.ends_with].
  split; [reflexivity|]. split; [|split; [reflexivity|split; [|reflexivity]]].
  - rewrite map_map.
    apply (NoDup_fmap_2_strong (fun x => Str.path_join path (name_of x)));
      [|apply NoDup_sessions].
    intros x y Hx Hy Heq.
    apply list_elem_of_In in Hx, Hy.
    destruct (path_join_prefix path) as [P HP].
    rewrite !HP in Heq by (apply Hname; assumption).
    apply (inj (String.app P)) in Heq.
    apply string_of_list_inj in Heq.
    apply app_inv_head in Heq. apply app_inv_tail in Heq.
    apply list_of_string_inj. exact Heq.
  - intros k session Hk. exists (name_of session). split.
    + change (map name_of Files.sessions) with (name_of <$> Files.sessions).
      rewrite list_lookup_fmap, Hk. reflexivity.
    + apply Hname. apply list_elem_of_In. eapply list_elem_of_lookup_2. exact Hk.
Qed.
Section CopyFacts.
Import Files.
Variable makedirs : FS -> string -> FS.
Variable now : Z.

(** What is assumed of [os.makedirs]: it leaves what exists as it is,
    and what it adds are directories. *)
Hypothesis makedirs_keeps : forall (fs : FS) d p n, fs !! p = Some n -> makedirs fs d !! p = Some n.
Hypothesis makedirs_adds_dirs : forall (fs : FS) d p n,
  makedirs fs d !! p = Some n -> fs !! p = Some n \/ n = Dir.

Lemma exists_false (fs : FS) p : exists_ fs p = false -> fs !! p = None.
Proof.
  unfold exists_. intros H. apply orb_false_elim in H as [_ H].
  apply bool_decide_eq_false in H. destruct (fs !! p); [exfalso; eauto|reflexivity].
Qed.

Lemma write_keeps src dst (fs : FS) r fs' :
  exists_ fs dst = false -> write now src dst fs = (r, fs') ->
  forall p n, fs !! p = Some n -> fs' !! p = Some n.
Proof.
  intros Hnew Hw p n Hp. apply exists_false in Hnew.
  assert (p <> dst) by congruence.
  unfold write in Hw. destruct (parent_is_dir fs dst).
  - destruct (fs !! src) as [[f|]|]; injection Hw as <- <-;
      rewrite lookup_insert_ne by congruence; exact Hp.
  - injection Hw as <- <-. exact Hp.
Qed.

Lemma attempts_keeps src e names : forall (fs : FS) r fs',
  attempts now src e names fs = (r, fs') ->
  forall p n, fs !! p = Some n -> fs' !! p = Some n.
Proof.
  induction names as [|dst rest IH]; intros fs r fs' H p n Hp; simpl in H.
  - injection H as <- <-. exact Hp.
  - destruct (exists_ fs dst) eqn:E.
    + destruct (cmp fs src dst).
      * injection H as <- <-. exact Hp.
      * eapply IH; eauto.
    + eapply write_keeps; eauto.
Qed.

Lemma attempts_ok src e names : forall (fs : FS) d fs',
  attempts now src e names fs = (Ok d, fs') ->
  In d names /\
  exists a b, fs !! src = Some (File a) /\ fs' !! d = Some (File b) /\
    (content b = content a \/
     (String.length (content b) = String.length (content a) /\ mtime b = mtime a)).
Proof.
  induction names as [|dst rest IH]; intros fs d fs' H; simpl in H; [discriminate|].
  destruct (exists_ fs dst) eqn:E.
  - destruct (cmp fs src dst) eqn:C.
    + injection H as <- <-. split; [left; reflexivity|].
      unfold cmp in C.
      destruct (fs !! src) as [[a|]|]; try discriminate.
      destruct (fs !! dst) as [[b|]|]; try discriminate.
      exists a, b. split; [reflexivity|]. split; [reflexivity|].
      apply orb_prop in C as [C|C].
      * apply andb_prop in C as [C1 C2]. right.
        apply Nat.eqb_eq in C1. apply Z.eqb_eq in C2. auto.
      * apply String.eqb_eq in C. left. auto.
    + destruct (IH _ _ _ H) as [Hin Hrest]. split; [right; exact Hin|exact Hrest].
  - unfold write in H. destruct (parent_is_dir fs dst); [|discriminate].
    destruct (fs !! src) as [[a|]|] eqn:Hsrc; try discriminate.
    injection H as <- <-. split; [left; reflexivity|].
    exists a, (mkFile (content a) now). split; [reflexivity|].
    split; [apply lookup_insert_eq|]. left. reflexivity.
Qed.

Lemma copyfile_ok src dst (fs : FS) d fs' :
  copyfile makedirs now src dst fs = (Ok d, fs') ->
  In d (yields (_increment_filename dst)) /\
  exists a b, fs !! src = Some (File a) /\ fs' !! d = Some (File b) /\
    (content b = content a \/
     (String.length (content b) = String.length (content a) /\ mtime b = mtime a)).
Proof.
  unfold copyfile. destruct (exists_ fs src); [|discriminate]. cbn [negb].
  intros H. apply attempts_ok in H as [Hin (a & b & Ha & Hb & Hsame)].
  split; [exact Hin|]. exists a, b. split; [|auto].
  destruct (exists_ fs (fst (Str.path_split dst))); [exact Ha|].
  apply makedirs_adds_dirs in Ha as [Ha|Ha]; [exact Ha|discriminate].
Qed.

Lemma copyfile_keeps src dst (fs : FS) r fs' :
  copyfile makedirs now src dst fs = (r, fs') ->
  forall p n, fs !! p = Some n -> fs' !! p = Some n.
Proof.
  unfold copyfile. destruct (exists_ fs src); cbn [negb].
  - intros H p n Hp. eapply attempts_keeps; [exact H|].
    destruct (exists_ fs (fst (Str.path_split dst))); [exact Hp|].
    apply makedirs_keeps. exact Hp.
  - intros [= <- <-] p n Hp. exact Hp.
Qed.

(** X8.  [copyfile] never overwrites: whatever it returns or raises,
    every file and directory that was there before the call is there
    after it, unchanged.  When the source does not exist, [ValueError]
    is raised and nothing at all is changed. *)
Theorem copyfile_never_overwrites (src dst : string) (fs : FS) :
  (forall p n, fs !! p = Some n ->
     snd (copyfile makedirs now src dst fs) !! p = Some n) /\
  (exists_ fs src = false ->
     copyfile makedirs now src dst fs
     = (Raise (ValueError ("Source file does not exist: " ++ src)), fs)).
Proof.
  split.
  - intros p n Hp. eapply copyfile_keeps; [|exact Hp]. apply surjective_pairing.
  - intros H. unfold copyfile. rewrite H. reflexivity.
Qed.

(** X9.  When [copyfile] returns, the path it returns is one of the
    names of the generator for the destination, the source was a regular
    file, and a regular file is found at the returned path that holds
    the same bytes as the source or, failing that, has the size and the
    modification time of the source (the file that was already there and
    that [filecmp.cmp] took for the source). *)
Theorem copyfile_returns_a_copy (src dst : string) (fs : FS) (d : string) (fs' : FS) :
  copyfile makedirs now src dst fs = (Ok d, fs') ->
  In d (yields (_increment_filename dst)) /\
  exists a b,
    fs !! src = Some (File a) /\ fs' !! d = Some (File b) /\
    (content b = content a \/
     (String.length (content b) = String.length (content a) /\ mtime b = mtime a)).
Proof. apply copyfile_ok. Qed.

(** X10.  When [move] returns, the source is gone and everything else
    that was there before is still there, unchanged; if the returned
    path is not the source itself, a regular file is found there with
    the bytes of the source or with its size and modification time.
    (When the returned path is the source itself, the file is lost.) *)
Theorem move_removes_the_source (src dst : string) (fs : FS) (d : string) (fs' : FS) :
  move makedirs now src dst fs = (Ok d, fs') ->
  fs' !! src = None /\
  (forall p n, p <> src -> fs !! p = Some n -> fs' !! p = Some n) /\
  (d <> src ->
   exists a b,
     fs !! src = Some (File a) /\ fs' !! d = Some (File b) /\
     (content b = content a \/
      (String.length (content b) = String.length (content a) /\ mtime b = mtime a))).
Proof.
  unfold move. destruct (copyfile makedirs now src dst fs) as [[d'|e] fs1] eqn:E; [|discriminate].
  destruct (fs1 !! src) as [[f|]|] eqn:Hsrc; try discriminate.
  intros [= -> <-].
  split; [apply lookup_delete_eq|]. split.
  - intros p n Hne Hp. rewrite lookup_delete_ne by congruence.
    eapply copyfile_keeps; eauto.
  - intros Hne. destruct (copyfile_ok _ _ _ _ _ E) as [_ (a & b & Ha & Hb & Hsame)].
    exists a, b. split; [exact Ha|]. split; [|exact Hsame].
    rewrite lookup_delete_ne by congruence. exact Hb.
Qed.

End CopyFacts.

Section CopyExamples.
Import Files.

Lemma sample_makedirs_keeps (fs : FS) d p n :
  fs !! p = Some n -> sample_makedirs fs d !! p = Some n.
Proof.
  intros Hp. unfold sample_makedirs. destruct (fs !! d) eqn:E; [exact Hp|].
  rewrite lookup_insert_ne by congruence. exact Hp.
Qed.

Lemma sample_makedirs_adds_dirs (fs : FS) d p n :
  sample_makedirs fs d !! p = Some n -> fs !! p = Some n \/ n = Dir.
Proof.
  unfold sample_makedirs. destruct (fs !! d) eqn:E; [auto|].
  destruct (decide (d = p)) as [->|Hne].
  - rewrite lookup_insert_eq. intros [= <-]. auto.
  - rewrite lookup_insert_ne by exact Hne. auto.
Qed.

End CopyExamples.
(** Copying the observation file of the examples to [/archive] leaves
    everything that is there in place. *)
Lemma copyfile_never_overwrites_witness :
  (forall p n, Files.sample_fs !! p = Some n ->
     snd (Files.copyfile Files.sample_makedirs 9 "/data/igm10010.20o"
            "/archive/igm10010.20o" Files.sample_fs) !! p = Some n) /\
  (Files.exists_ Files.sample_fs "/data/igm10010.20o" = false ->
     Files.copyfile Files.sample_makedirs 9 "/data/igm10010.20o"
       "/archive/igm10010.20o" Files.sample_fs
     = (Raise (ValueError ("Source file does not exist: " ++ "/data/igm10010.20o")),
        Files.sample_fs)).
Proof.
  apply (copyfile_never_overwrites Files.sample_makedirs 9 sample_makedirs_keeps).
Defined.

(** The file already in [/archive] has the size and the time of the
    source but other bytes: it is returned as the copy. *)
Lemma copyfile_returns_a_copy_witness :
  In "/archive/igm10010.20o" (Files.yields (Files._increment_filename "/archive/igm10010.20o")) /\
  exists a b,
    Files.sample_fs !! "/data/igm10010.20o" = Some (Files.File a) /\
    Files.sample_fs !! "/archive/igm10010.20o" = Some (Files.File b) /\
    (Files.content b = Files.content a \/
     (String.length (Files.content b) = String.length (Files.content a) /\
      Files.mtime b = Files.mtime a)).
Proof.
  apply (copyfile_returns_a_copy Files.sample_makedirs 9 sample_makedirs_adds_dirs
           "/data/igm10010.20o" "/archive/igm10010.20o" Files.sample_fs).
  vm_compute. reflexivity.
Defined.

(** The name in [/archive] is taken by another file: the source is moved
    to the name of the next session. *)
Lemma move_removes_the_source_witness :
  let fs' := snd (Files.move Files.sample_makedirs 9 "/data/igm10010.20o"
                    "/archive/igm10010.20o" Files.sample_fs_taken) in
  fs' !! "/data/igm10010.20o" = None /\
  (forall p n, p <> "/data/igm10010.20o" ->
     Files.sample_fs_taken !! p = Some n -> fs' !! p = Some n) /\
  ("/archive/igm10011.20o" <> "/data/igm10010.20o" ->
   exists a b,
     Files.sample_fs_taken !! "/data/igm10010.20o" = Some (Files.File a) /\
     fs' !! "/archive/igm10011.20o" = Some (Files.File b) /\
     (Files.content b = Files.content a \/
      (String.length (Files.content b) = String.length (Files.content a) /\
       Files.mtime b = Files.mtime a))).
Proof.
  apply (move_removes_the_source Files.sample_makedirs 9 sample_makedirs_keeps
           sample_makedirs_adds_dirs
           "/data/igm10010.20o" "/archive/igm10010.20o" Files.sample_fs_taken).
  vm_compute. reflexivity.
Defined.

(** Moving a file to the name of another session of the same day: the
    first name tried is the file itself, which is then removed. *)
Example move_to_another_session_loses_the_file :
  Files.move Files.sample_makedirs 9 "/data/igm10010.20o" "/data/igm1001a.20o" Files.sample_fs
  = (Ok "/data/igm10010.20o", delete "/data/igm10010.20o" Files.sample_fs).
Proof. vm_compute. reflexivity. Qed.
(** X11.  [determine_frame] returns the name and the antenna file of
    the first frame of the list whose dates contain the given date, also
    when later frames contain it too; it raises [Exception] exactly when
    no frame contains the date. *)
Theorem determine_frame_first_match {D : Type} (le : D -> D -> bool)
    (frames : list (StationList.frame D)) (date : D) :
  (forall r, StationList.determine_frame le frames date = Ok r <->
     exists before f after,
       frames = (before ++ f :: after)%list /\
       Forall (fun g => StationList.within le date g = false) before /\
       StationList.within le date f = true /\
       r = (StationList.name f, StationList.atx f)) /\
  (StationList.determine_frame le frames date
     = Raise (Exception "No valid frame was found for the specified date.") <->
   Forall (fun g => StationList.within le date g = false) frames) /\
  (forall e, StationList.determine_frame le frames date = Raise e ->
     e = Exception "No valid frame was found for the specified date.").
Proof.
  induction frames as [|f rest IH]; simpl.
  - split; [|split].
    + intros r. split; [discriminate|].
      intros (before & g & after & H & _). destruct before; discriminate.
    + split; [constructor|reflexivity].
    + intros e [= <-]. reflexivity.
  - destruct IH as (IHok & IHraise & IHexn).
    destruct (StationList.within le date f) eqn:E.
    + split; [|split].
      * intros r. split.
        -- intros [= <-]. exists [], f, rest. repeat split; auto.
        -- intros (before & g & after & H & Hb & Hg & ->).
           destruct before as [|b before]; simpl in H; injection H as Hf Hr; subst.
           ++ reflexivity.
           ++ inversion Hb; subst. congruence.
      * split; [discriminate|]. intros H. inversion H; subst. congruence.
      * discriminate.
    + split; [|split].
      * intros r. rewrite IHok. split.
        -- intros (before & g & after & -> & Hb & Hg & ->).
           exists (f :: before), g, after. repeat split; auto.
        -- intros (before & g & after & H & Hb & Hg & ->).
           destruct before as [|b before]; simpl in H; injection H as Hf Hr; subst.
           ++ congruence.
           ++ inversion Hb; subst. exists before, g, after. repeat split; auto.
      * rewrite IHraise. split.
        -- intros H. constructor; assumption.
        -- intros H. inversion H; assumption.
      * exact IHexn.
Qed.

Section ColumnFacts.
Import StationList.
Local Open Scope list_scope.

Lemma every8_short (l : list string) : forall wait,
  (length l <= wait)%nat -> every8 wait l = [].
Proof.
  induction l as [|x l IH]; intros wait H; [reflexivity|].
  simpl in *. destruct wait; [lia|]. apply IH. lia.
Qed.

Lemma every8_skip (pre l : list string) :
  every8 (length pre) (pre ++ l) = every8 0 l.
Proof.
  induction pre as [|x pre IH]; [reflexivity|]. simpl. exact IH.
Qed.

Lemma rows_short (l : list string) : (length l < 8)%nat -> rows l = [].
Proof.
  intros H. unfold rows. rewrite (every8_short l 7) by lia.
  destruct (every8 0 l), (every8 1 l), (every8 2 l), (every8 3 l), (every8 4 l),
    (every8 5 l), (every8 6 l); reflexivity.
Qed.

Lemma rows_cons (a b c d e f g h : string) (l : list string) :
  rows (a :: b :: c :: d :: e :: f :: g :: h :: l) = (a, b, c, d, e, f, g, h) :: rows l.
Proof. reflexivity. Qed.

Lemma by_eights (P : list string -> Prop) :
  (forall l, (length l < 8)%nat -> P l) ->
  (forall a b c d e f g h l, P l -> P (a :: b :: c :: d :: e :: f :: g :: h :: l)) ->
  forall l, P l.
Proof.
  intros Hshort Hstep l.
  remember (length l) as n eqn:Hn. revert l Hn.
  induction n as [n IH] using lt_wf_ind. intros l Hn.
  destruct (le_lt_dec 8 (length l)) as [Hge|Hlt]; [|apply Hshort; exact Hlt].
  destruct l as [|a [|b [|c [|d [|e [|f [|g [|h l]]]]]]]]; simpl in Hge; try lia.
  apply Hstep. apply (IH (length l)); [simpl in Hn; lia|reflexivity].
Qed.

Lemma rows_in_order (l : list string) :
  l = concat (map cells (rows l)) ++ drop (length l - length l mod 8) l /\
  length (rows l) = (length l / 8)%nat.
Proof.
  induction l as [l Hshort|a b c d e f g h l [IH1 IH2]] using by_eights.
  - rewrite rows_short by exact Hshort.
    rewrite Nat.mod_small, Nat.div_small by exact Hshort.
    rewrite Nat.sub_diag. split; reflexivity.
  - rewrite rows_cons.
    assert (Hlen : length (a :: b :: c :: d :: e :: f :: g :: h :: l) = (length l + 1 * 8)%nat)
      by (simpl; lia).
    rewrite Hlen, Nat.Div0.mod_add, Nat.div_add by lia.
    pose proof (Nat.Div0.mod_le (length l) 8) as Hle.
    replace (length l + 1 * 8 - length l mod 8)%nat
      with (8 + (length l - length l mod 8))%nat by lia.
    split.
    + cbn [map concat cells app drop Nat.add]. rewrite <- IH1. reflexivity.
    + cbn [length]. rewrite IH2. lia.
Qed.

End ColumnFacts.

(** X12.  [print_columns] writes every item of the list exactly once
    and in order, eight to a line: the lines are one full row for each
    group of eight items, as many as the length of the list divided by
    eight, followed, when items are left over, by one line with the
    fewer than eight remaining items. *)
Theorem print_columns_in_order (l : list string) :
  exists (rws : list StationList.row) (rest : list string),
    l = (concat (map StationList.cells rws) ++ rest)%list /\
    (length rest < 8)%nat /\
    length rws = (length l / 8)%nat /\
    StationList.print_columns l
    = (map StationList.row_line rws
       ++ match rest with
          | [] => []
          | _ => [StationList.rest_line rest]
          end)%list.
Proof.
  destruct (rows_in_order l) as [Hl Hn].
  exists (StationList.rows l), (drop (length l - length l mod 8) l).
  split; [exact Hl|].
  assert (Hrest : length (drop (length l - length l mod 8) l) = (length l mod 8)%nat).
  { rewrite length_drop. pose proof (Nat.Div0.mod_le (length l) 8). lia. }
  split; [rewrite Hrest; apply Nat.mod_upper_bound; lia|].
  split; [exact Hn|].
  unfold StationList.print_columns. f_equal.
  set (rest := drop (length l - length l mod 8) l) in *. clearbody rest.
  destruct (Nat.eqb_spec (length l mod 8) 0) as [Hz|Hnz]; cbn [negb].
  - rewrite Hz in Hrest. destruct rest; [reflexivity|discriminate].
  - destruct rest; [|reflexivity]. cbn [length] in Hrest. congruence.
Qed.
Section StationListFacts.
Import StationList.
Local Open Scope list_scope.
Variable collate_le : string -> string -> bool.
Variable isfile : string -> option (list string).
Variable cnn_query : string -> result (list station).
Variable stations : list station.
Hypothesis catalog : answers collate_le cnn_query stations.

Lemma insert_le_perm x l : Permutation (insert_le collate_le x l) (x :: l).
Proof.
  induction l as [|y l IH]; simpl; [reflexivity|].
  destruct (order_le collate_le x y); [reflexivity|].
  rewrite IH. apply perm_swap.
Qed.

Lemma order_by_codes_perm l : Permutation (order_by_codes collate_le l) l.
Proof.
  induction l as [|x l IH]; simpl; [reflexivity|].
  rewrite insert_le_perm. constructor. exact IH.
Qed.

Lemma in_rows_where where_ s :
  In s (rows_where collate_le stations where_) <->
  In s stations /\ temporary s = false /\ where_ s = true.
Proof.
  unfold rows_where.
  rewrite <- !list_elem_of_In.
  rewrite (order_by_codes_perm _).
  rewrite !list_elem_of_In, filter_In, andb_true_iff, negb_true_iff. tauto.
Qed.

Lemma NoDup_rows_where where_ :
  NoDup stations -> NoDup (rows_where collate_le stations where_).
Proof.
  intros H. unfold rows_where. rewrite (order_by_codes_perm _).
  apply NoDup_ListNoDup. apply List.NoDup_filter. apply NoDup_ListNoDup. exact H.
Qed.

(** The pieces of a plain text are plain. *)
Lemma plain_split sep s :
  plain s = true -> Forall (fun p => plain p = true) (Str.split sep s).
Proof.
  induction s as [|c s IH]; intros H; [repeat constructor|].
  cbn [plain] in H. apply andb_true_iff in H as [Hc Hs]. specialize (IH Hs).
  cbn [Str.split]. destruct (Ascii.eqb c sep).
  - constructor; [reflexivity|exact IH].
  - destruct (Str.split sep s) as [|p ps]; [repeat constructor; cbn [plain]; rewrite Hc; reflexivity|].
    inversion IH as [|? ? Hp Hps]; subst. constructor; [|exact Hps].
    cbn [plain]. rewrite Hc, Hp. reflexivity.
Qed.

(** When the texts pasted into its query are plain, an item of the list
    does not make the query fail, and the rows of its query are the
    stations it asks for. *)
Lemma item_query_asks item :
  pasted_plain item ->
  exists rs, item_query cnn_query item = Ok rs /\
    match rs with
    | Some rows => forall s, In s rows <->
                     In s stations /\ temporary s = false /\ asks_for item s = true
    | None => forall s, asks_for item s = false
    end.
Proof.
  destruct catalog as (_ & Hnet & Hstn & Hname).
  unfold pasted_plain, item_query, asks_for.
  destruct (Str.contains "-" item) eqn:Hdash; cbn [negb andb]; intros Hplain.
  - rewrite !andb_false_r. exists None. split; [reflexivity|]. reflexivity.
  - specialize (Hplain eq_refl). rewrite !andb_true_r.
    destruct (Str.contains "." item) eqn:Hdot; cbn [negb].
    + pose proof (plain_split "." item Hplain) as Hpieces.
      rewrite split_length in Hdot. apply bool_decide_eq_true in Hdot.
      destruct (Str.split "." item) as [|net [|code rest]]; simpl in Hdot; try lia.
      inversion Hpieces as [|? ? Hpn Hrest]; subst.
      inversion Hrest as [|? ? Hpc _]; subst.
      change (py_index (net :: code :: rest) 1) with (Ok code : result string).
      change (py_index (net :: code :: rest) 0) with (Ok net : result string).
      unfold mbind, result_bind, rbind.
      destruct (String.eqb code "all") eqn:Hall.
      * rewrite (Hnet net Hpn). eexists. split; [reflexivity|].
        intros s. rewrite in_rows_where.
        rewrite orb_true_l, andb_true_r. tauto.
      * rewrite (Hstn net code Hpn Hpc). eexists. split; [reflexivity|].
        intros s. rewrite in_rows_where.
        rewrite orb_false_l. tauto.
    + rewrite (split_plain _ _ Hdot). unfold mbind, result_bind, rbind.
      rewrite (Hname item Hplain).
      eexists. split; [reflexivity|]. intros s. rewrite in_rows_where. tauto.
Qed.

Lemma in_add_new stnlist rstn s :
  In s (add_new stnlist rstn) <-> In s stnlist \/ s = rstn.
Proof.
  unfold add_new. destruct (bool_decide (rstn ∈ stnlist)) eqn:E.
  - apply bool_decide_eq_true in E. apply list_elem_of_In in E.
    split; [auto|]. intros [H| ->]; assumption.
  - rewrite in_app_iff. simpl. split; intros [H|H]; auto.
    + destruct H as [<-|[]]. auto.
Qed.

Lemma NoDup_add_new stnlist rstn : NoDup stnlist -> NoDup (add_new stnlist rstn).
Proof.
  intros H. unfold add_new. destruct (bool_decide (rstn ∈ stnlist)) eqn:E; [exact H|].
  apply bool_decide_eq_false in E. apply NoDup_app. split; [exact H|]. split.
  - intros x Hx Hx'. apply list_elem_of_singleton in Hx'. subst. contradiction.
  - apply NoDup_singleton.
Qed.

Lemma foldl_add_new rows : forall stnlist,
  (forall s, In s (foldl add_new stnlist rows) <-> In s stnlist \/ In s rows) /\
  (NoDup stnlist -> NoDup (foldl add_new stnlist rows)).
Proof.
  induction rows as [|r rows IH]; intros stnlist; simpl.
  - split; [intros s; tauto|auto].
  - destruct (IH (add_new stnlist r)) as [IHin IHnd]. split.
    + intros s. rewrite IHin, in_add_new. split; intros H; [|].
      * destruct H as [[H| ->]|H]; auto.
      * destruct H as [H|[<-|H]]; auto.
    + intros H. apply IHnd. apply NoDup_add_new. exact H.
Qed.

Lemma gather_spec items_ : Forall pasted_plain items_ -> forall stnlist,
  exists stnlist',
    gather cnn_query items_ stnlist = Ok stnlist' /\
    (forall s, In s stnlist' <->
       In s stnlist \/
       (In s stations /\ temporary s = false /\
        existsb (fun item => asks_for item s) items_ = true)) /\
    (NoDup stnlist -> NoDup stnlist').
Proof.
  induction 1 as [|item rest Hitem Hrest IH]; intros stnlist; simpl.
  - exists stnlist. split; [reflexivity|]. split; [|auto].
    intros s. split; [auto|]. intros [H|(_ & _ & H)]; [exact H|discriminate].
  - destruct (item_query_asks item Hitem) as (rs & -> & Hrs).
    unfold mbind, result_bind, rbind.
    destruct rs as [rows|].
    + destruct (foldl_add_new rows stnlist) as [Hin Hnd].
      destruct (IH (foldl add_new stnlist rows)) as (stnlist' & -> & Hin' & Hnd').
      exists stnlist'. split; [reflexivity|]. split; [|auto].
      intros s. rewrite Hin', Hin, Hrs, orb_true_iff. tauto.
    + destruct (IH stnlist) as (stnlist' & -> & Hin' & Hnd').
      exists stnlist'. split; [reflexivity|]. split; [|auto].
      intros s. rewrite Hin', Hrs, orb_false_l. tauto.
Qed.

Lemma in_remove stnlist r s :
  In s (remove stnlist r) <->
  In s stnlist /\
  (if Str.contains "." (Str.lower r)
   then String.eqb (fst s ++ "." ++ snd s) (Str.lower r)
   else String.eqb (snd s) (Str.lower r)) = false.
Proof.
  unfold remove. destruct (Str.contains "." (Str.lower r));
    rewrite filter_In, negb_true_iff; tauto.
Qed.

Lemma NoDup_remove stnlist r : NoDup stnlist -> NoDup (remove stnlist r).
Proof.
  intros H. unfold remove.
  destruct (Str.contains "." (Str.lower r));
    apply NoDup_ListNoDup, List.NoDup_filter, NoDup_ListNoDup; exact H.
Qed.

Lemma foldl_remove rs : forall stnlist,
  (forall s, In s (foldl remove stnlist rs) <->
     In s stnlist /\
     existsb (fun r => if Str.contains "." (Str.lower r)
                       then String.eqb (fst s ++ "." ++ snd s) (Str.lower r)
                       else String.eqb (snd s) (Str.lower r)) rs = false) /\
  (NoDup stnlist -> NoDup (foldl remove stnlist rs)).
Proof.
  induction rs as [|r rs IH]; intros stnlist; simpl.
  - split; [intros s; tauto|auto].
  - destruct (IH (remove stnlist r)) as [IHin IHnd]. split.
    + intros s. rewrite IHin, in_remove, orb_false_iff. tauto.
    + intros H. apply IHnd, NoDup_remove, H.
Qed.

Lemma removals_taken_off items_ s :
  existsb (fun r => if Str.contains "." (Str.lower r)
                    then String.eqb (fst s ++ "." ++ snd s) (Str.lower r)
                    else String.eqb (snd s) (Str.lower r)) (removals items_)
  = existsb (fun item => taken_off item s) items_.
Proof.
  unfold removals. induction items_ as [|item rest IH]; [reflexivity|].
  simpl. unfold taken_off at 1.
  destruct (Str.contains "-" item); simpl; rewrite IH; reflexivity.
Qed.

(** What [process_stnlist] returns, whatever is printed. *)
Lemma process_stnlist_spec stnlist_in print_summary :
  Forall pasted_plain (items isfile stnlist_in) ->
  exists out stnlist,
    process_stnlist isfile cnn_query stnlist_in print_summary = Ok (out, stnlist) /\
    (forall s, In s stnlist <->
       In s stations /\ temporary s = false /\ wanted (items isfile stnlist_in) s = true) /\
    (NoDup stations -> NoDup stnlist).
Proof.
  unfold process_stnlist.
  set (its := items isfile stnlist_in). intros Hplain.
  assert (Hsel : exists sel,
    match its with
    | [stn] => if String.eqb stn "all" then cnn_query sql_all
               else gather cnn_query its []
    | _ => gather cnn_query its []
    end = Ok sel /\
    (forall s, In s sel <->
       In s stations /\ temporary s = false /\
       match its with
       | [stn] => String.eqb stn "all" || asks_for stn s
       | _ => existsb (fun item => asks_for item s) its
       end = true) /\
    (NoDup stations -> NoDup sel)).
  { assert (Hg : exists sel, gather cnn_query its [] = Ok sel /\
              (forall s, In s sel <-> In s stations /\ temporary s = false /\
                         existsb (fun item => asks_for item s) its = true) /\
              (NoDup stations -> NoDup sel)).
    { destruct (gather_spec its Hplain []) as (sel & Hsel & Hin & Hnd).
      exists sel. split; [exact Hsel|]. split.
      - intros s. rewrite Hin. simpl. tauto.
      - intros _. apply Hnd. constructor. }
    destruct its as [|stn [|stn' rest]]; try exact Hg.
    destruct (String.eqb stn "all") eqn:Hall.
    - destruct catalog as (-> & _). eexists. split; [reflexivity|].
      split; [|apply NoDup_rows_where].
      intros s. rewrite in_rows_where. simpl. tauto.
    - destruct Hg as (sel & Hsel & Hin & Hnd). exists sel. split; [exact Hsel|].
      split; [|exact Hnd]. intros s. rewrite Hin. simpl. rewrite orb_false_r. tauto. }
  destruct Hsel as (sel & -> & Hin & Hnd).
  unfold mbind, result_bind, rbind.
  destruct (foldl_remove (removals its) sel) as [Hrin Hrnd].
  eexists _, _. split; [reflexivity|]. split.
  - intros s. rewrite Hrin, Hin, removals_taken_off. unfold wanted.
    rewrite andb_true_iff, negb_true_iff. tauto.
  - intros H. apply Hrnd, Hnd, H.
Qed.

End StationListFacts.

Section SampleConnection.
Import StationList.

Lemma strip_prefix_app p r : strip_prefix p (p ++ r) = Some r.
Proof.
  induction p as [|c p IH]; [reflexivity|].
  simpl. rewrite Ascii.eqb_refl. exact IH.
Qed.

Lemma plain_char_not_quote c : plain_char c = true -> Ascii.eqb c "'" = false.
Proof.
  destruct (Ascii.eqb_spec c "'") as [->|]; [|reflexivity].
  vm_compute. discriminate.
Qed.

Lemma until_quote_app a r :
  plain a = true -> until_quote (a ++ String "'" r) = Some (a, r).
Proof.
  induction a as [|c a IH]; intros H; [reflexivity|].
  cbn [plain] in H. apply andb_true_iff in H as [Hc Ha].
  simpl. rewrite (plain_char_not_quote c Hc), (IH Ha). reflexivity.
Qed.

Lemma sql_network_parts net :
  sql_network net = network_head ++ net ++ String "'" network_tail.
Proof. reflexivity. Qed.

Lemma sql_station_parts net code :
  sql_station net code
  = station_head ++ net ++ String "'" (station_mid ++ code ++ String "'" order_by).
Proof. reflexivity. Qed.

Lemma sql_name_parts stn : sql_name stn = name_head ++ stn ++ String "'" order_by.
Proof. reflexivity. Qed.

(** The connection of the examples is to a catalog with the rows it is
    given. *)
Lemma sample_cnn_answers (stations : list station) :
  answers bytewise_le (sample_cnn stations) stations.
Proof.
  split; [reflexivity|]. split; [|split].
  - intros net Hnet. unfold sample_cnn.
    replace (String.eqb (sql_network net) sql_all) with false by reflexivity.
    rewrite sql_network_parts, strip_prefix_app, (until_quote_app _ _ Hnet).
    rewrite String.eqb_refl, Hnet. reflexivity.
  - intros net code Hnet Hcode. unfold sample_cnn.
    replace (String.eqb (sql_station net code) sql_all) with false by reflexivity.
    replace (strip_prefix network_head (sql_station net code)) with (@None string)
      by reflexivity.
    rewrite sql_station_parts, strip_prefix_app. unfold read_station.
    rewrite (until_quote_app _ _ Hnet), strip_prefix_app, (until_quote_app _ _ Hcode).
    rewrite String.eqb_refl, Hnet, Hcode. reflexivity.
  - intros stn Hstn. unfold sample_cnn.
    replace (String.eqb (sql_name stn) sql_all) with false by reflexivity.
    replace (strip_prefix network_head (sql_name stn)) with (@None string) by reflexivity.
    replace (strip_prefix station_head (sql_name stn)) with (@None string) by reflexivity.
    rewrite sql_name_parts, strip_prefix_app, (until_quote_app _ _ Hstn).
    rewrite String.eqb_refl, Hstn. reflexivity.
Qed.

End SampleConnection.

(** X13.  [process_stnlist] pastes the text of the items into the
    queries it sends.  When the connection is to a catalog that answers
    the four queries, with plain texts pasted in, with the rows they
    select, and every item without a dash is plain (visible ASCII
    characters, no single quote and no backslash), it returns exactly the
    stations that are wanted: a station is in the list it returns if and
    only if it is a row of the [stations] table, its network code does
    not start with a question mark, an item asks for it ([all] as the
    only item asks for every station; [net.all], [net.stnm] and [stnm]
    ask for a network, a station and a name; together with other items
    [all] is read as a station name), and no item with a dash takes it
    off (the dash removed and the rest in lower case: [net.stnm] takes
    off that station, [stnm] the stations of that name in every
    network).  When the only item is a file, the stripped lines of the
    file are the items. *)
Theorem process_stnlist_selects_the_wanted (collate_le : string -> string -> bool)
    (isfile : string -> option (list string))
    (cnn_query : string -> result (list StationList.station))
    (stations : list StationList.station) (stnlist_in : list string) (print_summary : bool) :
  StationList.answers collate_le cnn_query stations ->
  Forall StationList.pasted_plain (StationList.items isfile stnlist_in) ->
  exists out stnlist,
    StationList.process_stnlist isfile cnn_query stnlist_in print_summary
      = Ok (out, stnlist) /\
    forall s, In s stnlist <->
      In s stations /\ StationList.temporary s = false /\
      StationList.wanted (StationList.items isfile stnlist_in) s = true.
Proof.
  intros Hcat Hplain.
  destruct (process_stnlist_spec collate_le isfile cnn_query stations Hcat
              stnlist_in print_summary Hplain)
    as (out & stnlist & H & Hin & _).
  exists out, stnlist. auto.
Qed.

(** X14.  Under the same conditions on the connection and on the items,
    [process_stnlist] returns, and the list it returns names no station
    twice when the [stations] table holds no row twice, however many
    items of the list ask for the same station. *)
Theorem process_stnlist_no_duplicates (collate_le : string -> string -> bool)
    (isfile : string -> option (list string))
    (cnn_query : string -> result (list StationList.station))
    (stations : list StationList.station) (stnlist_in : list string) (print_summary : bool) :
  StationList.answers collate_le cnn_query stations ->
  Forall StationList.pasted_plain (StationList.items isfile stnlist_in) ->
  NoDup stations ->
  exists out stnlist,
    StationList.process_stnlist isfile cnn_query stnlist_in print_summary
      = Ok (out, stnlist) /\
    NoDup stnlist.
Proof.
  intros Hcat Hplain Hnd.
  destruct (process_stnlist_spec collate_le isfile cnn_query stations Hcat
              stnlist_in print_summary Hplain)
    as (out & stnlist & H & _ & Hnd').
  exists out, stnlist. auto.
Qed.

(** The exception of a query leaves [process_stnlist]: that of the
    query of the single item [all], and that of the query of the first
    item of a longer list. *)
Lemma process_stnlist_query_raises (isfile : string -> option (list string))
    (cnn_query : string -> result (list StationList.station)) (e : exn) (print_summary : bool) :
  (isfile "all" = None -> cnn_query StationList.sql_all = Raise e ->
   StationList.process_stnlist isfile cnn_query ["all"] print_summary = Raise e) /\
  (forall stn rest,
     Str.contains "." stn = false -> Str.contains "-" stn = false ->
     cnn_query (StationList.sql_name stn) = Raise e ->
     StationList.process_stnlist isfile cnn_query (stn :: rest :: []) print_summary = Raise e).
Proof.
  split.
  - intros Hf He. unfold StationList.process_stnlist, StationList.items. rewrite Hf.
    cbn. rewrite He. reflexivity.
  - intros stn rest Hdot Hdash He.
    unfold StationList.process_stnlist, StationList.items.
    cbn [StationList.gather]. unfold StationList.item_query.
    rewrite Hdot, Hdash. cbn [negb andb]. unfold mbind, result_bind, rbind.
    rewrite He. reflexivity.
Qed.

Section EventRowFacts.
Import EventRow.

Lemma prefix_app (pat b : string) : String.prefix pat (pat ++ b) = true.
Proof.
  induction pat as [|c pat IH]; [destruct b; reflexivity|].
  rewrite str_app_cons. simpl. destruct (ascii_dec c c); [exact IH|contradiction].
Qed.

Lemma prefix_inv (pat s : string) : String.prefix pat s = true -> exists b, s = pat ++ b.
Proof.
  revert s. induction pat as [|c pat IH]; intros s H.
  - exists s. reflexivity.
  - destruct s as [|c' s]; [discriminate|]. simpl in H.
    destruct (ascii_dec c c') as [<-|]; [|discriminate].
    destruct (IH s H) as [b ->]. exists b. reflexivity.
Qed.

(** Skipping ends at a newline or with the text. *)
Lemma cut_skipping (pat s : string) :
  cut pat true s = "" \/ exists t, cut pat true s = String "010" t.
Proof.
  induction s as [|c s IH]; [left; reflexivity|]. simpl.
  destruct (Ascii.eqb_spec c "010") as [->|]; [right; eauto|exact IH].
Qed.

(** A text without a newline that starts what is left starts the text. *)
Lemma prefix_cut (pat q s : string) :
  Str.contains "010" q = false ->
  String.prefix q (cut pat false s) = true -> String.prefix q s = true.
Proof.
  revert s. induction q as [|x q IH]; intros s Hq H; [destruct s; reflexivity|].
  simpl in Hq. apply orb_false_elim in Hq as [Hx Hq].
  destruct s as [|c s]; [discriminate H|].
  cbn [cut] in H. destruct (String.prefix pat (String c s)).
  - destruct (cut_skipping pat s) as [E|[t E]]; rewrite E in H; [discriminate H|].
    simpl in H. destruct (ascii_dec x "010") as [->|]; [|discriminate H].
    rewrite Ascii.eqb_refl in Hx. discriminate Hx.
  - simpl in H. simpl. destruct (ascii_dec x c); [|discriminate H].
    apply IH; assumption.
Qed.

Lemma occurs_cons (q : string) (c : ascii) (s : string) :
  occurs_in q (String c s) -> String.prefix q (String c s) = true \/ occurs_in q s.
Proof.
  intros (a & b & H). destruct a as [|c' a].
  - left. rewrite H, str_app_nil_l. apply prefix_app.
  - right. rewrite str_app_cons in H. injection H as _ ->. exists a, b. reflexivity.
Qed.

Lemma occurs_prefix (q s : string) : String.prefix q s = true -> occurs_in q s.
Proof. intros H. destruct (prefix_inv q s H) as [b ->]. exists "", b. reflexivity. Qed.

Lemma occurs_tail (q : string) (c : ascii) (s : string) :
  occurs_in q s -> occurs_in q (String c s).
Proof. intros (a & b & ->). exists (String c a), b. reflexivity. Qed.

Lemma prefix_newline (q t : string) x :
  Str.contains "010" (String x q) = false ->
  String.prefix (String x q) (String "010" t) = false.
Proof.
  intros H. simpl in H. apply orb_false_elim in H as [Hx _].
  simpl. destruct (ascii_dec x "010") as [->|]; [|reflexivity].
  rewrite Ascii.eqb_refl in Hx. discriminate.
Qed.

(** Cutting brings in no occurrence of a text without a newline. *)
Lemma cut_free_gen (pat q : string) (x : ascii) :
  Str.contains "010" (String x q) = false ->
  forall s skipping,
    (~ occurs_in (String x q) s) ->
    ~ occurs_in (String x q) (cut pat skipping s).
Proof.
  intros Hq. induction s as [|c s IH]; intros skipping Hs; [exact Hs|].
  assert (Hs' : ~ occurs_in (String x q) s) by (intros H; apply Hs, occurs_tail, H).
  cbn [cut]. destruct skipping.
  - destruct (Ascii.eqb_spec c "010") as [->|]; [|apply IH; exact Hs'].
    intros H. apply occurs_cons in H as [H|H].
    + rewrite prefix_newline in H by exact Hq. discriminate.
    + revert H. apply IH. exact Hs'.
  - destruct (String.prefix pat (String c s)) eqn:E; [apply IH; exact Hs'|].
    intros H. apply occurs_cons in H as [H|H].
    + apply Hs. apply occurs_prefix.
      apply (prefix_cut pat); [exact Hq|]. cbn [cut]. rewrite E. exact H.
    + revert H. apply IH. exact Hs'.
Qed.

(** What is left holds no occurrence of the text cut. *)
Lemma cut_free (q : string) (x : ascii) :
  Str.contains "010" (String x q) = false ->
  forall s skipping, ~ occurs_in (String x q) (cut (String x q) skipping s).
Proof.
  intros Hq. induction s as [|c s IH]; intros skipping.
  - intros (a & b & H). destruct a; discriminate H.
  - cbn [cut]. destruct skipping.
    + destruct (Ascii.eqb_spec c "010") as [->|]; [|apply IH].
      intros H. apply occurs_cons in H as [H|H].
      * rewrite prefix_newline in H by exact Hq. discriminate.
      * revert H. apply IH.
    + destruct (String.prefix (String x q) (String c s)) eqn:E; [apply IH|].
      intros H. apply occurs_cons in H as [H|H].
      * assert (Hc : cut (String x q) false (String c s)
                     = String c (cut (String x q) false s))
          by (cbn [cut]; rewrite E; reflexivity).
        rewrite <- Hc in H. apply (prefix_cut (String x q)) in H; [|exact Hq]. congruence.
      * revert H. apply IH.
Qed.

Lemma cut_chars (P : ascii -> bool) (pat s : string) : forall skipping,
  forallb P (list_ascii_of_string s) = true ->
  forallb P (list_ascii_of_string (cut pat skipping s)) = true.
Proof.
  induction s as [|c s IH]; intros skipping H; [reflexivity|].
  simpl in H. apply andb_prop in H as [Hc Hs]. cbn [cut].
  destruct skipping.
  - destruct (Ascii.eqb c "010"); [simpl; rewrite Hc; apply IH; exact Hs|apply IH; exact Hs].
  - destruct (String.prefix pat (String c s)); [apply IH; exact Hs|].
    simpl. rewrite Hc. apply IH. exact Hs.
Qed.

Lemma ascii_only_chars (s : string) :
  forallb is_ascii (list_ascii_of_string (ascii_only s)) = true.
Proof.
  induction s as [|c s IH]; [reflexivity|]. simpl.
  destruct (is_ascii c) eqn:E; [simpl; rewrite E; exact IH|exact IH].
Qed.

Lemma replace_quote_chars (s : string) :
  forallb is_ascii (list_ascii_of_string s) = true ->
  forallb plain (list_ascii_of_string (Str.replace "'" double_quote s)) = true.
Proof.
  unfold Str.replace. induction s as [|c s IH]; intros H; [reflexivity|].
  simpl in H. apply andb_prop in H as [Hc Hs].
  cbn [Str.replace_from]. 
  destruct (String.prefix "'" (String c s)) eqn:E.
  - change (String.length "'" - 1)%nat with 0%nat.
    change (double_quote ++ Str.replace_from 0 "'" double_quote s)
      with (String "034" (Str.replace_from 0 "'" double_quote s)).
    simpl. apply IH. exact Hs.
  - simpl. rewrite (IH Hs), andb_true_r. unfold plain. rewrite Hc. simpl.
    simpl in E. destruct (ascii_dec "'" c) as [<-|Hne].
    + destruct s; discriminate E.
    + destruct (Ascii.eqb_spec c "'"); [congruence|reflexivity].
Qed.

Lemma clean_spec (s : string) :
  forallb plain (list_ascii_of_string (clean s)) = true /\
  ~ occurs_in "BASH" (clean s) /\ ~ occurs_in "PSQL" (clean s).
Proof.
  unfold clean. split; [|split].
  - apply cut_chars, cut_chars, replace_quote_chars, ascii_only_chars.
  - apply cut_free_gen; [reflexivity|]. apply cut_free. reflexivity.
  - apply cut_free. reflexivity.
Qed.

End EventRowFacts.

(** The stations of the network rms and those called igm1, without
    rms.lpgs, are asked of the connection of the examples. *)
Lemma process_stnlist_selects_the_wanted_witness :
  exists out stnlist,
    StationList.process_stnlist StationList.no_file
      (StationList.sample_cnn StationList.sample_stations) ["rms.all"; "igm1"; "-lpgs"] true
      = Ok (out, stnlist) /\
    forall s, In s stnlist <->
      In s StationList.sample_stations /\ StationList.temporary s = false /\
      StationList.wanted ["rms.all"; "igm1"; "-lpgs"] s = true.
Proof.
  apply (process_stnlist_selects_the_wanted StationList.bytewise_le StationList.no_file
           (StationList.sample_cnn StationList.sample_stations)
           StationList.sample_stations ["rms.all"; "igm1"; "-lpgs"] true).
  - apply sample_cnn_answers.
  - repeat constructor; intros H; vm_compute in H |- *; congruence.
Defined.

(** The same items: no station is named twice. *)
Lemma process_stnlist_no_duplicates_witness :
  exists out stnlist,
    StationList.process_stnlist StationList.no_file
      (StationList.sample_cnn StationList.sample_stations) ["rms.all"; "igm1"; "-lpgs"] true
      = Ok (out, stnlist) /\
    NoDup stnlist.
Proof.
  apply (process_stnlist_no_duplicates StationList.bytewise_le StationList.no_file
           (StationList.sample_cnn StationList.sample_stations)
           StationList.sample_stations ["rms.all"; "igm1"; "-lpgs"] true).
  - apply sample_cnn_answers.
  - repeat constructor; intros H; vm_compute in H |- *; congruence.
  - apply (bool_decide_unpack (NoDup StationList.sample_stations)). vm_compute. exact I.
Defined.

(** The items [rms.all igm1 -lpgs] select rms.igm1 and arg.igm1; the
    item [all] next to another item is the name of a station, so that
    [all -igm1] selects nothing.  An item with a single quote ends the
    quoted text of its query early: the text sent is not the query of a
    station name, and the connection of the examples raises on it. *)
Example process_stnlist_all_with_a_removal :
  (StationList.process_stnlist StationList.no_file
     (StationList.sample_cnn StationList.sample_stations) ["rms.all"; "igm1"; "-lpgs"] false
   = Ok ([], [("rms", "igm1"); ("arg", "igm1")])) /\
  (StationList.process_stnlist StationList.no_file
     (StationList.sample_cnn StationList.sample_stations) ["all"] false
   = Ok ([], [("arg", "igm1"); ("rms", "igm1"); ("rms", "lpgs")])) /\
  (StationList.process_stnlist StationList.no_file
     (StationList.sample_cnn StationList.sample_stations) ["all"; "-igm1"] false
   = Ok ([], [])) /\
  (StationList.sql_name "o'hare"
   = "SELECT * FROM stations WHERE " ++ StationList.dq ++ "NetworkCode" ++ StationList.dq
     ++ " NOT LIKE '?%' AND " ++ StationList.dq ++ "StationCode" ++ StationList.dq
     ++ " = 'o'hare' ORDER BY " ++ StationList.dq ++ "NetworkCode" ++ StationList.dq
     ++ ", " ++ StationList.dq ++ "StationCode" ++ StationList.dq) /\
  (StationList.process_stnlist StationList.no_file
     (StationList.sample_cnn StationList.sample_stations) ["o'hare"] false
   = Raise StationList.syntax_error).
Proof. repeat split; vm_compute; reflexivity. Qed.

(** X15.  The strings of the row [Event.db_dict] builds are safe to put
    between single quotes: every string value of the row is the cleaned
    string value the event has under the same key, all its characters
    are ASCII, none is a single quote, and it holds neither [BASH] nor
    [PSQL]. *)
Theorem db_dict_strings_are_clean (self val : gmap string pyval) :
  EventRow.db_dict self = Some val ->
  forall key s, val !! key = Some (PyStr s) ->
    (exists s0, self !! key = Some (PyStr s0) /\ s = EventRow.clean s0) /\
    forallb EventRow.plain (list_ascii_of_string s) = true /\
    ~ EventRow.occurs_in "BASH" s /\ ~ EventRow.occurs_in "PSQL" s.
Proof.
  unfold EventRow.db_dict. destruct (self !! "EventDate"); [|discriminate].
  intros [= <-] key s H.
  rewrite lookup_fmap in H.
  destruct (delete "EventDate" self !! key) as [v|] eqn:E; [|discriminate].
  apply lookup_delete_Some in E as [_ E].
  destruct v as [|s0|z|t]; simpl in H; try discriminate.
  injection H as <-. split; [eauto|]. apply clean_spec.
Qed.

(** The description of the event of the examples. *)
Lemma db_dict_strings_are_clean_witness :
  EventRow.sample_event !! "EventDate" = Some (PyDatetime 0) /\
  forall key s,
    ((fun v => match v with PyStr s => PyStr (EventRow.clean s) | _ => v end)
       <$> delete "EventDate" EventRow.sample_event) !! key = Some (PyStr s) ->
    (exists s0, EventRow.sample_event !! key = Some (PyStr s0) /\ s = EventRow.clean s0) /\
    forallb EventRow.plain (list_ascii_of_string s) = true /\
    ~ EventRow.occurs_in "BASH" s /\ ~ EventRow.occurs_in "PSQL" s.
Proof.
  split; [vm_compute; reflexivity|].
  apply (db_dict_strings_are_clean EventRow.sample_event). vm_compute. reflexivity.
Defined.

(** The quote is replaced and the output of the shell is cut. *)
Example db_dict_description :
  (EventRow.db_dict EventRow.sample_event ≫= fun val => val !! "Description")
  = Some (PyStr ("can" ++ EventRow.double_quote ++ "t read igm1 ")).
Proof. vm_compute. reflexivity. Qed.

(** X16.  Every event [Event.__init__] builds can be turned into a row:
    [db_dict] succeeds on it, the row has the fields of the event but
    [EventDate], and every value that is not a string is the value of
    the event. *)
Theorem db_dict_of_event (env : pyEvents.Env) (kwargs : list (string * pyval))
    (ev : gmap string pyval) :
  pyEvents.__init__ env kwargs = Ok ev ->
  exists val,
    EventRow.db_dict ev = Some val /\
    dom val = list_to_set pyEvents.valid_fields ∖ {["EventDate"]} /\
    forall key v, (forall s, v <> PyStr s) ->
      (val !! key = Some v <-> key <> "EventDate" /\ ev !! key = Some v).
Proof.
  unfold pyEvents.__init__. intros H.
  destruct (pyEvents.module_name env) as [m|e]; simpl in H; [|discriminate].
  destruct (pyEvents.set_kwargs _ kwargs) as [self|e] eqn:Hset; simpl in H; [|discriminate].
  injection H as <-.
  apply set_kwargs_ok in Hset as [Hd _]. rewrite defaults_dom in Hd.
  assert (Hs : is_Some (self !! "stack")).
  { apply elem_of_dom. rewrite Hd. unfold pyEvents.valid_fields. set_solver. }
  pose proof (set_stack_dom env self Hs) as Hdom. rewrite Hd in Hdom.
  set (ev := pyEvents.set_stack env self) in *.
  assert (Hdate : is_Some (ev !! "EventDate")).
  { apply elem_of_dom. rewrite Hdom. unfold pyEvents.valid_fields. set_solver. }
  destruct Hdate as [d Hdate].
  unfold EventRow.db_dict. rewrite Hdate. eexists. split; [reflexivity|]. split.
  - rewrite dom_fmap_L, dom_delete_L, Hdom. reflexivity.
  - intros key v Hv. rewrite lookup_fmap.
    destruct (decide (key = "EventDate")) as [->|Hne].
    + rewrite lookup_delete_eq. simpl. split; [discriminate|]. intros [Hc _]. congruence.
    + rewrite lookup_delete_ne by congruence.
      destruct (ev !! key) as [w|]; simpl.
      * split.
        -- intros [= <-]. split; [exact Hne|]. destruct w; try reflexivity.
           exfalso. eapply Hv. reflexivity.
        -- intros [_ [= ->]]. destruct v; try reflexivity. exfalso. eapply Hv. reflexivity.
      * split; [discriminate|]. intros [_ Hc]. discriminate.
Qed.

(** The event of the examples has a row. *)
Lemma db_dict_of_event_witness :
  exists val,
    EventRow.db_dict EventRow.sample_event = Some val /\
    dom val = list_to_set pyEvents.valid_fields ∖ {["EventDate"]} /\
    forall key v, (forall s, v <> PyStr s) ->
      (val !! key = Some v <-> key <> "EventDate" /\ EventRow.sample_event !! key = Some v).
Proof.
  apply (db_dict_of_event EventRow.sample_env
           [("Description", PyStr "can't read igm1 BASH: no such file"); ("Year", PyInt 2020)]).
  vm_compute. reflexivity.
Defined.
Section ProcessDateLength.
Import pyDate Utils.
Context {F : Formats}.
Variable clk : Clock.
Variable allow_days : bool.

Ltac bind_cases H :=
  repeat match type of H with
         | context [match ?x with Ok _ => _ | Raise _ => _ end] =>
             destruct x eqn:?; cbn beta iota in H; try discriminate H
         end.

(** A text that is not empty is decoded to a date, or refused. *)
Lemma decode_some i a v :
  decode clk allow_days i a = Ok v -> a <> "" -> exists d, v = Some d.
Proof.
  unfold decode, mbind, result_bind, rbind. intros H Ha.
  destruct (Str.contains "." a); [bind_cases H; injection H as <-; eauto|].
  destruct (Str.contains "_" a); [bind_cases H; injection H as <-; eauto|].
  destruct (Str.contains "/" a); [bind_cases H; injection H as <-; eauto|].
  destruct (Str.contains "-" a); [bind_cases H; injection H as <-; eauto|].
  destruct a as [|c a]; [congruence|]. simpl in H.
  destruct (allow_days && (i =? 0)%nat); [|discriminate H].
  bind_cases H. injection H as <-. eauto.
Qed.

Lemma store_length i v (dates dates' : list (option Date)) :
  store i v dates = Ok dates' -> length dates' = length dates.
Proof.
  unfold store. destruct v as [d|]; [|intros [= <-]; reflexivity].
  destruct (i <? length dates)%nat; [|discriminate].
  intros [= <-]. apply length_insert.
Qed.

Lemma decode_all_length args : forall i (dates dates' : list (option Date)),
  decode_all clk allow_days i args dates = Ok dates' -> length dates' = length dates.
Proof.
  induction args as [|a rest IH]; intros i dates dates' H; simpl in H.
  - injection H as <-. reflexivity.
  - destruct (decode clk allow_days i a ≫= (fun v => store i v dates)) as [d1|e] eqn:E;
      [|discriminate].
    apply IH in H. rewrite H.
    unfold mbind, result_bind, rbind in E.
    destruct (decode clk allow_days i a); [|discriminate]. eapply store_length; eauto.
Qed.

Lemma decode_all_value_error args : forall i (dates : list (option Date)) e,
  decode_all clk allow_days i args dates = Raise e ->
  exists msg, e = ValueError (bad_date_prefix ++ msg).
Proof.
  induction args as [|a rest IH]; intros i dates e H; simpl in H; [discriminate|].
  destruct (decode clk allow_days i a ≫= (fun v => store i v dates)) as [d1|e1];
    [eapply IH; eauto|].
  injection H as <-. eauto.
Qed.

Lemma decode_all_beyond args : forall i k a (dates : list (option Date)),
  args !! k = Some a -> a <> "" -> (length dates <= i + k)%nat ->
  exists e, decode_all clk allow_days i args dates = Raise e.
Proof.
  induction args as [|a0 rest IH]; intros i k a dates Hk Ha Hlen; [discriminate|].
  simpl.
  destruct (decode clk allow_days i a0 ≫= (fun v => store i v dates)) as [d1|e1] eqn:E;
    [|eauto].
  unfold mbind, result_bind, rbind in E.
  destruct (decode clk allow_days i a0) as [v|] eqn:Ed; [|discriminate].
  pose proof (store_length _ _ _ _ E) as Hl.
  destruct k as [|k].
  - injection Hk as ->. destruct (decode_some _ _ _ Ed Ha) as [d ->].
    unfold store in E.
    replace (i <? length dates)%nat with false in E by (symmetry; apply Nat.ltb_ge; lia).
    discriminate.
  - apply (IH (S i) k a); [exact Hk|exact Ha|lia].
Qed.

End ProcessDateLength.

(** X17.  [process_date] returns two entries or raises [ValueError]:
    every result it returns has exactly two entries; every exception it
    raises is a [ValueError] whose message starts with 'Could not decode
    input date'; and a text that is not empty at the third place of the
    arguments, or further, always makes it raise. *)
Theorem process_date_two_entries {F : pyDate.Formats} (clk : Utils.Clock) (allow_days : bool)
    (arg : option (list string)) (missing_input : string) :
  (forall dates, Utils.process_date clk allow_days arg missing_input = Ok dates ->
     length dates = 2%nat) /\
  (forall e, Utils.process_date clk allow_days arg missing_input = Raise e ->
     exists msg, e = ValueError (Utils.bad_date_prefix ++ msg)) /\
  (forall args k a, arg = Some args -> args !! k = Some a -> a <> "" -> (2 <= k)%nat ->
     exists e, Utils.process_date clk allow_days arg missing_input = Raise e).
Proof.
  unfold Utils.process_date.
  set (dates0 := if bool_decide (missing_input = "fill")
                 then [Some (pyDate.of_year_doy 1980 1);
                       Some (pyDate.of_datetime (Utils.now_fill clk))]
                 else [None; None]).
  assert (Hlen : length dates0 = 2%nat) by (unfold dates0; destruct (bool_decide _); reflexivity).
  split; [|split].
  - intros dates H. destruct arg as [[|a rest]|].
    + injection H as <-. exact Hlen.
    + apply decode_all_length in H. congruence.
    + injection H as <-. exact Hlen.
  - intros e H. destruct arg as [[|a rest]|]; try discriminate.
    eapply decode_all_value_error; eauto.
  - intros args k a -> Hk Ha H2.
    destruct args as [|a0 rest]; [discriminate|].
    apply (decode_all_beyond clk allow_days (a0 :: rest) 0 k a); [exact Hk|exact Ha|lia].
Qed.

(** Three dates are one too many. *)
Example process_date_three_dates :
  @Utils.process_date pyDate.integer_formats (Utils.mkClock 0 0) true
    (Some ["2020_001"; "2020_030"; "2020_060"]) "fill"
  = Raise (ValueError (Utils.bad_date_prefix ++ "list assignment index out of range")).
Proof. vm_compute. reflexivity. Qed.

Section EventValueFacts.
Import pyEvents.

Lemma set_kwargs_other kwargs : forall self ev,
  set_kwargs self kwargs = Ok ev ->
  forall k, ~ In k (map fst kwargs) -> ev !! k = self !! k.
Proof.
  induction kwargs as [|[key arg] rest IH]; intros self ev H k Hk.
  - injection H as <-. reflexivity.
  - cbn [set_kwargs] in H. destruct (self !! key) as [old|] eqn:Hold; [|discriminate].
    cbn [map fst In] in Hk.
    rewrite (IH _ _ H k) by tauto.
    apply lookup_insert_ne. intros ->. tauto.
Qed.

Lemma set_kwargs_given kwargs : forall self ev,
  set_kwargs self kwargs = Ok ev ->
  List.NoDup (map fst kwargs) ->
  forall k v, In (k, v) kwargs -> ev !! k = Some v.
Proof.
  induction kwargs as [|[key arg] rest IH]; intros self ev H Hnd k v Hin.
  - destruct Hin.
  - cbn [set_kwargs] in H. destruct (self !! key) as [old|] eqn:Hk; [|discriminate].
    cbn [map fst] in Hnd. apply List.NoDup_cons_iff in Hnd as [Hfresh Hnd].
    destruct Hin as [Heq|Hin].
    + injection Heq as -> ->.
      rewrite (set_kwargs_other rest _ _ H k Hfresh). apply lookup_insert_eq.
    + eapply IH; eassumption.
Qed.

Lemma set_stack_other env self k : k <> "stack" -> set_stack env self !! k = self !! k.
Proof.
  intros Hk. unfold set_stack. destruct (self !! "EventType") as [ty|]; [|reflexivity].
  destruct (py_eq_str ty "error"); apply lookup_insert_ne; congruence.
Qed.

Lemma Event_init_parts env kwargs ev :
  __init__ env kwargs = Ok ev ->
  exists m self,
    module_name env = Ok m /\
    set_kwargs (<["module" := PyStr m]> (defaults env)) kwargs = Ok self /\
    ev = set_stack env self.
Proof.
  unfold __init__. intros H.
  destruct (module_name env) as [m|e]; [|discriminate]. cbn in H.
  destruct (set_kwargs _ kwargs) as [self|e] eqn:Hset; [|discriminate]. cbn in H.
  injection H as <-. eauto.
Qed.

Lemma Event_init_given env kwargs ev :
  __init__ env kwargs = Ok ev ->
  List.NoDup (map fst kwargs) ->
  forall k v, In (k, v) kwargs -> k <> "stack" -> ev !! k = Some v.
Proof.
  intros H Hnd k v Hin Hk. apply Event_init_parts in H as (m & self & _ & Hset & ->).
  rewrite set_stack_other by exact Hk. eapply set_kwargs_given; eassumption.
Qed.

Lemma Event_init_default env kwargs ev :
  __init__ env kwargs = Ok ev ->
  forall k, ~ In k (map fst kwargs) -> k <> "stack" -> k <> "module" ->
  ev !! k = defaults env !! k.
Proof.
  intros H k Hout Hk Hm. apply Event_init_parts in H as (m & self & _ & Hset & ->).
  rewrite set_stack_other by exact Hk.
  rewrite (set_kwargs_other _ _ _ Hset k Hout).
  apply lookup_insert_ne. congruence.
Qed.

(** X18.  An event that [Event.__init__] builds holds the values of the
    keywords it was given, and for every other field its initial value:
    the time of the call, the type ['info'], the name of the node, an
    empty description, [None] for the station, the year and the day, and
    the name of the calling module.  The field [stack] is the exception: a
    value given for it is never kept, the field is [None] or the formatted
    call stack. *)
Theorem Event_init_values (env : pyEvents.Env) (kwargs : list (string * pyval))
    (ev : gmap string pyval) :
  pyEvents.__init__ env kwargs = Ok ev ->
  List.NoDup (map fst kwargs) ->
  (forall k v, In (k, v) kwargs -> k <> "stack" -> ev !! k = Some v) /\
  (forall k, ~ In k (map fst kwargs) -> k <> "stack" -> k <> "module" ->
     ev !! k = pyEvents.defaults env !! k) /\
  (~ In "module" (map fst kwargs) ->
     exists m, pyEvents.module_name env = Ok m /\ ev !! "module" = Some (PyStr m)) /\
  (ev !! "stack" = Some PyNone \/
   ev !! "stack" = Some (PyStr (pyEvents.format_stack env))).
Proof.
  intros H Hnd. split; [|split; [|split]].
  - intros k v. apply (Event_init_given env kwargs ev H Hnd).
  - apply (Event_init_default env kwargs ev H).
  - intros Hout. apply Event_init_parts in H as (m & self & Hm & Hset & ->).
    exists m. split; [exact Hm|].
    rewrite set_stack_other by discriminate.
    rewrite (set_kwargs_other _ _ _ Hset "module" Hout). apply lookup_insert_eq.
  - apply Event_init_parts in H as (m & self & Hm & Hset & ->).
    apply set_kwargs_ok in Hset as [Hd _]. rewrite defaults_dom in Hd.
    assert (Ht : is_Some (self !! "EventType")).
    { apply elem_of_dom. rewrite Hd. unfold valid_fields. set_solver. }
    destruct Ht as [ty Hty]. unfold set_stack. rewrite Hty.
    destruct (py_eq_str ty "error"); rewrite lookup_insert_eq; auto.
Qed.

End EventValueFacts.

(** An event for a station: the keywords are kept, the type is ['info'],
    the module is named after the caller of the caller, and the stack
    given is dropped. *)
Lemma Event_init_values_witness :
  exists ev,
    pyEvents.__init__ EventRow.sample_env
      [("StationCode", PyStr "igm1"); ("Year", PyInt 2020); ("stack", PyStr "given")] = Ok ev /\
    ev !! "StationCode" = Some (PyStr "igm1") /\
    ev !! "Year" = Some (PyInt 2020) /\
    ev !! "EventType" = Some (PyStr "info") /\
    ev !! "module" = Some (PyStr "pyArchiveService.main") /\
    ev !! "stack" <> Some (PyStr "given").
Proof.
  destruct (Event_init_builds EventRow.sample_env
              [("StationCode", PyStr "igm1"); ("Year", PyInt 2020); ("stack", PyStr "given")])
    as [ev H].
  { reflexivity. }
  { repeat constructor; cbn [fst]; unfold pyEvents.valid_fields; set_solver. }
  destruct (Event_init_values EventRow.sample_env _ ev H) as (Hgiven & Hdefault & Hmodule & Hstack).
  { apply NoDup_ListNoDup. apply (bool_decide_unpack _). vm_compute. exact I. }
  exists ev. split; [exact H|].
  split; [apply Hgiven; [cbn; tauto | discriminate]|].
  split; [apply Hgiven; [cbn; tauto | discriminate]|].
  split.
  { rewrite Hdefault; [| cbn; intuition discriminate | discriminate | discriminate].
    unfold pyEvents.defaults. rewrite !lookup_insert_ne by discriminate.
    apply lookup_insert_eq. }
  split.
  { destruct Hmodule as (m & Hm & Hev); [cbn; intuition discriminate|].
    rewrite Hev. vm_compute in Hm. injection Hm as <-. reflexivity. }
  destruct Hstack as [Hs|Hs]; rewrite Hs; [discriminate|].
  vm_compute. discriminate.
Defined.

Section MissingFilesFacts.
Import pyDate Dispatcher MissingFiles.
Variable env : Env.
Variables net stn : string.

Lemma in_archive_frame w w' rnx :
  files w' = files w -> dirs w' = dirs w ->
  in_archive env net stn w' rnx = in_archive env net stn w rnx.
Proof. intros Hf Hd. unfold in_archive. rewrite Hf, Hd. reflexivity. Qed.

Lemma filter_after_removal (rnx : Rinex.row) (gone : list Rinex.row) (rows : list Rinex.row) :
  List.filter (fun r => negb (existsb (fun x => same_rinex x r) gone))
    (List.filter (fun r => negb (same_rinex rnx r)) rows)
  = List.filter (fun r => negb (existsb (fun x => same_rinex x r) (rnx :: gone))) rows.
Proof.
  induction rows as [|r rows IH]; [reflexivity|].
  cbn [List.filter existsb]. destruct (same_rinex rnx r); cbn [negb orb List.filter].
  - exact IH.
  - destruct (negb (existsb _ gone)); [f_equal|]; exact IH.
Qed.

Lemma filter_nothing_removed (rows : list Rinex.row) :
  List.filter (fun r => negb (existsb (fun x => same_rinex x r) [])) rows = rows.
Proof. induction rows as [|r rows IH]; [reflexivity|]. cbn. f_equal. exact IH. Qed.

Lemma missing_event (rnx : Rinex.row) (m : string) :
  pyEvents.module_name (event_env env) = Ok m ->
  exists event,
    pyEvents.__init__ (event_env env)
      [("Description",
        PyStr ("A missing RINEX file was found during RINEX integrity check: "
               ++ crinex_path env net stn rnx
               ++ ". It has been removed from the database. Consider rerunning PPP for this station."));
       ("NetworkCode", PyStr net);
       ("StationCode", PyStr stn);
       ("Year", PyInt (Rinex.ObservationYear rnx));
       ("DOY", PyInt (Rinex.ObservationDOY rnx))] = Ok event /\
    reports env net stn rnx event.
Proof.
  intros Hm.
  match goal with
  | |- context [pyEvents.__init__ ?e ?kw] =>
      destruct (Event_init_builds e kw) as [event Hev]
  end.
  { rewrite Hm. reflexivity. }
  { repeat constructor; cbn [fst]; unfold pyEvents.valid_fields; set_solver. }
  exists event. split; [exact Hev|].
  pose proof (Event_init_given _ _ _ Hev) as Hgiven.
  pose proof (Event_init_default _ _ _ Hev) as Hdefault.
  assert (Hnd : List.NoDup ["Description"; "NetworkCode"; "StationCode"; "Year"; "DOY"]).
  { apply NoDup_ListNoDup. apply (bool_decide_unpack _). vm_compute. exact I. }
  unfold reports. repeat split.
  - apply Hgiven; [exact Hnd| cbn; tauto | discriminate].
  - apply Hgiven; [exact Hnd| cbn; tauto | discriminate].
  - apply Hgiven; [exact Hnd| cbn; tauto | discriminate].
  - apply Hgiven; [exact Hnd| cbn; tauto | discriminate].
  - apply Hgiven; [exact Hnd| cbn; tauto | discriminate].
  - rewrite Hdefault; [| cbn; intuition discriminate | discriminate | discriminate].
    unfold pyEvents.defaults.
    rewrite !lookup_insert_ne by discriminate. apply lookup_insert_eq.
Qed.

Lemma check_files_spec (m : string) :
  faults env (net, stn) <> Some AtRemove ->
  pyEvents.module_name (event_env env) = Ok m ->
  forall rnxtbl missing w,
    let gone := List.filter (fun rnx => negb (in_archive env net stn w rnx)) rnxtbl in
    exists w' evs,
      check_files env net stn rnxtbl missing w
      = (Ok (missing ++ map (crinex_path env net stn) gone)%list, w') /\
      files w' = files w /\ dirs w' = dirs w /\
      rinex (db w') =
        List.filter (fun r => negb (existsb (fun x => same_rinex x r) gone)) (rinex (db w)) /\
      events (db w') = (events (db w) ++ evs)%list /\
      Forall2 (reports env net stn) gone evs.
Proof.
  intros Hf Hm. induction rnxtbl as [|rnx rest IH]; intros missing w; cbv zeta.
  - exists w, []. cbn [List.filter map check_files]. rewrite !app_nil_r.
    rewrite filter_nothing_removed. repeat split; constructor.
  - cbn [check_files List.filter]. unfold mbind at 1, M_bind at 1, get.
    fold (in_archive env net stn w rnx).
    destruct (in_archive env net stn w rnx) eqn:Hin; cbn [negb].
    + apply IH.
    + unfold mbind at 1, M_bind at 1, simulate.
      rewrite bool_decide_eq_false_2 by exact Hf.
      unfold mbind at 1, M_bind at 1, remove_rinex, modify.
      unfold mbind at 1, M_bind at 1, lift.
      destruct (missing_event rnx m Hm) as (event & Hev & Hreports).
      rewrite Hev. unfold mbind at 1, M_bind at 1, insert_event, modify.
      match goal with
      | |- context [check_files env net stn rest ?ms ?w0] => set (w1 := w0)
      end.
      assert (Hf1 : files w1 = files w) by reflexivity.
      assert (Hd1 : dirs w1 = dirs w) by reflexivity.
      assert (Hr1 : rinex (db w1)
                    = List.filter (fun r => negb (same_rinex rnx r)) (rinex (db w)))
        by reflexivity.
      assert (He1 : events (db w1) = (events (db w) ++ [event])%list) by reflexivity.
      clearbody w1.
      destruct (IH (missing ++ [crinex_path env net stn rnx])%list w1)
        as (w' & evs & Hrun & Hfiles & Hdirs & Hrows & Hevents & Hall).
      assert (Hgone : List.filter (fun rnx0 => negb (in_archive env net stn w1 rnx0)) rest
                      = List.filter (fun rnx0 => negb (in_archive env net stn w rnx0)) rest).
      { apply filter_ext. intros a. f_equal. apply in_archive_frame; assumption. }
      rewrite Hgone in Hrun, Hrows, Hall.
      exists w', (event :: evs). rewrite Hrun. split.
      { cbn [map]. rewrite <- app_assoc. reflexivity. }
      split; [congruence|]. split; [congruence|]. split.
      { rewrite Hrows, Hr1. apply filter_after_removal. }
      split.
      { rewrite Hevents, He1, <- app_assoc. reflexivity. }
      constructor; assumption.
Qed.

(** X19.  With nothing made to fail and a calling module the events can
    name, [check_rinex_stn] returns no error and the paths of the rows of
    the station in the range whose file is not in the archive, in the order
    of the query.  It takes the rows of those files out of the inventory and
    no other row, adds one event for each of them, in the same order, that
    tells the path, the station, the year and the day, and leaves the
    archive as it is. *)
Theorem check_rinex_stn_removes_missing (start_date end_date : Date) (w : World) :
  faults env (net, stn) = None ->
  is_Ok (pyEvents.module_name (event_env env)) = true ->
  let missing := missing_rows env net stn start_date end_date w in
  exists w' evs,
    check_rinex_stn env net stn start_date end_date w
    = (Ok (None, Some (map (crinex_path env net stn) missing)), w') /\
    files w' = files w /\ dirs w' = dirs w /\
    rinex (db w') =
      List.filter (fun r => negb (existsb (fun rnx => same_rinex rnx r) missing)) (rinex (db w)) /\
    events (db w') = (events (db w) ++ evs)%list /\
    Forall2 (reports env net stn) missing evs.
Proof.
  intros Hf Hok missing.
  destruct (pyEvents.module_name (event_env env)) as [m|e] eqn:Hm; [|discriminate].
  destruct (check_files_spec m ltac:(rewrite Hf; discriminate) Hm
              (Rinex.select (rinex (db w)) net stn start_date end_date) [] w)
    as (w' & evs & Hrun & Hrest).
  exists w', evs. split; [|exact Hrest].
  unfold check_rinex_stn, try_except, check_rinex_body.
  unfold mbind, M_bind, simulate, mret, M_ret, get. rewrite Hf.
  rewrite !bool_decide_eq_false_2 by discriminate.
  rewrite Hrun. reflexivity.
Qed.

End MissingFilesFacts.

(** The file of the second day of rms.igm1 has been lost: its path is
    returned, its row is taken out of the inventory and one event is
    added. *)
Lemma check_rinex_stn_removes_missing_witness :
  exists w' event,
    Dispatcher.check_rinex_stn MissingFiles.sample_env "rms" "igm1"
      (pyDate.of_year_doy 2020 1) (pyDate.of_year_doy 2020 30) MissingFiles.sample_world
    = (Ok (None, Some ["/archive/rms/igm1/2020/002/igm10020.20d.Z"]), w') /\
    files w' = files MissingFiles.sample_world /\
    rinex (db w') = [Rename.sample_row "igm1" 1 "igm10010.20o"] /\
    events (db w') = [event] /\
    event !! "DOY" = Some (PyInt 2).
Proof.
  destruct (check_rinex_stn_removes_missing MissingFiles.sample_env "rms" "igm1"
              (pyDate.of_year_doy 2020 1) (pyDate.of_year_doy 2020 30)
              MissingFiles.sample_world eq_refl eq_refl)
    as (w' & evs & Hrun & Hfiles & _ & Hrows & Hevents & Hall).
  assert (Hmissing :
    MissingFiles.missing_rows MissingFiles.sample_env "rms" "igm1"
      (pyDate.of_year_doy 2020 1) (pyDate.of_year_doy 2020 30) MissingFiles.sample_world
    = [Rename.sample_row "igm1" 2 "igm10020.20o"]) by (vm_compute; reflexivity).
  rewrite Hmissing in Hrun, Hrows, Hall.
  inversion Hall as [|rnx event l evs' Hreports Hnil]; subst.
  inversion Hnil; subst.
  exists w', event. split; [exact Hrun|]. split; [exact Hfiles|]. split.
  - rewrite Hrows. vm_compute. reflexivity.
  - split; [exact Hevents|]. apply Hreports.
Defined.

Section MergeFacts.
Import pyDate Rename Merge.
Variable build_rinex_path : string -> string -> Z -> Z -> string -> string.
Variable horizon : option Z.
Variable faults : nat -> option step.
Variables NetworkCode StationCode DestNetworkCode DestStationCode : string.
Variable archive_path : string.
Hypothesis nothing_fails : forall i, faults i = None.
Hypothesis another_station :
  (NetworkCode, StationCode) <> (DestNetworkCode, DestStationCode).

Abbreviation rename_all' :=
  (rename_files build_rinex_path horizon faults NetworkCode StationCode
     DestNetworkCode DestStationCode archive_path).
Abbreviation src_of := (src_location build_rinex_path NetworkCode StationCode archive_path).
Abbreviation dest_of :=
  (dest_location build_rinex_path NetworkCode StationCode DestNetworkCode
     DestStationCode archive_path).
Abbreviation update :=
  (update_rows build_rinex_path NetworkCode StationCode DestNetworkCode
     DestStationCode archive_path).
Abbreviation tag :=
  (retag build_rinex_path NetworkCode StationCode DestNetworkCode
     DestStationCode archive_path).
Abbreviation same := (same_file NetworkCode StationCode).

(** The queue is transferred file after file. *)
Lemma rename_files_all_migrate (queue : list Rinex.row) : forall i w,
  Forall (fun src => src_of src ∈ files w) queue ->
  List.NoDup (map src_of queue) ->
  exists w',
    rename_all' i queue w = (Ok tt, w') /\
    rinex (db w') = fold_left (fun rows src => update src rows) queue (rinex (db w)) /\
    files w' = fold_left (fun fs src => {[dest_of src]} ∪ (fs ∖ {[src_of src]}))
                 queue (files w).
Proof.
  induction queue as [|src rest IH]; intros i w Hin Hnd.
  - exists w. repeat split.
  - inversion Hin as [|? ? Hsrc Hrest]; subst.
    cbn [map] in Hnd. apply List.NoDup_cons_iff in Hnd as [Hfresh Hnd].
    destruct (rename_file_migrates build_rinex_path horizon faults NetworkCode StationCode
                DestNetworkCode DestStationCode archive_path i src w (nothing_fails i) Hsrc)
      as (w1 & Hrun & _ & Hrows & Hfiles).
    destruct (IH (S i) w1) as (w' & Hrun' & Hrows' & Hfiles').
    + rewrite Hfiles. unfold relocated. cbn [files set_files].
      rewrite Forall_forall in Hrest. apply Forall_forall. intros x Hx.
      apply elem_of_union_r, elem_of_difference. split; [apply Hrest; exact Hx|].
      rewrite elem_of_singleton. intros Heq. apply Hfresh. rewrite <- Heq.
      apply in_map. apply list_elem_of_In. exact Hx.
    + exact Hnd.
    + exists w'. cbn [rename_files fold_left]. unfold mbind, M_bind. rewrite Hrun.
      split; [exact Hrun'|]. split.
      * rewrite Hrows', Hrows. reflexivity.
      * rewrite Hfiles', Hfiles. reflexivity.
Qed.

Lemma same_file_eq src r :
  same src r = true ->
  Rinex.ObservationYear r = Rinex.ObservationYear src /\
  Rinex.ObservationDOY r = Rinex.ObservationDOY src /\
  Rinex.Filename r = Rinex.Filename src.
Proof.
  unfold same_file. rewrite !andb_true_iff.
  intros [[[[_ _] Hy] Hd] Hf].
  apply Z.eqb_eq in Hy, Hd. apply String.eqb_eq in Hf. auto.
Qed.

Lemma retag_same src r : same src r = true -> tag src r = tag r r.
Proof.
  intros H. apply same_file_eq in H as (Hy & Hd & Hf).
  unfold retag, Rename.dest_file, src_split. rewrite Hy, Hd, Hf. reflexivity.
Qed.

Lemma retag_not_of_station src r :
  Rinex.of_station NetworkCode StationCode (tag src r) = false.
Proof.
  unfold Rinex.of_station, retag. cbn [Rinex.NetworkCode Rinex.StationCode].
  destruct (String.eqb DestNetworkCode NetworkCode) eqn:Hn; [|reflexivity].
  destruct (String.eqb DestStationCode StationCode) eqn:Hs; [|reflexivity].
  apply String.eqb_eq in Hn, Hs. exfalso. apply another_station. congruence.
Qed.

Lemma same_file_retagged src src' r : same src (tag src' r) = false.
Proof.
  unfold same_file, retag. cbn [Rinex.NetworkCode Rinex.StationCode].
  destruct (String.eqb DestNetworkCode NetworkCode) eqn:Hn; [|reflexivity].
  destruct (String.eqb DestStationCode StationCode) eqn:Hs; [|reflexivity].
  apply String.eqb_eq in Hn, Hs. exfalso. apply another_station. congruence.
Qed.

Lemma update_retagged queue : forall src r,
  fold_left (fun r q => if same q r then tag q r else r) queue (tag src r) = tag src r.
Proof.
  induction queue as [|q rest IH]; intros src r; [reflexivity|].
  cbn [fold_left]. rewrite same_file_retagged. apply IH.
Qed.

Lemma update_row queue : forall r,
  fold_left (fun r q => if same q r then tag q r else r) queue r
  = if transferred NetworkCode StationCode queue r then tag r r else r.
Proof.
  induction queue as [|q rest IH]; intros r; [reflexivity|].
  cbn [fold_left]. unfold transferred. cbn [existsb].
  destruct (same q r) eqn:Hq; cbn [orb].
  - rewrite update_retagged. apply retag_same. exact Hq.
  - apply IH.
Qed.

Lemma update_all queue : forall rows,
  fold_left (fun rows src => update src rows) queue rows
  = map (fun r => fold_left (fun r q => if same q r then tag q r else r) queue r) rows.
Proof.
  induction queue as [|q rest IH]; intros rows.
  - cbn [fold_left]. symmetry. apply map_id.
  - cbn [fold_left]. rewrite IH. unfold update_rows. rewrite map_map. reflexivity.
Qed.

Lemma rows_after queue rows :
  fold_left (fun rows src => update src rows) queue rows
  = retagged build_rinex_path NetworkCode StationCode DestNetworkCode DestStationCode
      archive_path queue rows.
Proof.
  rewrite update_all. unfold retagged. apply map_ext. intros r. apply update_row.
Qed.

Lemma files_after queue : forall (fs : gset string) p,
  (forall a b, In a queue -> In b queue -> dest_of a <> src_of b) ->
  p ∈ fold_left (fun fs src => {[dest_of src]} ∪ (fs ∖ {[src_of src]})) queue fs <->
  (exists src, In src queue /\ p = dest_of src) \/
  (p ∈ fs /\ forall src, In src queue -> p <> src_of src).
Proof.
  induction queue as [|q rest IH]; intros fs p Hfresh.
  - cbn [fold_left]. split.
    + intros H. right. split; [exact H|]. intros src [].
    + intros [(src & [] & _)|[H _]]. exact H.
  - cbn [fold_left]. rewrite IH by (intros a b Ha Hb; apply Hfresh; right; assumption).
    rewrite elem_of_union, elem_of_difference, !elem_of_singleton. split.
    + intros [(src & Hsrc & ->)|[[->|[Hp Hq]] Hrest]].
      * left. exists src. split; [right; exact Hsrc|reflexivity].
      * left. exists q. split; [left; reflexivity|reflexivity].
      * right. split; [exact Hp|]. intros src [<-|Hsrc]; [exact Hq|apply Hrest; exact Hsrc].
    + intros [(src & [<-|Hsrc] & ->)|[Hp Hall]].
      * right. split; [left; reflexivity|].
        intros b Hb. apply Hfresh; [left; reflexivity|right; exact Hb].
      * left. exists src. split; [exact Hsrc|reflexivity].
      * right. split.
        -- right. split; [exact Hp|]. apply Hall. left. reflexivity.
        -- intros src Hsrc. apply Hall. right. exact Hsrc.
Qed.

Lemma none_left (start_date end_date : Date) (rows : list Rinex.row) :
  let queue := List.filter (Rinex.in_range NetworkCode StationCode start_date end_date) rows in
  List.filter (Rinex.in_range NetworkCode StationCode start_date end_date)
    (retagged build_rinex_path NetworkCode StationCode DestNetworkCode DestStationCode
       archive_path queue rows) = [].
Proof.
  intros queue.
  assert (Hall : forall l, (forall r, In r l -> In r rows) ->
    List.filter (Rinex.in_range NetworkCode StationCode start_date end_date)
      (retagged build_rinex_path NetworkCode StationCode DestNetworkCode DestStationCode
         archive_path queue l) = []).
  { induction l as [|r l IH]; intros Hsub; [reflexivity|].
    unfold retagged. cbn [map List.filter].
    fold (retagged build_rinex_path NetworkCode StationCode DestNetworkCode DestStationCode
            archive_path queue l).
    rewrite IH by (intros x Hx; apply Hsub; right; exact Hx).
    destruct (transferred NetworkCode StationCode queue r) eqn:Ht.
    - assert (Hout : Rinex.in_range NetworkCode StationCode start_date end_date (tag r r) = false).
      { unfold Rinex.in_range. rewrite retag_not_of_station. reflexivity. }
      rewrite Hout. reflexivity.
    - destruct (Rinex.in_range NetworkCode StationCode start_date end_date r) eqn:Hr;
        [|reflexivity].
      exfalso. assert (Hin : In r queue).
      { apply filter_In. split; [apply Hsub; left; reflexivity|exact Hr]. }
      unfold transferred in Ht.
      assert (Hex : existsb (fun src => same src r) queue = true).
      { apply existsb_exists. exists r. split; [exact Hin|].
        unfold Rinex.in_range, Rinex.of_station in Hr.
        rewrite !andb_true_iff in Hr. destruct Hr as [[[Hn Hs] _] _].
        unfold same_file. rewrite Hn, Hs, !Z.eqb_refl, String.eqb_refl. reflexivity. }
      congruence. }
  apply Hall. auto.
Qed.

(** X20.  When nothing fails, the destination station exists and is
    another station than the source, every queued file is in the archive,
    no two of the queued rows name the same file and no file is moved to
    the place of a queued one, [RenameStation] returns normally.  Then
    every row the updates apply to bears the destination identity and its
    new file name and every other row is as it was, no row of the source
    station is left in the range, and the archive holds the queued files
    at their destinations, none of them at its source, and every other
    file as before. *)
Theorem RenameStation_transfers_the_queue (start_date end_date : Date) (w0 : World) :
  let queue := original_rs NetworkCode StationCode w0 start_date end_date in
  destination_exists DestNetworkCode DestStationCode w0 = true ->
  Forall (fun src => src_of src ∈ files w0) queue ->
  List.NoDup (map src_of queue) ->
  (forall a b, In a queue -> In b queue -> dest_of a <> src_of b) ->
  exists w',
    RenameStation build_rinex_path horizon faults NetworkCode StationCode
      DestNetworkCode DestStationCode archive_path start_date end_date w0 = (Ok tt, w') /\
    rinex (db w') =
      retagged build_rinex_path NetworkCode StationCode DestNetworkCode DestStationCode
        archive_path queue (rinex (db w0)) /\
    original_rs NetworkCode StationCode w' start_date end_date = [] /\
    (forall p, p ∈ files w' <->
       (exists src, In src queue /\ p = dest_of src) \/
       (p ∈ files w0 /\ forall src, In src queue -> p <> src_of src)).
Proof.
  intros queue Hdest Hin Hnd Hfresh.
  destruct (rename_files_all_migrate queue 0
              (started NetworkCode StationCode w0 start_date end_date) Hin Hnd)
    as (w' & Hrun & Hrows & Hfiles).
  cbn [started show modify snd files db set_shown] in Hrows, Hfiles.
  rewrite rows_after in Hrows.
  exists w'. split; [|split; [exact Hrows|split]].
  - unfold RenameStation, try_except.
    unfold mbind at 1, M_bind at 1, get. rewrite Hdest.
    unfold mbind at 1, M_bind at 1.
    change (show (BeginTransfer (length (original_rs NetworkCode StationCode w0
                                          start_date end_date))) w0)
      with (Ok tt, started NetworkCode StationCode w0 start_date end_date).
    fold queue. cbv beta iota. rewrite Hrun. reflexivity.
  - unfold original_rs at 1. rewrite Hrows. apply none_left.
  - intros p. rewrite Hfiles. apply files_after. exact Hfresh.
Qed.

End MergeFacts.

(** The two files of rms.igm1 are merged into rms.lpgs: both rows bear
    the new identity and the new file names, and the first file is found at
    its destination and no more at its source. *)
Lemma RenameStation_transfers_the_queue_witness :
  exists w',
    Rename.RenameStation Rename.sample_path None Merge.no_fault
      "rms" "igm1" "rms" "lpgs" "/archive"
      (pyDate.of_year_doy 2020 1) (pyDate.of_year_doy 2020 30)
      (Rename.sample_world Rename.sample_stationinfo) = (Ok tt, w') /\
    rinex (db w') =
      [Rinex.mkRow "rms" "lpgs" 2020 1 5084553600000000 5084640000000000
         "5137K78333" "lpgs0010.20o";
       Rinex.mkRow "rms" "lpgs" 2020 2 5084640000000000 5084726400000000
         "5137K78333" "lpgs0020.20o"] /\
    "/archive/rms/lpgs/2020/001/lpgs0010.20d.Z" ∈ files w' /\
    "/archive/rms/igm1/2020/001/igm10010.20d.Z" ∉ files w'.
Proof.
  assert (Hqueue :
    Rename.original_rs "rms" "igm1" (Rename.sample_world Rename.sample_stationinfo)
      (pyDate.of_year_doy 2020 1) (pyDate.of_year_doy 2020 30)
    = [Rename.sample_row "igm1" 1 "igm10010.20o"; Rename.sample_row "igm1" 2 "igm10020.20o"])
    by (vm_compute; reflexivity).
  destruct (RenameStation_transfers_the_queue Rename.sample_path None Merge.no_fault
              "rms" "igm1" "rms" "lpgs" "/archive"
              (fun _ => eq_refl) ltac:(discriminate)
              (pyDate.of_year_doy 2020 1) (pyDate.of_year_doy 2020 30)
              (Rename.sample_world Rename.sample_stationinfo))
    as (w' & Hrun & Hrows & _ & Hfiles).
  - reflexivity.
  - rewrite Hqueue. repeat constructor; vm_compute; reflexivity.
  - rewrite Hqueue. apply NoDup_ListNoDup. apply (bool_decide_unpack _). vm_compute. exact I.
  - rewrite Hqueue. intros a b [<-|[<-|[]]] [<-|[<-|[]]]; vm_compute; discriminate.
  - rewrite Hqueue in Hrows, Hfiles.
    exists w'. split; [exact Hrun|]. split; [rewrite Hrows; vm_compute; reflexivity|]. split.
    + apply Hfiles. left. exists (Rename.sample_row "igm1" 1 "igm10010.20o").
      split; [left; reflexivity|vm_compute; reflexivity].
    + intros H. apply Hfiles in H as [(src & [<-|[<-|[]]] & Heq)|[_ Hall]].
      * vm_compute in Heq. discriminate.
      * vm_compute in Heq. discriminate.
      * apply (Hall (Rename.sample_row "igm1" 1 "igm10010.20o")); [left; reflexivity|].
        vm_compute. reflexivity.
Defined.

Section GpsWeekFacts.
Import Naming.

Lemma substring_all (p : string) : String.substring 0 (String.length p) p = p.
Proof. induction p as [|c p IH]; [reflexivity|]. cbn. rewrite IH. reflexivity. Qed.

(** Where [rfind] finds the character, the text is cut just before it. *)
Lemma rfind_cut (c : ascii) (p : string) : forall k,
  rfind c p = Some k ->
  exists a b,
    p = a ++ String c b /\ String.length a = k /\
    String.substring 0 k p = a /\
    String.substring k (String.length p - k) p = String c b.
Proof.
  induction p as [|c' p IH]; intros k H; [discriminate|].
  cbn [rfind] in H. destruct (rfind c p) as [k'|] eqn:Hr.
  - injection H as <-. destruct (IH k' eq_refl) as (a & b & Hp & Hlen & Hhead & Htail).
    exists (String c' a), b. split; [rewrite str_app_cons; congruence|].
    split; [cbn; congruence|]. split.
    + cbn [String.substring]. congruence.
    + cbn [String.length Nat.sub String.substring]. exact Htail.
  - destruct (Ascii.eqb c' c) eqn:Hc; [|discriminate]. injection H as <-.
    apply Ascii.eqb_eq in Hc. subst c'.
    exists "", p. split; [reflexivity|]. split; [reflexivity|]. split; [reflexivity|].
    rewrite Nat.sub_0_r. apply substring_all.
Qed.

(** [os.path.splitext] cuts its argument in two; an extension that is not
    empty starts with a dot and leaves a shorter name. *)
Lemma splitext_cut (p : string) :
  fst (splitext p) ++ snd (splitext p) = p /\
  (snd (splitext p) <> "" ->
   (String.length (fst (splitext p)) < String.length p)%nat /\
   exists t, snd (splitext p) = String "." t).
Proof.
  unfold splitext. destruct (rfind "." p) as [k|] eqn:Hr.
  - destruct (_ && _).
    + destruct (rfind_cut _ _ _ Hr) as (a & b & Hp & Hlen & Hhead & Htail).
      cbn [fst snd]. rewrite Hhead, Htail. split; [congruence|].
      intros _. split; [|eauto].
      rewrite Hp, str_length_app. cbn [String.length]. lia.
    + cbn [fst snd]. split; [apply str_app_nil_r|congruence].
  - cbn [fst snd]. split; [apply str_app_nil_r|congruence].
Qed.

(** The loop that removes the extensions ends before the fuel does. *)
Lemma strip_exts_ends : forall fuel file_name file_ext,
  (String.length file_name < fuel)%nat ->
  exists stem exts,
    strip_exts fuel file_name file_ext = Some (stem, exts ++ file_ext) /\
    stem ++ exts = file_name /\
    snd (splitext stem) = "" /\
    (exts = "" \/ exists t, exts = String "." t).
Proof.
  induction fuel as [|fuel IH]; intros file_name file_ext Hlen; [lia|].
  cbn [strip_exts].
  destruct (splitext_cut file_name) as [Hcut Hext].
  destruct (splitext file_name) as [a e] eqn:Hsplit. cbn [fst snd] in Hcut, Hext.
  destruct (decide (e = "")) as [->|Hne].
  - rewrite bool_decide_eq_true_2 by reflexivity.
    rewrite str_app_nil_r in Hcut. subst a.
    exists file_name, "". split; [reflexivity|]. split; [apply str_app_nil_r|].
    split; [rewrite Hsplit; reflexivity|]. left. reflexivity.
  - rewrite bool_decide_eq_false_2 by exact Hne.
    destruct (Hext Hne) as [Hshort [t Ht]].
    destruct (IH a (e ++ file_ext) ltac:(lia)) as (stem & exts & Hrun & Hname & Hstem & Hdot).
    exists stem, (exts ++ e). split; [rewrite Hrun, str_app_assoc; reflexivity|].
    split; [rewrite <- str_app_assoc, Hname; exact Hcut|]. split; [exact Hstem|].
    right. destruct Hdot as [->|[t' ->]].
    + exists t. rewrite str_app_nil_l. exact Ht.
    + exists (t' ++ e). apply str_app_cons.
Qed.

(** X21.  [fix_gps_week] always returns: the loop that takes the
    extensions off ends.  The name of the file is cut into a stem from
    which [os.path.splitext] takes nothing more and the extensions, which
    are empty or start with a dot; the result is the directory joined with
    the stem and the extensions, a zero being put after the third character
    of the stem exactly when the stem has seven characters. *)
Theorem fix_gps_week_inserts_a_zero (file_path : string) :
  exists stem exts,
    snd (Str.path_split file_path) = stem ++ exts /\
    snd (splitext stem) = "" /\
    (exts = "" \/ exists t, exts = String "." t) /\
    fix_gps_week file_path =
      Some (Str.path_join (fst (Str.path_split file_path))
              ((if (String.length stem =? 7)%nat
                then String.substring 0 3 stem ++ "0" ++ String.substring 3 4 stem
                else stem) ++ exts)).
Proof.
  unfold fix_gps_week.
  destruct (Str.path_split file_path) as [path full_file_name]. cbn [fst snd].
  destruct (strip_exts_ends (S (String.length full_file_name)) full_file_name "" ltac:(lia))
    as (stem & exts & Hrun & Hname & Hstem & Hdot).
  rewrite str_app_nil_r in Hrun.
  exists stem, exts. split; [congruence|]. split; [exact Hstem|]. split; [exact Hdot|].
  rewrite Hrun. cbn [mbind option_bind].
  destruct (String.length stem =? 7)%nat eqn:Hseven; [|reflexivity].
  apply Nat.eqb_eq in Hseven. rewrite Hseven. reflexivity.
Qed.

End GpsWeekFacts.

(** The example of the source, alone and in a directory; a name whose week
    has four digits is left as it is. *)
Example fix_gps_week_g017321 :
  Naming.fix_gps_week "g017321.snx.gz" = Some "g0107321.snx.gz" /\
  Naming.fix_gps_week "/data/orbits/g017321.snx.gz" = Some "/data/orbits/g0107321.snx.gz" /\
  Naming.fix_gps_week "g0107321.snx.gz" = Some "g0107321.snx.gz".
Proof. repeat split; vm_compute; reflexivity. Qed.

Section GapReportFacts.
Import pyDate Gaps GapReport.
Local Open Scope Z_scope.
Variable ignore_val : Z.
Variable rows : list Rinex.row.

Abbreviation scan_inv := (GapReport.scan_inv ignore_val rows).

Lemma scan_step_inv prev rnx st :
  In prev rows -> scan_inv st -> scan_inv (scan_step ignore_val prev rnx st).
Proof.
  intros Hprev [Hopen Hgaps]. destruct st as [gb0 gaps]. cbn [fst snd] in *.
  unfold scan_step.
  set (gb := if negb (eqb (Rinex.date rnx) (add (Rinex.date prev) 1))
                && negb (bool_decide (is_Some gb0))
             then Some (add (Rinex.date prev) 1) else gb0).
  assert (Hgb : forall b, gb = Some b -> exists r, In r rows /\ b = add (Rinex.date r) 1).
  { intros b Hb. unfold gb in Hb. destruct (_ && _).
    - injection Hb as <-. eauto.
    - apply Hopen. exact Hb. }
  clearbody gb. destruct gb as [b|]; [|split; [intros ?; discriminate|exact Hgaps]].
  destruct (eqb (Rinex.date rnx) (add (Rinex.date prev) 1)).
  - split; [intros ?; discriminate|]. cbn [snd].
    destruct (ignore_val <? _) eqn:Hlt; [|exact Hgaps].
    apply Forall_app. split; [exact Hgaps|]. constructor; [|constructor].
    apply Z.ltb_lt in Hlt. unfold in_order. cbn [days gap_end gap_begin].
    split; [reflexivity|]. split; [exact Hlt|]. split; [apply Hgb; reflexivity|eauto].
  - split; [exact Hgb|exact Hgaps].
Qed.

Lemma scan_keeps_inv (todo : list Rinex.row) : forall prev st,
  In prev rows -> (forall r, In r todo -> In r rows) ->
  scan_inv st -> scan_inv (scan ignore_val prev todo st).
Proof.
  induction todo as [|rnx rest IH]; intros prev st Hprev Hsub Hinv; [exact Hinv|].
  cbn [scan]. apply IH.
  - apply Hsub. left. reflexivity.
  - intros r Hr. apply Hsub. right. exact Hr.
  - apply scan_step_inv; assumption.
Qed.

Lemma scan_consecutive (todo : list Rinex.row) : forall prev,
  consecutive prev todo = true -> scan ignore_val prev todo (None, []) = (None, []).
Proof.
  induction todo as [|rnx rest IH]; intros prev H; [reflexivity|].
  cbn [consecutive] in H. apply andb_true_iff in H as [Hnext Hrest].
  cbn [scan]. unfold scan_step. rewrite Hnext. cbn [negb andb]. apply IH. exact Hrest.
Qed.

End GapReportFacts.

(** X22.  Every gap [GetStnGaps] reports for a station is in order: the
    list of the gaps of a station that has a report of gaps is not empty,
    the number of days of each gap is the number of days from its first to
    its last day and exceeds the threshold, its first day is the day after
    a day with a row of the station and its last day the day before one.
    When every row of the station is of the day after the row before it,
    no gap is reported. *)
Theorem GetStnGaps_reports_in_order (rinex_proc : list Rinex.row)
    (ignore_val : Z) (start_date end_date : pyDate.Date) :
  (forall stnlist net stn gaps,
     In (Gaps.DataGaps net stn gaps)
        (Gaps.GetStnGaps rinex_proc stnlist ignore_val start_date end_date) ->
     gaps <> [] /\
     Forall (GapReport.in_order ignore_val
               (Rinex.select rinex_proc net stn start_date end_date)) gaps) /\
  (forall net stn,
     GapReport.complete (Rinex.select rinex_proc net stn start_date end_date) = true ->
     Gaps.GetStnGaps rinex_proc [(net, stn)] ignore_val start_date end_date
     = [Gaps.NoDataGaps net stn]).
Proof.
  split.
  - intros stnlist net stn gaps Hin. unfold Gaps.GetStnGaps in Hin.
    apply in_map_iff in Hin as ([net0 stn0] & Heq & _).
    assert (Hsound : Forall (GapReport.in_order ignore_val
                               (Rinex.select rinex_proc net0 stn0 start_date end_date))
                       (Gaps.station_gaps rinex_proc ignore_val net0 stn0 start_date end_date)).
    { unfold Gaps.station_gaps.
      destruct (Rinex.select rinex_proc net0 stn0 start_date end_date) as [|first rest] eqn:Hsel;
        [constructor|].
      apply (scan_keeps_inv ignore_val (first :: rest) rest first (None, [])).
      - left. reflexivity.
      - intros r Hr. right. exact Hr.
      - split; [intros ?; discriminate|constructor]. }
    destruct (Gaps.station_gaps rinex_proc ignore_val net0 stn0 start_date end_date)
      as [|g gs]; [discriminate|].
    injection Heq as <- <- <-. split; [discriminate|exact Hsound].
  - intros net stn Hc. unfold Gaps.GetStnGaps, Gaps.station_gaps. cbn [map].
    destruct (Rinex.select rinex_proc net stn start_date end_date) as [|first rest];
      [reflexivity|].
    cbn [GapReport.complete] in Hc. rewrite (scan_consecutive ignore_val rest first Hc).
    reflexivity.
Qed.

(** Days 1, 8 and 9 give the gap from day 2 to day 7, of 6 days; the days
    1 to 4 give none. *)
Example GetStnGaps_days_1_8_9 :
  Gaps.GetStnGaps (map (Gaps.day_row "rms" "igm1" 2020) [1; 8; 9]%Z)
    [("rms", "igm1")] 5 (pyDate.of_year_doy 2020 1) (pyDate.of_year_doy 2020 30)
  = [Gaps.DataGaps "rms" "igm1"
       [Gaps.mkGap (pyDate.of_year_doy 2020 2) (pyDate.of_year_doy 2020 7) 6]] /\
  GapReport.complete
    (Rinex.select (map (Gaps.day_row "rms" "igm1" 2020) [1; 2; 3; 4]%Z) "rms" "igm1"
       (pyDate.of_year_doy 2020 1) (pyDate.of_year_doy 2020 30)) = true.
Proof. split; vm_compute; reflexivity. Qed.

Section PictureFacts.
Import VisualizeGaps.
Variable missing_dates : list Z.

(** Lists are read two items at a time. *)
Lemma by_twos {A} (P : list A -> Prop) :
  P [] -> (forall a, P [a]) -> (forall a b l, P l -> P (a :: b :: l)) -> forall l, P l.
Proof.
  intros H0 H1 H2. assert (H : forall l, P l /\ forall a, P (a :: l)).
  { induction l as [|b l [IH IH']]; [split; [exact H0|exact H1]|].
    split; [apply IH'|]. intros a. apply H2. exact IH. }
  intros l. apply H.
Qed.

(** The two slices pair each day at an even place with the day after it. *)
Lemma slices_pair (l : list Z) :
  zip (evens (removelast l)) (evens (tail l)) = pairs l.
Proof.
  induction l as [| a | a b l IH] using by_twos; [reflexivity|reflexivity|].
  destruct l as [|c l].
  - reflexivity.
  - change (removelast (a :: b :: c :: l)) with (a :: b :: removelast (c :: l)).
    cbn [evens tail pairs]. cbn [tail] in IH.
    change (zip (a :: evens (removelast (c :: l))) (b :: evens l))
      with ((a, b) :: zip (evens (removelast (c :: l))) (evens l)).
    rewrite IH. reflexivity.
Qed.

Lemma cells_app (a b : list written) : cells (a ++ b) = (cells a ++ cells b)%list.
Proof. apply omap_app. Qed.

Lemma cells_group (h : string) (body foot : list written) :
  cells ([Text h] ++ body ++ foot) = (cells body ++ cells foot)%list.
Proof. change (cells (body ++ foot) = (cells body ++ cells foot)%list). apply cells_app. Qed.

Lemma cells_pair_glyph (doy : Z * Z) :
  cells (pair_glyph missing_dates doy)
  = [match is_missing missing_dates (fst doy), is_missing missing_dates (snd doy) with
     | false, false => FullBlock
     | false, true => LeftHalf
     | true, false => RightHalf
     | true, true => Blank
     end].
Proof.
  unfold pair_glyph.
  destruct (is_missing missing_dates (fst doy)), (is_missing missing_dates (snd doy));
    reflexivity.
Qed.

Lemma mod2_SS (n : nat) : (S (S n) mod 2 = n mod 2)%nat.
Proof. replace (S (S n)) with (n + 1 * 2)%nat by lia. apply Nat.Div0.mod_add. Qed.

Lemma py_index_final {A} (l : list A) :
  py_index l (-1) = match last l with
                    | Some x => Ok x
                    | None => Raise (IndexError "list index out of range")
                    end.
Proof.
  unfold py_index. cbn [Z.ltb Z.compare]. rewrite last_lookup.
  destruct l as [|a l]; [reflexivity|].
  cbn [length]. rewrite (proj2 (Z.ltb_ge _ _)) by lia.
  replace (Z.to_nat (Z.of_nat (S (length l)) + -1)) with (length l) by lia.
  cbn [Nat.pred]. destruct ((a :: l) !! length l); reflexivity.
Qed.

(** The glyphs written for the pairs and for the day left over. *)
Lemma cells_of_loop (cut_len : nat) (l : list Z) : forall i,
  (cells (pairs_loop missing_dates cut_len i (zip (evens (removelast l)) (evens (tail l))))
   ++ (if negb (length l mod 2 =? 0)%nat
       then match last l with
            | Some final => [if is_missing missing_dates final then Blank else LeftHalf]
            | None => []
            end
       else []))%list
  = cells_of missing_dates l.
Proof.
  rewrite slices_pair.
  induction l as [| a | a b l IH] using by_twos; intros i; [reflexivity|reflexivity|].
  cbn [pairs pairs_loop cells_of]. rewrite !cells_app, cells_pair_glyph. cbn [fst snd].
  assert (Htext : cells (if (i + 1 =? cut_len)%nat
                         then [Text ("<" ++ Files.zero_pad 3 a ++ nl);
                               Text ("    " ++ Files.zero_pad 3 (a + 1) ++ ">")]
                         else []) = []) by (destruct (i + 1 =? cut_len)%nat; reflexivity).
  rewrite Htext. cbn [app]. f_equal.
  rewrite <- (IH (S i)). f_equal.
  cbn [length]. rewrite mod2_SS.
  destruct l as [|c l]; [reflexivity|]. reflexivity.
Qed.

Lemma cells_of_length : forall l,
  length (cells_of missing_dates l) = ((length l + 1) / 2)%nat.
Proof.
  induction l as [| a | a b l IH] using by_twos; [reflexivity|reflexivity|].
  cbn [cells_of length]. rewrite IH.
  replace (S (S (length l)) + 1)%nat with ((length l + 1) + 1 * 2)%nat by lia.
  rewrite Nat.div_add by lia. lia.
Qed.

Lemma cells_of_reads : forall l,
  take (length l) (flat_map reads (cells_of missing_dates l))
  = map (is_missing missing_dates) l.
Proof.
  induction l as [| a | a b l IH] using by_twos; [reflexivity| |].
  - cbn [cells_of flat_map map length]. destruct (is_missing missing_dates a); reflexivity.
  - cbn [cells_of flat_map map length].
    destruct (is_missing missing_dates a), (is_missing missing_dates b);
      cbn [reads app take]; rewrite IH; reflexivity.
Qed.

End PictureFacts.

(** X23.  The picture [VisualizeGaps] draws for a year shows every
    possible day once: it has one glyph for every two days, the last glyph
    standing for one day when their number is odd, and reading the glyphs
    back, two days to a glyph, tells of each day in order whether it is
    among the missing days.  The group is written for every list of days
    that is not empty. *)
Theorem VisualizeGaps_shows_every_day (year : Z) (missing_dates p_doys : list Z) :
  (p_doys = [] ->
   VisualizeGaps.year_group year missing_dates p_doys
   = Raise (IndexError "list index out of range")) /\
  (p_doys <> [] ->
   exists out,
     VisualizeGaps.year_group year missing_dates p_doys = Ok out /\
     length (VisualizeGaps.cells out) = ((length p_doys + 1) / 2)%nat /\
     take (length p_doys) (flat_map VisualizeGaps.reads (VisualizeGaps.cells out))
     = map (VisualizeGaps.is_missing missing_dates) p_doys).
Proof.
  split; [intros ->; reflexivity|]. intros Hne.
  unfold VisualizeGaps.year_group.
  destruct p_doys as [|first rest] eqn:Hp; [congruence|]. rewrite <- Hp.
  assert (H0 : py_index p_doys 0 = Ok first) by (rewrite Hp; reflexivity).
  rewrite H0. cbn [mbind result_bind rbind].
  rewrite py_index_final.
  destruct (last p_doys) as [final|] eqn:Hlast;
    [|rewrite Hp, last_cons in Hlast; destruct (last rest); discriminate].
  cbn [mbind result_bind rbind].
  eexists. split; [reflexivity|].
  pose proof (cells_of_loop missing_dates
                (if (240 <? length p_doys)%nat then ((length p_doys + 3) / 4)%nat
                 else length p_doys) p_doys 0%nat) as Hcells.
  rewrite Hlast in Hcells.
  match goal with
  | |- context [VisualizeGaps.cells ?o] =>
      assert (Hout : VisualizeGaps.cells o = VisualizeGaps.cells_of missing_dates p_doys)
  end.
  { rewrite cells_group, <- Hcells. f_equal.
    destruct (negb _); [|reflexivity].
    rewrite cells_app.
    destruct (VisualizeGaps.is_missing missing_dates final); reflexivity. }
  rewrite Hout. split; [apply cells_of_length|apply cells_of_reads].
Qed.

(** Five days of which the second and the fifth are missing: a left half,
    a full block and a space. *)
Example VisualizeGaps_five_days :
  VisualizeGaps.year_group 2020 [11; 14]%Z [10; 11; 12; 13; 14]%Z
  = Ok [VisualizeGaps.Text (VisualizeGaps.nl ++ "2020:" ++ VisualizeGaps.nl ++ "    010>");
        VisualizeGaps.Glyph VisualizeGaps.LeftHalf;
        VisualizeGaps.Glyph VisualizeGaps.FullBlock;
        VisualizeGaps.Glyph VisualizeGaps.Blank;
        VisualizeGaps.Text ("<014" ++ VisualizeGaps.nl)].
Proof. vm_compute. reflexivity. Qed.

(* ================================================================== *)
(** * The day count, the serial check and the dispatcher *)

Section ProcessDateRest.
Import pyDate Utils.
Context {F : Formats}.
Variable clk : Clock.
Variable allow_days : bool.

Lemma decode_empty i : decode clk allow_days i "" = Ok None.
Proof. reflexivity. Qed.

(** Empty texts assign nothing. *)
Lemma decode_all_empty more : forall i (dates : list (option Date)),
  Forall (fun s => s = "") more -> decode_all clk allow_days i more dates = Ok dates.
Proof.
  induction more as [|s more IH]; intros i dates Hall; [reflexivity|].
  inversion Hall as [|? ? Hs Hmore]; subst. cbn [decode_all].
  rewrite decode_empty. cbn [mbind result_bind rbind store]. apply IH. exact Hmore.
Qed.

End ProcessDateRest.

(** C10 (as the code has it).  When the first element of the date filter is
    a bare integer [N] and days are allowed, [process_date] returns a range
    that starts at today - N exactly in these cases: the list has no other
    element, and the range ends at the default (today, or [None] when the
    missing input is not filled in); or the second element is empty or is
    decoded by one of the calendar formats and every further element is
    empty, and the range ends at the decoded date, or at the default for
    an empty second element.  It raises [ValueError] when the second
    element is refused, as every bare text that is not empty is there, and
    when an element in third place or later is not empty.  Without
    arguments it returns the default range (1980 day 1, today). *)
Theorem process_date_days_back {F : pyDate.Formats} (clk : Utils.Clock)
    (a : string) (N : Z) :
  Utils.bare a = true -> Str.int_opt a = Some N ->
  let start := pyDate.sub (pyDate.of_datetime (Utils.now_days clk)) N in
  let today := pyDate.of_datetime (Utils.now_fill clk) in
  let default := fun mi : string => if bool_decide (mi = "fill") then Some today else None in
  (forall mi, Utils.process_date clk true (Some [a]) mi = Ok [Some start; default mi]) /\
  (forall b more mi v,
     Utils.decode clk true 1 b = Ok v -> Forall (fun s => s = "") more ->
     Utils.process_date clk true (Some (a :: b :: more)) mi
     = Ok [Some start; match v with Some d => Some d | None => default mi end]) /\
  (forall b more mi e,
     Utils.decode clk true 1 b = Raise e ->
     Utils.process_date clk true (Some (a :: b :: more)) mi
     = Raise (ValueError (Utils.bad_date_prefix ++ exn_str e))) /\
  (forall b more mi,
     Exists (fun s => s <> "") more ->
     exists m, Utils.process_date clk true (Some (a :: b :: more)) mi
               = Raise (ValueError (Utils.bad_date_prefix ++ m))) /\
  (forall b, Utils.bare b = true ->
     Utils.decode clk true 1 b
     = if bool_decide (b = "") then Ok None
       else Raise (ValueError "Invalid input date: allow_days was set to False.")) /\
  (forall allow,
     Utils.process_date clk allow None "fill" = Ok [Some (pyDate.of_year_doy 1980 1); Some today] /\
     Utils.process_date clk allow (Some []) "fill" = Ok [Some (pyDate.of_year_doy 1980 1); Some today]).
Proof.
  intros Hb Hn start today default.
  assert (Hfirst : forall mi rest,
    Utils.process_date clk true (Some (a :: rest)) mi
    = Utils.decode_all clk true 1 rest [Some start; default mi]).
  { intros mi rest. unfold Utils.process_date. cbn [Utils.decode_all].
    rewrite (decode_bare_first clk a N Hb Hn). cbn [mbind result_bind rbind Utils.store].
    unfold default. destruct (bool_decide (mi = "fill")); reflexivity. }
  split; [|split; [|split; [|split; [|split]]]].
  - intros mi. rewrite Hfirst. reflexivity.
  - intros b more mi v Hv Hmore. rewrite Hfirst. cbn [Utils.decode_all].
    rewrite Hv. cbn [mbind result_bind rbind].
    destruct v as [d|]; cbn [Utils.store length Nat.ltb Nat.leb];
      rewrite decode_all_empty by exact Hmore; reflexivity.
  - intros b more mi e He. rewrite Hfirst. cbn [Utils.decode_all].
    rewrite He. reflexivity.
  - intros b more mi Hex.
    apply Exists_exists in Hex as (s & Hin & Hs).
    apply list_elem_of_lookup_1 in Hin as [k Hk].
    destruct (decode_all_beyond clk true (a :: b :: more) 0 (S (S k)) s
                (if bool_decide (mi = "fill")
                 then [Some (pyDate.of_year_doy 1980 1); Some today]
                 else [None; None])) as [e He].
    + exact Hk.
    + exact Hs.
    + destruct (bool_decide (mi = "fill")); cbn [length]; lia.
    + destruct (decode_all_value_error clk true _ _ _ _ He) as [m ->].
      exists m. unfold Utils.process_date. exact He.
  - intros b Hbare. destruct (decide (b = "")) as [->|Hne].
    + reflexivity.
    + rewrite bool_decide_eq_false_2 by exact Hne.
      apply decode_bare_later; [exact Hbare|exact Hne|lia].
  - intros allow. split; reflexivity.
Qed.

(** The filter ["10"] gives the range from ten days before today to today,
    and the filter ["10"; "2020_030"] the range from ten days before today
    to day 30 of 2020. *)
Lemma process_date_days_back_witness :
  Utils.process_date (F := pyDate.integer_formats)
    (Utils.mkClock 5097600000000005 5097600000000007) true (Some ["10"]) "fill"
  = Ok [Some (pyDate.mkDate 58990 0); Some (pyDate.mkDate 59000 5)] /\
  Utils.process_date (F := pyDate.integer_formats)
    (Utils.mkClock 5097600000000005 5097600000000007) true (Some ["10"; "2020_030"]) "fill"
  = Ok [Some (pyDate.mkDate 58990 0); Some (pyDate.of_year_doy 2020 30)].
Proof.
  destruct (process_date_days_back (F := pyDate.integer_formats)
              (Utils.mkClock 5097600000000005 5097600000000007) "10" 10
              eq_refl eq_refl) as (Hone & Htwo & _).
  split.
  - exact (Hone "fill").
  - exact (Htwo "2020_030" [] "fill" (Some (pyDate.of_year_doy 2020 30)) eq_refl (List.Forall_nil _)).
Defined.

(** C10 (as stated) fails: the first element is the bare integer 10, yet a
    second bare integer makes [process_date] raise instead of returning a
    range that starts ten days ago. *)
Lemma process_date_second_integer_raises :
  Utils.bare "10" = true /\ Str.int_opt "10" = Some 10%Z /\
  Utils.process_date (F := pyDate.integer_formats)
    (Utils.mkClock 5097600000000005 5097600000000007) true (Some ["10"; "5"]) "fill"
  = Raise (ValueError (Utils.bad_date_prefix ++
                       "Invalid input date: allow_days was set to False.")).
Proof. repeat split. Qed.

(** Three elements that are all decoded: the third has no place to go. *)
Example process_date_third_element_raises :
  Utils.process_date (F := pyDate.integer_formats)
    (Utils.mkClock 5097600000000005 5097600000000007) true
    (Some ["10"; "2020_001"; "2020_030"]) "fill"
  = Raise (ValueError (Utils.bad_date_prefix ++ "list assignment index out of range")).
Proof. vm_compute. reflexivity. Qed.

Section SerialFacts.
Import pyDate SerialCheck.
Local Open Scope list_scope.

(** The test of the loop is the test the specification words. *)
Lemma continues_same_run (d next : diff) :
  continues d next = bool_decide (same_run d next).
Proof.
  unfold continues, pyDate.eqb, add, of_mjd. cbn [mjd].
  destruct (decide (same_run d next)) as [H|H].
  - rewrite bool_decide_eq_true_2 by exact H. destruct H as (Hd & Hr & Hs).
    rewrite Hd, Hr, Hs, Z.eqb_refl, !String.eqb_refl. reflexivity.
  - rewrite bool_decide_eq_false_2 by exact H.
    destruct (_ && _) eqn:E; [|reflexivity].
    exfalso. apply H. rewrite !andb_true_iff in E. destruct E as [[Hd Hr] Hs].
    apply Z.eqb_eq in Hd. apply String.eqb_eq in Hr, Hs. repeat split; assumption.
Qed.

Lemma py_index_next {A} (pre rest : list A) (d next : A) :
  py_index (pre ++ d :: next :: rest) (Z.of_nat (length pre) + 1) = Ok next.
Proof.
  unfold py_index.
  assert (Hk : (Z.of_nat (length pre) + 1 <? 0)%Z = false) by (symmetry; zbool).
  cbv zeta. rewrite !Hk.
  replace (Z.to_nat (Z.of_nat (length pre) + 1)) with (length (pre ++ [d])).
  2:{ rewrite length_app. simpl. lia. }
  replace (pre ++ d :: next :: rest) with ((pre ++ [d]) ++ next :: rest).
  2:{ rewrite <- app_assoc. reflexivity. }
  rewrite list_lookup_middle; reflexivity.
Qed.

Lemma last_cons_default {A} (l : list A) : forall (x d : A),
  List.last (x :: l) d = List.last l x.
Proof.
  induction l as [|y l IH]; intros x d; [reflexivity|].
  change (List.last (x :: y :: l) d) with (List.last (y :: l) d).
  rewrite (IH y d), (IH y x). reflexivity.
Qed.

Lemma last_option_default {A} (l : list A) (d : A) :
  last (d :: l) = Some (List.last l d).
Proof.
  revert d. induction l as [|x l IH]; intros d; [reflexivity|].
  rewrite last_cons, IH, last_cons_default. reflexivity.
Qed.

(** [diff_vect[i-1]]: the item before the one at [i], and the last item of
    the list for the first. *)
Lemma py_index_before {A} (pre rest : list A) (d : A) :
  py_index (pre ++ d :: rest) (Z.of_nat (length pre) - 1)
  = Ok (List.last pre (List.last rest d)).
Proof.
  unfold py_index. cbv zeta.
  destruct pre as [|p pre] using rev_ind.
  - change (([] : list A) ++ d :: rest) with (d :: rest).
    change (Z.of_nat (length ([] : list A)) - 1)%Z with (-1)%Z.
    change (-1 <? 0)%Z with true. cbv iota.
    assert (Hn : (Z.of_nat (length (d :: rest)) + -1)%Z = Z.of_nat (length rest))
      by (cbn [length]; lia).
    rewrite Hn, Nat2Z.id.
    replace (Z.of_nat (length rest) <? 0)%Z with false by zbool.
    pose proof (last_option_default rest d) as Hl. rewrite last_lookup in Hl.
    cbn [length Nat.pred] in Hl. rewrite Hl. reflexivity.
  - rewrite length_app. cbn [length].
    assert (Hk : (Z.of_nat (length pre + 1) - 1 <? 0)%Z = false) by (symmetry; zbool).
    rewrite Hk. cbv iota. rewrite Hk. cbv iota.
    replace (Z.to_nat (Z.of_nat (length pre + 1) - 1)) with (length pre) by lia.
    rewrite <- app_assoc. cbn [app].
    rewrite list_lookup_middle by reflexivity. rewrite List.last_last. reflexivity.
Qed.

(** The loop writes the lines its recursion on the list gives. *)
Lemma report_loop_lines (diff_vect : list diff) : forall todo pre print_head out,
  diff_vect = pre ++ todo ->
  report_loop diff_vect (length pre) todo print_head out
  = Ok (out ++ match todo with
               | [] => []
               | d :: rest => loop_lines (List.last pre (List.last rest d)) print_head todo
               end).
Proof.
  induction todo as [|d rest IH]; intros pre ph out Hdv.
  - cbn [report_loop]. rewrite app_nil_r. reflexivity.
  - cbn [report_loop loop_lines].
    set (out1 := if ph then out ++ [WarningFrom (date d)] else out).
    assert (Hout1 : out1 = out ++ (if ph then [WarningFrom (date d)] else [])).
    { subst out1. destruct ph; [reflexivity|rewrite app_nil_r; reflexivity]. }
    assert (Hpre : pre ++ d :: rest = (pre ++ [d]) ++ rest).
    { rewrite <- app_assoc. reflexivity. }
    assert (Hlen : length (pre ++ [d]) = S (length pre)).
    { rewrite length_app. simpl. lia. }
    destruct rest as [|next rest'].
    + replace (Z.of_nat (length pre) =? Z.of_nat (length diff_vect) - 1)%Z with true.
      2:{ subst diff_vect. rewrite length_app. simpl. zbool. }
      cbn [negb report_loop]. rewrite Hout1, app_nil_r. reflexivity.
    + replace (Z.of_nat (length pre) =? Z.of_nat (length diff_vect) - 1)%Z with false.
      2:{ subst diff_vect. rewrite length_app. simpl. zbool. }
      cbn [negb].
      assert (Hnext : py_index diff_vect (Z.of_nat (length pre) + 1) = Ok next)
        by (rewrite Hdv; apply py_index_next).
      rewrite Hnext. cbn [mbind result_bind rbind].
      destruct (continues d next).
      * rewrite <- Hlen. rewrite (IH (pre ++ [d]) false out1) by (rewrite Hdv; exact Hpre).
        rewrite List.last_last, Hout1, <- app_assoc. reflexivity.
      * assert (Hprev : py_index diff_vect (Z.of_nat (length pre) - 1)
                        = Ok (List.last pre (List.last (next :: rest') d)))
          by (rewrite Hdv; apply py_index_before).
        rewrite Hprev. cbn [mbind result_bind rbind].
        rewrite <- Hlen. rewrite (IH (pre ++ [d]) true _) by (rewrite Hdv; exact Hpre).
        rewrite List.last_last, Hout1, <- !app_assoc. reflexivity.
Qed.

Lemma loop_lines_head prev ph d rest :
  loop_lines prev ph (d :: rest)
  = (if ph then [WarningFrom (date d)] else []) ++ loop_lines prev false (d :: rest).
Proof. destruct ph; reflexivity. Qed.

Lemma loop_lines_step prev d next rest :
  loop_lines prev false (d :: next :: rest)
  = if continues d next then loop_lines d false (next :: rest)
    else WarningTo (date d) (rinex_sn prev) (stninfo_sn prev)
         :: loop_lines d true (next :: rest).
Proof. reflexivity. Qed.

(** What [report] writes for a list that is not empty. *)
Lemma report_lines d rest :
  report (d :: rest)
  = Ok (WarningFrom (date d)
        :: loop_lines (List.last rest d) false (d :: rest)
        ++ [WarningTo (date (List.last rest d)) (rinex_sn (List.last rest d))
              (stninfo_sn (List.last rest d))]).
Proof.
  unfold report.
  pose proof (report_loop_lines (d :: rest) (d :: rest) [] true [] eq_refl) as H.
  cbn [length] in H. rewrite H.
  cbn [mbind result_bind rbind List.last app].
  rewrite last_option_default, loop_lines_head. reflexivity.
Qed.

Lemma runs_cons d rest : exists ys rs, runs (d :: rest) = (d, ys) :: rs.
Proof.
  simpl. destruct (runs rest) as [|[y ys] rs]; [eauto|].
  destruct (bool_decide (same_run d y)); eauto.
Qed.

Lemma runs_head d next rest :
  runs (d :: next :: rest) =
  match runs (next :: rest) with
  | (y, ys) :: rs => if continues d next then (d, y :: ys) :: rs
                     else (d, []) :: (y, ys) :: rs
  | [] => [(d, [])]
  end.
Proof.
  destruct (runs_cons next rest) as [ys [rs H]].
  change (runs (d :: next :: rest)) with
    (match runs (next :: rest) with
     | (y, ys) :: rs => if bool_decide (same_run d y) then (d, y :: ys) :: rs
                        else (d, []) :: (y, ys) :: rs
     | [] => [(d, [])]
     end).
  rewrite H, continues_same_run. reflexivity.
Qed.

Lemma runs_flatten dv : flat_map (fun r => fst r :: snd r) (runs dv) = dv.
Proof.
  induction dv as [|x rest IH]; [reflexivity|].
  simpl. destruct (runs rest) as [|[y ys] rs].
  - simpl in IH. subst rest. reflexivity.
  - destruct (bool_decide (same_run x y)); simpl in *; rewrite IH; reflexivity.
Qed.

(** The dates of the lines written are those of the runs. *)
Lemma loop_lines_marks rest : forall d prev x y,
  flat_map mark_of
    (WarningFrom (date d) :: loop_lines prev false (d :: rest)
     ++ [WarningTo (date (List.last rest d)) x y])
  = flat_map mark_of (flat_map run_lines (runs (d :: rest))).
Proof.
  induction rest as [|next rest IH]; intros d prev x y; [reflexivity|].
  rewrite runs_head.
  specialize (IH next d x y). destruct (runs_cons next rest) as [ys [rs Hr]].
  rewrite Hr in IH |- *.
  cbn [flat_map run_lines fst snd app mark_of] in IH. injection IH as IH.
  rewrite last_cons_default, loop_lines_step.
  destruct (continues d next).
  - cbn [flat_map run_lines fst snd app mark_of]. rewrite last_cons_default.
    f_equal. exact IH.
  - rewrite loop_lines_head.
    cbn [flat_map run_lines fst snd app mark_of List.last].
    do 3 f_equal. exact IH.
Qed.

(** The lines written are those of the runs when no run of one day is
    followed by another run; [joined] tells that [prev] and [d] are of the
    same run. *)
Lemma loop_lines_runs rest : forall d prev (joined : bool),
  (joined = true -> rinex_sn prev = rinex_sn d /\ stninfo_sn prev = stninfo_sn d) ->
  long_runs (if joined then tail (runs (d :: rest)) else runs (d :: rest)) = true ->
  WarningFrom (date d) :: loop_lines prev false (d :: rest)
  ++ [WarningTo (date (List.last rest d)) (rinex_sn (List.last rest d))
        (stninfo_sn (List.last rest d))]
  = flat_map run_lines (runs (d :: rest)).
Proof.
  induction rest as [|next rest IH]; intros d prev joined Hpair Hlong; [reflexivity|].
  rewrite runs_head in Hlong |- *. rewrite last_cons_default.
  destruct (runs_cons next rest) as [ys [rs Hr]].
  rewrite loop_lines_step. rewrite (continues_same_run d next) in *.
  destruct (decide (same_run d next)) as [Hsame|Hdiff].
  - rewrite bool_decide_eq_true_2 in Hlong |- * by exact Hsame.
    destruct Hsame as (_ & Hr1 & Hs1).
    specialize (IH next d true (fun _ => conj (eq_sym Hr1) (eq_sym Hs1))).
    rewrite Hr in IH, Hlong |- *. cbn [tail] in IH.
    assert (Hrs : long_runs rs = true).
    { destruct joined; cbn [tail] in Hlong; [exact Hlong|].
      cbn [long_runs snd] in Hlong. destruct rs; [reflexivity|exact Hlong]. }
    specialize (IH Hrs). cbn [flat_map run_lines fst snd app] in IH |- *.
    injection IH as IH. rewrite last_cons_default, <- Hr1, <- Hs1. f_equal. exact IH.
  - rewrite bool_decide_eq_false_2 in Hlong |- * by exact Hdiff.
    rewrite Hr in Hlong |- *.
    destruct joined; [|cbn [long_runs snd] in Hlong; discriminate].
    cbn [tail] in Hlong. destruct (Hpair eq_refl) as [Hr0 Hs0].
    specialize (IH next d false ltac:(discriminate)). rewrite Hr in IH.
    specialize (IH Hlong). rewrite loop_lines_head.
    cbn [flat_map run_lines fst snd app List.last] in IH |- *.
    rewrite Hr0, Hs0. do 2 f_equal. exact IH.
Qed.

End SerialFacts.

(** C6, at a list of mismatches the code mishandles.  A job compares the
    serial numbers in lower case at the midpoint of the session, and
    [get_differences] returns the collected mismatches sorted by date.  The
    report has one range for each maximal run of mismatches with
    consecutive dates and the same pair of serial numbers, from the first
    date of the run to its last, and it is the report the specification
    words whenever every run but the last has more than one mismatch.  A
    run of a single day that another run follows is written with the
    serial numbers of [diff_vect[i-1]], which is the mismatch before it or,
    for the first, the last mismatch of the list: for a mismatch of the
    pair (a, b) on day 10 and one of the pair (c, d) on day 20, the range of
    day 10 is written with the pair (c, d). *)
Theorem StnInfoRinexIntegrity_one_day_run_shows_other_serials
    (differences : list SerialCheck.outcome) :
  let diff_vect := snd (SerialCheck.get_differences differences) in
  (forall cat tb net stn STime ETime serial records current,
     pyStationInfo.StationInfo_at (stationinfo cat) net stn
       (pyDate.of_datetime (STime + half_even (ETime - STime))) = Ok (records, current) ->
     SerialCheck.compare_stninfo_rinex (Ok cat) tb net stn STime ETime serial =
     Ok (None,
         if String.eqb (Str.lower (pyStationInfo.ReceiverSerial current)) (Str.lower serial)
         then None
         else Some (SerialCheck.mkDiff
                      (pyDate.of_datetime (STime + half_even (ETime - STime)))
                      serial (Str.lower (pyStationInfo.ReceiverSerial current))))) /\
  Permutation diff_vect (omap snd differences) /\
  Sorted (key_le (fun d => pyDate.datetime (SerialCheck.date d))) diff_vect /\
  flat_map (fun r => fst r :: snd r) (SerialCheck.runs diff_vect) = diff_vect /\
  (exists out,
     SerialCheck.report diff_vect = Ok out /\
     flat_map SerialCheck.mark_of out
     = flat_map SerialCheck.mark_of (SerialCheck.expected diff_vect) /\
     (SerialCheck.long_runs (SerialCheck.runs diff_vect) = true ->
      out = SerialCheck.expected diff_vect)) /\
  SerialCheck.report [SerialCheck.sample_diff 10 "a" "b"; SerialCheck.sample_diff 20 "c" "d"]
  = Ok [SerialCheck.WarningFrom (pyDate.of_year_doy 2020 10);
        SerialCheck.WarningTo (pyDate.of_year_doy 2020 10) "c" "d";
        SerialCheck.WarningFrom (pyDate.of_year_doy 2020 20);
        SerialCheck.WarningTo (pyDate.of_year_doy 2020 20) "c" "d"] /\
  SerialCheck.expected [SerialCheck.sample_diff 10 "a" "b"; SerialCheck.sample_diff 20 "c" "d"]
  = [SerialCheck.WarningFrom (pyDate.of_year_doy 2020 10);
     SerialCheck.WarningTo (pyDate.of_year_doy 2020 10) "a" "b";
     SerialCheck.WarningFrom (pyDate.of_year_doy 2020 20);
     SerialCheck.WarningTo (pyDate.of_year_doy 2020 20) "c" "d"].
Proof.
  intros diff_vect. split; [|split; [|split; [|split; [|split; [|split]]]]].
  - intros cat tb net stn STime ETime serial records current H.
    unfold SerialCheck.compare_stninfo_rinex. rewrite H.
    destruct (String.eqb _ _); reflexivity.
  - apply sort_by_perm.
  - apply sort_by_sorted.
  - apply runs_flatten.
  - destruct diff_vect as [|d rest].
    + exists [SerialCheck.NoInconsistencies]. repeat split.
    + eexists. split; [apply report_lines|]. split.
      * apply loop_lines_marks.
      * intros Hlong. apply (loop_lines_runs rest d (List.last rest d) false).
        -- discriminate.
        -- exact Hlong.
  - reflexivity.
  - reflexivity.
Qed.

(** Three consecutive days with the same pair of serial numbers give one
    range, from the first day to the third, with that pair; so do they
    when a run of two days precedes them. *)
Example three_days_one_range :
  SerialCheck.report
    [SerialCheck.sample_diff 10 "4906k34406" "4925k35321";
     SerialCheck.sample_diff 11 "4906k34406" "4925k35321";
     SerialCheck.sample_diff 12 "4906k34406" "4925k35321"]
  = Ok [SerialCheck.WarningFrom (pyDate.of_year_doy 2020 10);
        SerialCheck.WarningTo (pyDate.of_year_doy 2020 12) "4906k34406" "4925k35321"] /\
  SerialCheck.report
    [SerialCheck.sample_diff 3 "a" "b"; SerialCheck.sample_diff 4 "a" "b";
     SerialCheck.sample_diff 10 "c" "d"; SerialCheck.sample_diff 11 "c" "d";
     SerialCheck.sample_diff 12 "c" "d"]
  = Ok [SerialCheck.WarningFrom (pyDate.of_year_doy 2020 3);
        SerialCheck.WarningTo (pyDate.of_year_doy 2020 4) "a" "b";
        SerialCheck.WarningFrom (pyDate.of_year_doy 2020 10);
        SerialCheck.WarningTo (pyDate.of_year_doy 2020 12) "c" "d"].
Proof. split; reflexivity. Qed.

Section DispatcherFacts.
Import pyDate Dispatcher.
Variable env : Env.
Variables start_date end_date : Date.

Lemma filter_in_range net stn (rows : list Rinex.row) :
  List.filter (Rinex.in_range net stn start_date end_date) rows
  = List.filter (fun r => (Rinex.midnight start_date <=? Rinex.ObservationSTime r)%Z
                          && (Rinex.ObservationSTime r <=? Rinex.midnight end_date)%Z)
      (List.filter (Rinex.of_station net stn) rows).
Proof.
  induction rows as [|r rows IH]; [reflexivity|].
  cbn [List.filter]. unfold Rinex.in_range at 1.
  destruct (Rinex.of_station net stn r); cbn [andb List.filter].
  - destruct (_ && _); [f_equal|]; exact IH.
  - exact IH.
Qed.

Lemma select_same net stn (rows rows' : list Rinex.row) :
  List.filter (Rinex.of_station net stn) rows = List.filter (Rinex.of_station net stn) rows' ->
  Rinex.select rows net stn start_date end_date
  = Rinex.select rows' net stn start_date end_date.
Proof. intros H. unfold Rinex.select. rewrite !filter_in_range, H. reflexivity. Qed.

Lemma selected_of_station net stn (rows : list Rinex.row) rnx :
  In rnx (Rinex.select rows net stn start_date end_date) ->
  Rinex.of_station net stn rnx = true.
Proof.
  unfold Rinex.select, Rinex.order_by_stime. intros H.
  apply (Permutation_in _ (sort_by_perm _ _)) in H.
  apply filter_In in H as [_ H]. unfold Rinex.in_range in H.
  rewrite !andb_true_iff in H. tauto.
Qed.

(** Taking a row of a station away leaves the rows of the others. *)
Lemma removal_keeps_others net stn (rnx : Rinex.row) (s : string * string)
    (rows : list Rinex.row) :
  Rinex.of_station net stn rnx = true -> s <> (net, stn) ->
  List.filter (Rinex.of_station (fst s) (snd s))
    (List.filter (fun r => negb (
       String.eqb (Rinex.NetworkCode r) (Rinex.NetworkCode rnx) &&
       String.eqb (Rinex.StationCode r) (Rinex.StationCode rnx) &&
       (Rinex.ObservationYear r =? Rinex.ObservationYear rnx)%Z &&
       (Rinex.ObservationDOY r =? Rinex.ObservationDOY rnx)%Z &&
       String.eqb (Rinex.Filename r) (Rinex.Filename rnx))) rows)
  = List.filter (Rinex.of_station (fst s) (snd s)) rows.
Proof.
  intros Hrnx Hs. unfold Rinex.of_station in Hrnx.
  apply andb_true_iff in Hrnx as [Hn Hc]. apply String.eqb_eq in Hn, Hc.
  induction rows as [|r rows IH]; [reflexivity|].
  cbn [List.filter].
  destruct (String.eqb (Rinex.NetworkCode r) (Rinex.NetworkCode rnx)) eqn:En;
    [|cbn [andb negb List.filter]; rewrite IH; reflexivity].
  destruct (String.eqb (Rinex.StationCode r) (Rinex.StationCode rnx)) eqn:Ec;
    [|cbn [andb negb List.filter]; rewrite IH; reflexivity].
  apply String.eqb_eq in En, Ec.
  assert (Hout : Rinex.of_station (fst s) (snd s) r = false).
  { unfold Rinex.of_station.
    destruct (String.eqb (Rinex.NetworkCode r) (fst s)) eqn:E1; [|reflexivity].
    destruct (String.eqb (Rinex.StationCode r) (snd s)) eqn:E2; [|reflexivity].
    apply String.eqb_eq in E1, E2. exfalso. apply Hs.
    destruct s as [a b]. cbn [fst snd] in *. congruence. }
  rewrite Hout. destruct (negb _); [cbn [List.filter]; rewrite Hout|]; exact IH.
Qed.

(** The loop over the files leaves the archive and the rows of the other
    stations as they are, however it ends. *)
Lemma check_files_frame net stn (rnxtbl : list Rinex.row) :
  (forall rnx, In rnx rnxtbl -> Rinex.of_station net stn rnx = true) ->
  forall missing w r w',
    check_files env net stn rnxtbl missing w = (r, w') ->
    files w' = files w /\ dirs w' = dirs w /\
    forall s, s <> (net, stn) ->
      List.filter (Rinex.of_station (fst s) (snd s)) (rinex (db w'))
      = List.filter (Rinex.of_station (fst s) (snd s)) (rinex (db w)).
Proof.
  induction rnxtbl as [|rnx rest IH]; intros Hof missing w r w' H.
  - injection H as <- <-. auto.
  - cbn [check_files] in H. unfold mbind at 1, M_bind at 1, get in H.
    assert (Hrest : forall x, In x rest -> Rinex.of_station net stn x = true)
      by (intros x Hx; apply Hof; right; exact Hx).
    destruct (bool_decide _ || bool_decide _); [eapply IH; eassumption|].
    unfold mbind at 1, M_bind at 1, simulate in H.
    destruct (bool_decide (faults env (net, stn) = Some AtRemove));
      [injection H as <- <-; auto|].
    unfold mbind at 1, M_bind at 1, remove_rinex, modify in H.
    unfold mbind at 1, M_bind at 1, lift in H.
    match type of H with
    | context [check_files env net stn rest ?ms] => set (ms' := ms) in H
    end.
    match type of H with
    | context [set_db (set_rinex ?rows (db w)) w] => set (rows' := rows) in H
    end.
    assert (Hrows : forall s, s <> (net, stn) ->
              List.filter (Rinex.of_station (fst s) (snd s)) rows'
              = List.filter (Rinex.of_station (fst s) (snd s)) (rinex (db w))).
    { intros s Hs. apply removal_keeps_others with (net := net) (stn := stn);
        [apply Hof; left; reflexivity|exact Hs]. }
    clearbody rows'.
    destruct (pyEvents.__init__ _ _) as [event|e].
    + unfold mbind at 1, M_bind at 1, insert_event, modify in H.
      apply (IH Hrest) in H as (Hf & Hd & Hr).
      cbn [files dirs db rinex set_db set_rinex set_events] in Hf, Hd, Hr.
      split; [exact Hf|]. split; [exact Hd|].
      intros s Hs. rewrite (Hr s Hs). apply Hrows. exact Hs.
    + injection H as <- <-. cbn [files dirs db rinex set_db set_rinex].
      split; [reflexivity|]. split; [reflexivity|]. exact Hrows.
Qed.

(** Whether the loop over the files raises depends on the files of the
    archive alone. *)
Lemma check_files_kind net stn (rnxtbl : list Rinex.row) : forall m1 m2 w1 w2,
  files w1 = files w2 -> dirs w1 = dirs w2 ->
  is_Ok (fst (check_files env net stn rnxtbl m1 w1))
  = is_Ok (fst (check_files env net stn rnxtbl m2 w2)).
Proof.
  induction rnxtbl as [|rnx rest IH]; intros m1 m2 w1 w2 Hf Hd; [reflexivity|].
  cbn [check_files]. unfold mbind, M_bind, get, simulate, remove_rinex, modify, lift, insert_event.
  rewrite Hf, Hd.
  destruct (bool_decide _ || bool_decide _); [apply IH; assumption|].
  destruct (bool_decide (faults env (net, stn) = Some AtRemove)); [reflexivity|].
  destruct (pyEvents.__init__ _ _) as [event|e]; [|reflexivity].
  apply IH; cbn [files dirs set_db]; assumption.
Qed.

(** Whether an exception is raised inside the task of a station depends
    on the archive and on the rows of the station alone. *)
Lemma raises_inside_same (stn : string * string) (w1 w2 : World) :
  same_for stn w1 w2 ->
  raises_inside env start_date end_date w1 stn = raises_inside env start_date end_date w2 stn.
Proof.
  intros (Hf & Hd & Hr). unfold raises_inside, task_body, check_rinex_body. f_equal.
  unfold mbind, M_bind, simulate, get.
  destruct (bool_decide (faults env (fst stn, snd stn) = Some AtConnect)); [reflexivity|].
  destruct (bool_decide (faults env (fst stn, snd stn) = Some AtQuery)); [reflexivity|].
  rewrite (select_same _ _ _ _ Hr). apply check_files_kind; assumption.
Qed.

(** The task of a station returns an entry, the error entry exactly when
    an exception is raised inside it, and leaves to the tasks of the other
    stations what they read. *)
Lemma task_entry net stn (w : World) :
  exists r w',
    check_rinex_stn env net stn start_date end_date w = (Ok r, w') /\
    (if raises_inside env start_date end_date w (net, stn)
     then error_entry env (net, stn) r else success_entry r) /\
    forall s, s <> (net, stn) -> same_for s w' w.
Proof.
  unfold check_rinex_stn, raises_inside, task_body, try_except. cbn [fst snd].
  unfold mbind at 1 2 4, M_bind at 1 2 4, simulate at 1 2.
  destruct (bool_decide (faults env (net, stn) = Some AtConnect)).
  - eexists _, w. split; [reflexivity|]. split; [left; reflexivity|].
    intros s _. repeat split.
  - unfold mret at 1, M_ret at 1. cbv beta iota.
    destruct (check_rinex_body env net stn start_date end_date w) as [[missing|e] w'] eqn:Hb.
    + unfold mbind, M_bind. rewrite Hb. eexists _, w'. split; [reflexivity|].
      split; [exists missing; reflexivity|].
      intros s Hs. unfold check_rinex_body, mbind, M_bind, simulate, get in Hb.
      destruct (bool_decide _); [discriminate|].
      apply check_files_frame in Hb as (Hf & Hd & Hr);
        [|intros rnx; apply selected_of_station].
      repeat split; [exact Hf|exact Hd|apply Hr; exact Hs].
    + unfold mbind, M_bind. rewrite Hb. eexists _, w'. split; [reflexivity|].
      split; [right; reflexivity|].
      intros s Hs. unfold check_rinex_body, mbind, M_bind, simulate, get in Hb.
      destruct (bool_decide _); [injection Hb as <- <-; repeat split|].
      apply check_files_frame in Hb as (Hf & Hd & Hr);
        [|intros rnx; apply selected_of_station].
      repeat split; [exact Hf|exact Hd|apply Hr; exact Hs].
Qed.

Lemma wait_isolates (k : string * string) (w0 : World) :
  raises_inside env start_date end_date w0 k = true ->
  forall completion,
    List.NoDup completion ->
    (forall stn, In stn completion -> stn <> k ->
       raises_inside env start_date end_date w0 stn = false) ->
    forall globals w,
      (forall stn, In stn completion -> same_for stn w w0) ->
      exists results w',
        wait (map (fun stn => check_rinex_stn env (fst stn) (snd stn) start_date end_date)
                completion) stnrnx_callback globals w
        = (Ok ((fst globals ++ results)%list, snd globals), w') /\
        Forall2 (fun stn r => if bool_decide (stn = k) then error_entry env k r
                              else success_entry r) completion results.
Proof.
  intros Hk. induction completion as [|stn rest IH]; intros Hnd Hothers globals w Hsame.
  - exists [], w. rewrite app_nil_r. destruct globals. split; [reflexivity|constructor].
  - apply List.NoDup_cons_iff in Hnd as [Hfresh Hnd].
    cbn [map wait]. unfold mbind at 1, M_bind at 1, run_job.
    destruct stn as [net code]. cbn [fst snd].
    destruct (task_entry net code w) as (r & w1 & Hrun & Hentry & Hframe).
    rewrite Hrun.
    rewrite (raises_inside_same (net, code) w w0) in Hentry
      by (apply Hsame; left; reflexivity).
    destruct (IH Hnd (fun s Hs => Hothers s (or_intror Hs))
                (stnrnx_callback (mkJob (Some r) "") globals) w1)
      as (results & w' & Hwait & Hall).
    { intros s Hs. assert (Hne : s <> (net, code)) by (intros ->; contradiction).
      destruct (Hframe s Hne) as (Hf & Hd & Hr).
      destruct (Hsame s (or_intror Hs)) as (Hf0 & Hd0 & Hr0).
      repeat split; congruence. }
    exists (r :: results), w'. split.
    + rewrite Hwait. unfold stnrnx_callback. cbn [job_result fst snd].
      rewrite <- app_assoc. reflexivity.
    + constructor; [|exact Hall].
      destruct (decide ((net, code) = k)) as [<-|Hne].
      * rewrite bool_decide_eq_true_2 by reflexivity. rewrite Hk in Hentry. exact Hentry.
      * rewrite bool_decide_eq_false_2 by exact Hne.
        rewrite (Hothers (net, code) (or_introl eq_refl) Hne) in Hentry. exact Hentry.
Qed.

Lemma error_entry_is_error stn r : error_entry env stn r -> is_error r = true.
Proof. intros [-> | ->]; reflexivity. Qed.

Lemma success_entry_is_not_error r : success_entry r -> is_error r = false.
Proof. intros [m ->]. reflexivity. Qed.

Lemma count_entries (k : string * string) completion results :
  Forall2 (fun stn r => if bool_decide (stn = k) then error_entry env k r
                        else success_entry r) completion results ->
  length (List.filter is_error results)
  = length (List.filter (fun stn => bool_decide (stn = k)) completion) /\
  length (List.filter (fun r => negb (is_error r)) results)
  = length (List.filter (fun stn => negb (bool_decide (stn = k))) completion).
Proof.
  induction 1 as [|stn r completion results Hr Hall IH]; [split; reflexivity|].
  destruct IH as [IH1 IH2]. cbn [List.filter].
  destruct (bool_decide (stn = k)).
  - rewrite (error_entry_is_error _ _ Hr). cbn [negb length]. split; congruence.
  - rewrite (success_entry_is_not_error _ Hr). cbn [negb length]. split; congruence.
Qed.

Lemma count_once (k : string * string) completion :
  List.NoDup completion -> In k completion ->
  length (List.filter (fun stn => bool_decide (stn = k)) completion) = 1%nat /\
  length (List.filter (fun stn => negb (bool_decide (stn = k))) completion)
  = (length completion - 1)%nat.
Proof.
  induction completion as [|stn rest IH]; intros Hnd Hin; [destruct Hin|].
  inversion Hnd as [|? ? Hnotin Hnd']; subst. cbn [List.filter].
  destruct (decide (stn = k)) as [Heq|Hne].
  - subst stn. rewrite bool_decide_eq_true_2 by reflexivity. cbn [negb length].
    assert (Hnone : forall l, ~ In k l ->
              List.filter (fun stn => bool_decide (stn = k)) l = [] /\
              List.filter (fun stn => negb (bool_decide (stn = k))) l = l).
    { induction l as [|x l IHl]; intros Hx; [split; reflexivity|].
      cbn [List.filter]. rewrite bool_decide_eq_false_2.
      - cbn [negb]. destruct IHl as [H1 H2]; [intros ?; apply Hx; right; assumption|].
        rewrite H1, H2. split; reflexivity.
      - intros ->. apply Hx. left. reflexivity. }
    destruct (Hnone rest Hnotin) as [H1 H2]. rewrite H1, H2. simpl. split; lia.
  - rewrite bool_decide_eq_false_2 by exact Hne. cbn [negb length].
    destruct Hin as [Hin|Hin]; [contradiction|].
    destruct (IH Hnd' Hin) as [H1 H2]. rewrite H1, H2.
    destruct rest; [destruct Hin|]. simpl. split; lia.
Qed.

(** C7.  The stations of a batch are checked, an exception is raised
    inside the check of station [k], wherever in it (when the connection
    is opened, when the inventory is queried, or in the loop over the
    files, when a row is removed or its event is built), and none is
    raised inside the other checks.  Whatever the order in which the jobs
    finish, [CheckRinexIntegrity] returns, nothing is propagated to the
    dispatcher, and the collected results gain one entry for each station:
    the error entry of [k] and a success entry for each of the others. *)
Theorem CheckRinexIntegrity_isolates_failure (k : string * string)
    (completion : list (string * string))
    (globals : list outcome * list string) (w : World) :
  List.NoDup completion -> In k completion ->
  raises_inside env start_date end_date w k = true ->
  (forall stn, In stn completion -> stn <> k ->
     raises_inside env start_date end_date w stn = false) ->
  exists results w',
    CheckRinexIntegrity env completion start_date end_date globals w
    = (Ok (((fst globals ++ results)%list, snd globals), []), w') /\
    Forall2 (fun stn r => if bool_decide (stn = k) then error_entry env k r
                          else success_entry r) completion results /\
    length results = length completion /\
    length (List.filter is_error results) = 1%nat /\
    length (List.filter (fun r => negb (is_error r)) results) = (length completion - 1)%nat.
Proof.
  intros Hnd Hin Hk Hothers.
  destruct (wait_isolates k w Hk completion Hnd Hothers globals w
              ltac:(intros stn _; repeat split))
    as (results & w' & Hw & Hall).
  exists results, w'. unfold CheckRinexIntegrity.
  unfold mbind, M_bind. rewrite Hw. split; [reflexivity|]. split; [exact Hall|].
  split; [symmetry; eapply Forall2_length; exact Hall|].
  destruct (count_entries k completion results Hall) as [H1 H2].
  destruct (count_once k completion Hnd Hin) as [H3 H4].
  split; congruence.
Qed.

(** Where an exception is raised inside a task: when the connection is
    opened or the inventory is queried, if that step fails; else in the
    loop over the files, if a file of the station is missing and the
    removal of its row fails or its event cannot be built. *)
Lemma raises_inside_at_connect_or_query (stn : string * string) (w : World) :
  faults env stn = Some AtConnect \/ faults env stn = Some AtQuery ->
  raises_inside env start_date end_date w stn = true.
Proof.
  destruct stn as [net code]. unfold raises_inside, task_body, check_rinex_body.
  unfold mbind, M_bind, simulate, get. cbn [fst snd]. intros [H|H]; rewrite H.
  - rewrite bool_decide_eq_true_2 by reflexivity. reflexivity.
  - rewrite bool_decide_eq_false_2 by discriminate.
    rewrite bool_decide_eq_true_2 by reflexivity. reflexivity.
Qed.

End DispatcherFacts.

(** Three stations are checked; a file of rms.igm1 is missing from the
    archive and the removal of its row is made to fail, inside the loop
    over the files. *)
Lemma CheckRinexIntegrity_isolates_failure_witness :
  let env := Dispatcher.mkEnv Rename.sample_path "/archive" "node1"
               "Traceback (most recent call last): ..."
               (pyEvents.mkEnv 0 "node1" (Some "pyIntegrityCheck") "check_rinex_stn"
                  [("<module>", ""); ("run", ""); ("check_rinex_stn", ""); ("__init__", "")])
               (fun stn => if bool_decide (stn = ("rms", "igm1"))
                           then Some Dispatcher.AtRemove else None) in
  exists results w',
    Dispatcher.CheckRinexIntegrity env [("rms", "igm1"); ("rms", "lpgs"); ("arg", "unsj")]
      (pyDate.of_year_doy 2020 1) (pyDate.of_year_doy 2020 30) ([], [])
      MissingFiles.sample_world
    = (Ok ((results, []), []), w') /\
    length results = 3%nat /\
    length (List.filter Dispatcher.is_error results) = 1%nat /\
    length (List.filter (fun r => negb (Dispatcher.is_error r)) results) = 2%nat.
Proof.
  cbv zeta.
  destruct (CheckRinexIntegrity_isolates_failure
              (Dispatcher.mkEnv Rename.sample_path "/archive" "node1"
                 "Traceback (most recent call last): ..."
                 (pyEvents.mkEnv 0 "node1" (Some "pyIntegrityCheck") "check_rinex_stn"
                    [("<module>", ""); ("run", ""); ("check_rinex_stn", ""); ("__init__", "")])
                 (fun stn => if bool_decide (stn = ("rms", "igm1"))
                             then Some Dispatcher.AtRemove else None))
              (pyDate.of_year_doy 2020 1) (pyDate.of_year_doy 2020 30)
              ("rms", "igm1")
              [("rms", "igm1"); ("rms", "lpgs"); ("arg", "unsj")]
              ([], []) MissingFiles.sample_world)
    as (results & w' & Hrun & _ & Hlen & Herr & Hok).
  - repeat constructor; cbn; intuition congruence.
  - cbn. tauto.
  - vm_compute. reflexivity.
  - intros stn [<-|[<-|[<-|[]]]] Hne; [contradiction| |]; vm_compute; reflexivity.
  - exists results, w'. repeat split; assumption.
Defined.

(** The same batch where no step is made to fail but no event can be
    built (the call stack [Event()] inspects is empty): the exception is
    raised inside the loop over the files of rms.igm1, whose file is
    missing, and the entry of the station is its error entry. *)
Example event_failure_is_isolated :
  let env := Dispatcher.mkEnv Rename.sample_path "/archive" "node1"
               "Traceback (most recent call last): ..."
               (pyEvents.mkEnv 0 "node1" (Some "pyIntegrityCheck") "check_rinex_stn" [])
               (fun _ => None) in
  let batch := [("rms", "igm1"); ("rms", "lpgs"); ("arg", "unsj")] in
  map (Dispatcher.raises_inside env (pyDate.of_year_doy 2020 1) (pyDate.of_year_doy 2020 30)
         MissingFiles.sample_world) batch = [true; false; false] /\
  fst (Dispatcher.CheckRinexIntegrity env batch
         (pyDate.of_year_doy 2020 1) (pyDate.of_year_doy 2020 30) ([], [])
         MissingFiles.sample_world)
  = Ok (([(Some "Traceback (most recent call last): ... processing: rms.igm1 using node node1", None);
          (None, Some []); (None, Some [])], []), []).
Proof. cbv zeta. split; vm_compute; reflexivity. Qed.
